(** * nohumanallowed: proof-of-work challenges, their solver and session tokens

    A shallow embedding of [packages/core/src]: [createChallenge],
    [verifyChallenge], [generateToken], [verifyToken] (index.ts),
    [solveChallenge] (client.ts) and [parseArgs] (cli.ts), with the
    JavaScript built-ins they call, and of the Node program that
    [skill/scripts/solve.sh] runs.

    Conventions of the embedding.
    - A JavaScript number is [NaN], an infinity or a finite value carried as
      an exact rational; integer counters stop growing at 2^53 as doubles do,
      other rounding is not represented: a sum is the exact sum, which is
      what the code computes whenever the exact sum is a double.
    - A JavaScript string is a byte string: well-formed text in UTF-8.  The
      delimiters the code looks for are ASCII, so [split], [startsWith] and
      emptiness agree with their UTF-16 originals; [Buffer.from(s)] and
      [buffer.toString()] are the identity on such text.
    - Arguments that the code inspects with [typeof] at run time range over
      every JavaScript value ([JsVal]); the others range over their declared
      TypeScript type, an optional field being an [option].
    - A function that can throw returns in the monad [Exn].  The call stack
      is not represented: a recursion of the source that would exhaust it
      (a RangeError) goes on here.
    - The wall clock ([Date.now()], integer milliseconds) and the random
      source are explicit arguments.  The solver, which reads the clock
      several times, takes the successive readings as a function.
    - The loop of [solveChallenge] and the loop of the script are run for a
      bounded number of turns ([fuel]) and say so when they run out;
      awaiting a digest is taking its value.
    - SHA-256, HMAC-SHA256 and the printing of non-integral numbers are taken
      from a [Platform]; [node] is the instance with the real digests. *)

From Stdlib Require Import ZArith NArith QArith Qround List String Ascii Bool Lia.
From Stdlib Require Import DecimalString DecimalFacts DecimalPos DecimalN DecimalZ.
Import ListNotations.

Local Open Scope string_scope.
Local Open Scope Z_scope.

(* ================================================================== *)
(** * Part I. Definitions                                              *)
(* ================================================================== *)

(** ** Exceptions *)

Inductive JsError : Type :=
| TypeError (msg : string)
| RangeError (msg : string)
| Error (msg : string).

Inductive Exn (A : Type) : Type :=
| Return (a : A)
| Throw (e : JsError).

Arguments Return {A} a.
Arguments Throw {A} e.

Definition bind {A B : Type} (m : Exn A) (k : A -> Exn B) : Exn B :=
  match m with
  | Return a => k a
  | Throw e => Throw e
  end.

(** [try { m } catch { h }] *)
Definition try_catch {A : Type} (m : Exn A) (h : JsError -> Exn A) : Exn A :=
  match m with
  | Return a => Return a
  | Throw e => h e
  end.

Definition returns {A : Type} (m : Exn A) : bool :=
  match m with Return _ => true | Throw _ => false end.

Declare Scope js_scope.
Delimit Scope js_scope with js.

Notation "x <- m ;; k" := (bind m (fun x => k))
  (at level 61, m at next level, right associativity) : js_scope.

(** [if (c) return r] followed by the rest of the function body. *)
Notation "'when' c 'give' r ;; k" := (if c then Return r else k)
  (at level 61, c at next level, r at next level, right associativity) : js_scope.

Local Open Scope js_scope.

(** ** Numbers *)

Inductive JsNum : Type :=
| NaN
| PosInf
| NegInf
| Fin (q : Q).

Definition ofZ (z : Z) : JsNum := Fin (inject_Z z).

Definition Qltb (a b : Q) : bool := negb (Qle_bool b a).

(** [a < b] *)
Definition num_ltb (a b : JsNum) : bool :=
  match a, b with
  | NaN, _ | _, NaN => false
  | Fin x, Fin y => Qltb x y
  | NegInf, NegInf => false
  | NegInf, _ => true
  | PosInf, _ => false
  | Fin _, PosInf => true
  | Fin _, NegInf => false
  end.

(** [a <= b] *)
Definition num_leb (a b : JsNum) : bool :=
  match a, b with
  | NaN, _ | _, NaN => false
  | Fin x, Fin y => Qle_bool x y
  | NegInf, _ => true
  | PosInf, PosInf => true
  | PosInf, _ => false
  | Fin _, PosInf => true
  | Fin _, NegInf => false
  end.

(** [a > b] and [a >= b] *)
Definition num_gtb (a b : JsNum) : bool := num_ltb b a.
Definition num_geb (a b : JsNum) : bool := num_leb b a.

Definition num_isFinite (a : JsNum) : bool :=
  match a with Fin _ => true | _ => false end.

(** [a + b], without the rounding of the sum to a double *)
Definition num_add (a b : JsNum) : JsNum :=
  match a, b with
  | NaN, _ | _, NaN => NaN
  | Fin x, Fin y => Fin (x + y)%Q
  | PosInf, NegInf | NegInf, PosInf => NaN
  | PosInf, _ | _, PosInf => PosInf
  | NegInf, _ | _, NegInf => NegInf
  end.

(** [a - b] *)
Definition num_sub (a b : JsNum) : JsNum :=
  match a, b with
  | NaN, _ | _, NaN => NaN
  | Fin x, Fin y => Fin (x - y)%Q
  | PosInf, PosInf | NegInf, NegInf => NaN
  | PosInf, _ | _, NegInf => PosInf
  | NegInf, _ | _, PosInf => NegInf
  end.

Definition Math_floor (a : JsNum) : JsNum :=
  match a with
  | Fin q => ofZ (Qfloor q)
  | _ => a
  end.

Definition Math_min (a b : JsNum) : JsNum :=
  match a, b with
  | NaN, _ | _, NaN => NaN
  | _, _ => if num_ltb b a then b else a
  end.

Definition Math_max (a b : JsNum) : JsNum :=
  match a, b with
  | NaN, _ | _, NaN => NaN
  | _, _ => if num_ltb a b then b else a
  end.

(** [a === b] *)
Definition num_eqb (a b : JsNum) : bool :=
  match a, b with
  | Fin x, Fin y => Qeq_bool x y
  | PosInf, PosInf | NegInf, NegInf => true
  | _, _ => false
  end.

(** The integer part of a rational, towards zero. *)
Definition Qtrunc (q : Q) : Z := Z.quot (Qnum q) (Zpos (Qden q)).

(** [a % b]: the remainder has the sign of the dividend. *)
Definition num_rem (a b : JsNum) : JsNum :=
  match a, b with
  | Fin x, Fin y =>
      if Qeq_bool y 0 then NaN
      else Fin (x - y * inject_Z (Qtrunc (x / y)))%Q
  | Fin x, (PosInf | NegInf) => Fin x
  | _, _ => NaN
  end.

(** The largest integer up to which every integer is a double: [n + 1]
    rounds back to [n] there, so [n++] no longer moves. *)
Definition MAX_EXACT : Z := 2 ^ 53.

Definition incr (n : Z) : Z := if n <? MAX_EXACT then n + 1 else n.

(** ** Values *)

#[local] Set Warnings "-register-all".

Inductive JsVal : Type :=
| VUndefined
| VNull
| VBool (b : bool)
| VNum (n : JsNum)
| VBigInt (z : Z)
| VStr (s : string)
| VArr (items : list JsVal)
| VObj (fields : list (string * JsVal)).

Inductive JsType : Type :=
| TUndefined | TObject | TBoolean | TNumber | TBigint | TString.

Definition typeof (v : JsVal) : JsType :=
  match v with
  | VUndefined => TUndefined
  | VNull | VArr _ | VObj _ => TObject
  | VBool _ => TBoolean
  | VNum _ => TNumber
  | VBigInt _ => TBigint
  | VStr _ => TString
  end.

Definition JsType_eqb (a b : JsType) : bool :=
  match a, b with
  | TUndefined, TUndefined | TObject, TObject | TBoolean, TBoolean
  | TNumber, TNumber | TBigint, TBigint | TString, TString => true
  | _, _ => false
  end.

Definition str_truthy (s : string) : bool :=
  match s with EmptyString => false | String _ _ => true end.

(** ToBoolean *)
Definition truthy (v : JsVal) : bool :=
  match v with
  | VUndefined | VNull => false
  | VBool b => b
  | VNum (Fin q) => negb (Qeq_bool q 0)
  | VNum NaN => false
  | VNum _ => true
  | VBigInt z => negb (z =? 0)
  | VStr s => str_truthy s
  | VArr _ | VObj _ => true
  end.

(** Truthiness of an optional string ([secret], [signature]) and of an
    optional boolean flag. *)
Definition given (o : option string) : bool :=
  match o with Some s => str_truthy s | None => false end.

Definition flag (o : option bool) : bool :=
  match o with Some b => b | None => false end.

Definition is_undefined (v : JsVal) : bool :=
  match v with VUndefined => true | _ => false end.

Definition is_null (v : JsVal) : bool :=
  match v with VNull => true | _ => false end.

(** [Number.isFinite(v)]: no coercion, false for whatever is not a number. *)
Definition Number_isFinite (v : JsVal) : bool :=
  match v with VNum n => num_isFinite n | _ => false end.

(** The number a value already is; the callers test [Number.isFinite]
    first, so the coercion of other values is never needed. *)
Definition asNumber (v : JsVal) : JsNum :=
  match v with VNum n => n | _ => NaN end.

(** ** Strings *)

Definition dquote : string := String (ascii_of_nat 34) EmptyString.

(** [s.startsWith(p)] *)
Definition startsWith (s p : string) : bool := String.prefix p s.

(** [s.slice(0, n)] for a length [n] that is a literal in the code *)
Definition slice0 (n : nat) (s : string) : string := String.substring 0 n s.

(** [s.split(sep)] for a separator of one character: never an empty list *)
Fixpoint split (sep : ascii) (s : string) : list string :=
  match s with
  | EmptyString => [EmptyString]
  | String c rest =>
      if Ascii.eqb c sep then EmptyString :: split sep rest
      else match split sep rest with
           | h :: t => String c h :: t
           | [] => [String c EmptyString]
           end
  end.

(** [s.includes(c)] for one character *)
Fixpoint contains (c : ascii) (s : string) : bool :=
  match s with
  | EmptyString => false
  | String a rest => Ascii.eqb a c || contains c rest
  end.

(** [n] copies of [s] *)
Fixpoint repeat_string (s : string) (n : nat) : string :=
  match n with
  | O => EmptyString
  | S n' => s ++ repeat_string s n'
  end.

(** [s.repeat(count)]: the count is truncated to an integer; a negative or
    infinite count is a RangeError. *)
Definition String_repeat (s : string) (count : JsNum) : Exn string :=
  match count with
  | NaN => Return EmptyString
  | PosInf | NegInf => Throw (RangeError "Invalid count value")
  | Fin q =>
      let n := Qtrunc q in
      if n <? 0 then Throw (RangeError "Invalid count value")
      else Return (repeat_string s (Z.to_nat n))
  end.

(** [/^0{1,6}$/.test(s)]: without the [m] flag [$] is the end of the input. *)
Fixpoint all_zeros (s : string) : bool :=
  match s with
  | EmptyString => true
  | String c rest => Ascii.eqb c "0" && all_zeros rest
  end.

Definition matches_zeros_1_6 (s : string) : bool :=
  (1 <=? String.length s)%nat && (String.length s <=? 6)%nat && all_zeros s.

(** Lower-case hexadecimal, two digits a byte: [buffer.toString('hex')] *)
Definition hex_digit (n : N) : ascii :=
  if (n <? 10)%N then ascii_of_N (48 + n) else ascii_of_N (87 + n).

Definition hex_byte (b : N) : string :=
  String (hex_digit (b / 16)) (String (hex_digit (b mod 16)) EmptyString).

Fixpoint hex_of_bytes (l : list N) : string :=
  match l with
  | [] => EmptyString
  | b :: rest => hex_byte b ++ hex_of_bytes rest
  end.

Definition bytes_of_string (s : string) : list N :=
  map N_of_ascii (list_ascii_of_string s).

(** ** Decimal digits *)

(** The digits of an integer, with a minus sign when negative. *)
Definition Z_toString (z : Z) : string := NilZero.string_of_int (Z.to_int z).

Definition is_space (c : ascii) : bool :=
  let n := N_of_ascii c in
  ((n =? 32) || ((9 <=? n) && (n <=? 13)))%N.

Fixpoint trimStart (s : string) : string :=
  match s with
  | String c rest => if is_space c then trimStart rest else s
  | EmptyString => s
  end.

Definition digit_of (c : ascii) : option Z :=
  let n := Z.of_N (N_of_ascii c) in
  if (48 <=? n) && (n <=? 57) then Some (n - 48) else None.

(** The value of the longest prefix of digits, continuing from [acc]. *)
Fixpoint digits_value (s : string) (acc : Z) : Z :=
  match s with
  | String c rest =>
      match digit_of c with
      | Some d => digits_value rest (10 * acc + d)
      | None => acc
      end
  | EmptyString => acc
  end.

Definition starts_with_digit (s : string) : bool :=
  match s with
  | String c _ => match digit_of c with Some _ => true | None => false end
  | EmptyString => false
  end.

(** From here on an integer rounds to an infinity as a double. *)
Definition DOUBLE_OVERFLOW : Z := 2 ^ 1024 - 2 ^ 970.

Definition number_of_integer (z : Z) : JsNum :=
  if DOUBLE_OVERFLOW <=? z then PosInf
  else if z <=? - DOUBLE_OVERFLOW then NegInf
  else ofZ z.

(** [parseInt(s, 10)]: leading white space (that of ASCII), a sign, then
    the longest run of digits; [NaN] when there is no digit. *)
Definition parseInt10 (s : string) : JsNum :=
  let s := trimStart s in
  let '(negative, body) :=
    match s with
    | String "-" rest => (true, rest)
    | String "+" rest => (false, rest)
    | _ => (false, s)
    end in
  if starts_with_digit body
  then number_of_integer (if negative then - digits_value body 0 else digits_value body 0)
  else NaN.

(** The integer a rational is, if it is one. *)
Definition Q_integer (q : Q) : option Z :=
  if Qnum q mod Zpos (Qden q) =? 0 then Some (Qnum q / Zpos (Qden q)) else None.

(** ** Base64, as [Buffer] encodes and decodes it *)

Module Base64.

Definition alphabet : string :=
  "ABCDEFGHIJKLMNOPQRSTUVWXYZabcdefghijklmnopqrstuvwxyz0123456789+/".

Definition pad : ascii := "="%char.

(** Six bits, the most significant first. *)
Definition sextet : Type := (bool * bool * bool * bool * bool * bool)%type.

Definition sextet_value (t : sextet) : nat :=
  let '(b5, b4, b3, b2, b1, b0) := t in
  (32 * Nat.b2n b5 + 16 * Nat.b2n b4 + 8 * Nat.b2n b3
   + 4 * Nat.b2n b2 + 2 * Nat.b2n b1 + Nat.b2n b0)%nat.

Definition sextet_of_N (n : N) : sextet :=
  (N.testbit n 5, N.testbit n 4, N.testbit n 3,
   N.testbit n 2, N.testbit n 1, N.testbit n 0).

Definition char_of_sextet (t : sextet) : ascii :=
  match String.get (sextet_value t) alphabet with
  | Some c => c
  | None => pad
  end.

(** The decoder's table: it reads the URL-safe [-] and [_] as well. *)
Definition sextet_of_char (c : ascii) : option sextet :=
  let n := N_of_ascii c in
  (if (65 <=? n) && (n <=? 90) then Some (sextet_of_N (n - 65))
   else if (97 <=? n) && (n <=? 122) then Some (sextet_of_N (n - 71))
   else if (48 <=? n) && (n <=? 57) then Some (sextet_of_N (n + 4))
   else if (n =? 43) || (n =? 45) then Some (sextet_of_N 62)
   else if (n =? 47) || (n =? 95) then Some (sextet_of_N 63)
   else None)%N.

(** The four sextets of three bytes [a b c]. *)
Definition sx1 (a : ascii) : sextet :=
  let 'Ascii _ _ a2 a3 a4 a5 a6 a7 := a in (a7, a6, a5, a4, a3, a2).

Definition sx2 (a b : ascii) : sextet :=
  let 'Ascii a0 a1 _ _ _ _ _ _ := a in
  let 'Ascii _ _ _ _ b4 b5 b6 b7 := b in (a1, a0, b7, b6, b5, b4).

Definition sx3 (b c : ascii) : sextet :=
  let 'Ascii b0 b1 b2 b3 _ _ _ _ := b in
  let 'Ascii _ _ _ _ _ _ c6 c7 := c in (b3, b2, b1, b0, c7, c6).

Definition sx4 (c : ascii) : sextet :=
  let 'Ascii c0 c1 c2 c3 c4 c5 _ _ := c in (c5, c4, c3, c2, c1, c0).

(** The three bytes of four sextets. *)
Definition byte1 (s1 s2 : sextet) : ascii :=
  let '(p5, p4, p3, p2, p1, p0) := s1 in
  let '(q5, q4, _, _, _, _) := s2 in
  Ascii q4 q5 p0 p1 p2 p3 p4 p5.

Definition byte2 (s2 s3 : sextet) : ascii :=
  let '(_, _, q3, q2, q1, q0) := s2 in
  let '(r5, r4, r3, r2, _, _) := s3 in
  Ascii r2 r3 r4 r5 q0 q1 q2 q3.

Definition byte3 (s3 s4 : sextet) : ascii :=
  let '(_, _, _, _, r1, r0) := s3 in
  let '(t5, t4, t3, t2, t1, t0) := s4 in
  Ascii t0 t1 t2 t3 t4 t5 r0 r1.

Fixpoint encode_list (l : list ascii) : list ascii :=
  match l with
  | a :: b :: c :: rest =>
      char_of_sextet (sx1 a) :: char_of_sextet (sx2 a b)
      :: char_of_sextet (sx3 b c) :: char_of_sextet (sx4 c) :: encode_list rest
  | [a; b] =>
      [char_of_sextet (sx1 a); char_of_sextet (sx2 a b);
       char_of_sextet (sx3 b zero); pad]
  | [a] => [char_of_sextet (sx1 a); char_of_sextet (sx2 a zero); pad; pad]
  | [] => []
  end.

(** The sextets of the legal characters, up to the first [=]; any other
    character is skipped. *)
Fixpoint sextets (l : list ascii) : list sextet :=
  match l with
  | [] => []
  | c :: rest =>
      match sextet_of_char c with
      | Some t => t :: sextets rest
      | None => if Ascii.eqb c pad then [] else sextets rest
      end
  end.

Fixpoint bytes_of_sextets (l : list sextet) : list ascii :=
  match l with
  | s1 :: s2 :: s3 :: s4 :: rest =>
      byte1 s1 s2 :: byte2 s2 s3 :: byte3 s3 s4 :: bytes_of_sextets rest
  | [s1; s2; s3] => [byte1 s1 s2; byte2 s2 s3]
  | [s1; s2] => [byte1 s1 s2]
  | _ => []
  end.

(** [Buffer.from(s).toString('base64')] *)
Definition encode (s : string) : string :=
  string_of_list_ascii (encode_list (list_ascii_of_string s)).

(** [Buffer.from(s, 'base64').toString()] *)
Definition decode (s : string) : string :=
  string_of_list_ascii (bytes_of_sextets (sextets (list_ascii_of_string s))).

End Base64.

(** ** SHA-256 and HMAC-SHA256 (FIPS 180-4, RFC 2104), as Node's [crypto]
    computes them *)

Module SHA256.

Local Open Scope list_scope.
Local Open Scope N_scope.

Definition word (x : N) : N := x mod 2 ^ 32.

Definition rotr (n x : N) : N :=
  N.lor (N.shiftr x n) (word (N.shiftl x (32 - n))).

Definition Ch (x y z : N) : N :=
  N.lxor (N.land x y) (N.land (N.lxor x (2 ^ 32 - 1)) z).

Definition Maj (x y z : N) : N :=
  N.lxor (N.lxor (N.land x y) (N.land x z)) (N.land y z).

Definition Sigma0 (x : N) : N := N.lxor (N.lxor (rotr 2 x) (rotr 13 x)) (rotr 22 x).
Definition Sigma1 (x : N) : N := N.lxor (N.lxor (rotr 6 x) (rotr 11 x)) (rotr 25 x).
Definition sigma0 (x : N) : N := N.lxor (N.lxor (rotr 7 x) (rotr 18 x)) (N.shiftr x 3).
Definition sigma1 (x : N) : N := N.lxor (N.lxor (rotr 17 x) (rotr 19 x)) (N.shiftr x 10).

Definition primes : list N :=
  [2; 3; 5; 7; 11; 13; 17; 19; 23; 29; 31; 37; 41; 43; 47; 53;
   59; 61; 67; 71; 73; 79; 83; 89; 97; 101; 103; 107; 109; 113; 127; 131;
   137; 139; 149; 151; 157; 163; 167; 173; 179; 181; 191; 193; 197; 199; 211; 223;
   227; 229; 233; 239; 241; 251; 257; 263; 269; 271; 277; 281; 283; 293; 307; 311].

(** The integer cube root, found bit by bit from the top. *)
Fixpoint cube_root_from (bits : nat) (low n : N) : N :=
  match bits with
  | O => low
  | S b =>
      let candidate := low + 2 ^ N.of_nat b in
      if candidate * candidate * candidate <=? n
      then cube_root_from b candidate n
      else cube_root_from b low n
  end.

(** The first 32 bits of the fractional part of a cube root and of a
    square root. *)
Definition frac_cbrt (p : N) : N := word (cube_root_from 36 0 (p * 2 ^ 96)).
Definition frac_sqrt (p : N) : N := word (N.sqrt (p * 2 ^ 64)).

Definition K : list N := Eval vm_compute in map frac_cbrt primes.
Definition H0 : list N := Eval vm_compute in map frac_sqrt (firstn 8 primes).

(** Padding: a 1 bit, zeros, and the bit length on 64 bits. *)
Fixpoint be_bytes (count : nat) (x : N) : list N :=
  match count with
  | O => []
  | S c => (x / 256 ^ N.of_nat c) mod 256 :: be_bytes c x
  end.

Definition padding (len : N) : list N :=
  let zeros := (55 + 64 - len mod 64) mod 64 in
  128 :: repeat 0 (N.to_nat zeros) ++ be_bytes 8 (8 * len).

Definition be_word (a b c d : N) : N := ((a * 256 + b) * 256 + c) * 256 + d.

Fixpoint words_of_bytes (l : list N) : list N :=
  match l with
  | a :: b :: c :: d :: rest => be_word a b c d :: words_of_bytes rest
  | _ => []
  end.

Fixpoint blocks (fuel : nat) (ws : list N) : list (list N) :=
  match fuel, ws with
  | S f, _ :: _ => firstn 16 ws :: blocks f (skipn 16 ws)
  | _, _ => []
  end.

Definition at_ (i : nat) (l : list N) : N := nth i l 0.

(** One round: the working variables [a..h] and a window of the last
    sixteen words of the message schedule. *)
Definition round (st : list N * list N) (k : N) : list N * list N :=
  let '(v, w) := st in
  let a := at_ 0 v in let b := at_ 1 v in let c := at_ 2 v in let d := at_ 3 v in
  let e := at_ 4 v in let f := at_ 5 v in let g := at_ 6 v in let h := at_ 7 v in
  let wt := at_ 0 w in
  let t1 := word (h + Sigma1 e + Ch e f g + k + wt) in
  let t2 := word (Sigma0 a + Maj a b c) in
  let next := word (sigma1 (at_ 14 w) + at_ 9 w + sigma0 (at_ 1 w) + wt) in
  ([word (t1 + t2); a; b; c; word (d + t1); e; f; g], tl w ++ [next]).

Definition compress (h : list N) (block : list N) : list N :=
  let '(v, _) := fold_left round K (h, block) in
  map (fun p => word (fst p + snd p)) (combine h v).

Definition digest (msg : list N) : list N :=
  let padded := msg ++ padding (N.of_nat (List.length msg)) in
  let ws := words_of_bytes padded in
  List.concat (map (be_bytes 4) (fold_left compress (blocks (List.length ws) ws) H0)).

Definition xor_pad (c : N) (key : list N) : list N :=
  map (fun b => N.lxor b c) (key ++ repeat 0 (64 - List.length key)%nat).

Definition hmac (key msg : list N) : list N :=
  let key := if (64 <? List.length key)%nat then digest key else key in
  digest (xor_pad 92 key ++ digest (xor_pad 54 key ++ msg)).

(** [createHash('sha256').update(s).digest('hex')] *)
Definition sha256_hex (s : string) : string :=
  hex_of_bytes (digest (bytes_of_string s)).

(** [createHmac('sha256', key).update(s).digest('hex')] *)
Definition hmac_sha256_hex (key s : string) : string :=
  hex_of_bytes (hmac (bytes_of_string key) (bytes_of_string s)).

End SHA256.

(** ** The platform: digests and number printing *)

Record Platform : Type := {
  (** [createHash('sha256').update(s).digest('hex')] *)
  sha256 : string -> string;
  (** [createHmac('sha256', key).update(s).digest('hex')] *)
  hmacSha256 : string -> string -> string;
  (** [Number.prototype.toString] of a finite number that is not an
      integer below 10^21 in magnitude *)
  printOther : Q -> string;
  (** [typeof window === 'undefined'] *)
  isNode : bool
}.

Definition digit_char (d : Z) : ascii := ascii_of_N (48 + Z.to_N d).

Fixpoint fraction_digits (fuel : nat) (r d : Z) : string :=
  match fuel with
  | O => EmptyString
  | S f =>
      if r =? 0 then EmptyString
      else String (digit_char (10 * r / d)) (fraction_digits f (10 * r mod d) d)
  end.

(** The exact decimal expansion of a rational, to 30 places: what
    [toString] prints for the binary fractions that have a short one. *)
Definition decimal_expansion (q : Q) : string :=
  let n := Qnum q in
  let d := Zpos (Qden q) in
  let whole := Z.quot n d in
  let r := Z.abs (Z.rem n d) in
  (if (n <? 0) && (whole =? 0) then "-" else "")
  ++ Z_toString whole
  ++ (if r =? 0 then "" else "." ++ fraction_digits 30 r d).

(** Node's own digests. *)
Definition node : Platform :=
  {| sha256 := SHA256.sha256_hex;
     hmacSha256 := SHA256.hmac_sha256_hex;
     printOther := decimal_expansion;
     isNode := true |}.

(** ** Records of the API *)

Module ChallengeOptions.

Record t : Type := {
  difficulty : option JsNum;
  expiresIn : option JsNum;
  metadata : JsVal;
  secret : option string
}.

(** [{}] *)
Definition empty : t :=
  {| difficulty := None; expiresIn := None; metadata := VUndefined; secret := None |}.

End ChallengeOptions.

Module Challenge.

Record t : Type := {
  id : string;
  prefix : string;
  target : string;
  expiresAt : JsNum;
  metadata : JsVal;
  signature : option string
}.

End Challenge.

Module VerifyOptions.

Record t : Type := {
  prefix : JsVal;
  nonce : JsVal;
  target : JsVal;
  expiresAt : JsVal;
  signature : option string;
  secret : option string;
  requireSignature : option bool;
  metadata : JsVal
}.

End VerifyOptions.

Inductive Reason : Type :=
| expired | invalid_hash | invalid_signature | missing_signature
| missing_secret | invalid_input | invalid_target | invalid_expiry.

Module VerifyResult.

Record t : Type := {
  valid : bool;
  reason : option Reason;
  hash : option string
}.

(** [{ valid: false, reason }] *)
Definition rejected (r : Reason) : t :=
  {| valid := false; reason := Some r; hash := None |}.

(** [{ valid: false, reason: 'invalid_hash', hash }] *)
Definition wrong_hash (h : string) : t :=
  {| valid := false; reason := Some invalid_hash; hash := Some h |}.

(** [{ valid: true, hash }] *)
Definition accepted (h : string) : t :=
  {| valid := true; reason := None; hash := Some h |}.

End VerifyResult.

Module TokenVerifyOptions.

Record t : Type := { requireSecret : option bool }.

(** [{}] *)
Definition empty : t := {| requireSecret := None |}.

End TokenVerifyOptions.

Module TokenResult.

Record t : Type := {
  valid : bool;
  challengeId : option string
}.

(** [{ valid: false }] *)
Definition invalid : t := {| valid := false; challengeId := None |}.

(** [{ valid: true, challengeId }] *)
Definition ok (i : string) : t := {| valid := true; challengeId := Some i |}.

End TokenResult.

(** The callback [onProgress] is a function of the iterations and of the
    hash rate that returns nothing or throws. *)
Module SolveOptions.

Record t : Type := {
  prefix : string;
  target : string;
  maxIterations : option JsNum;
  onProgress : option (Z -> Z -> Exn unit);
  progressInterval : option JsNum
}.

End SolveOptions.

Module SolveResult.

Record t : Type := {
  found : bool;
  nonce : option string;
  iterations : Z;
  timeMs : Z;
  hashRate : Z;
  hash : option string
}.

End SolveResult.

(** [calculateHashRate(iterations, timeMs)]; [Math.round(x)] is the floor
    of [x + 1/2]. *)
Definition calculateHashRate (iterations timeMs : Z) : Z :=
  if timeMs <=? 0 then 0
  else Qfloor (inject_Z iterations / inject_Z timeMs * 1000 + (1 # 2))%Q.

(** The string of an optional string, read where it was tested as given. *)
Definition text (o : option string) : string :=
  match o with Some s => s | None => EmptyString end.

(** [challenge.signature = sig] *)
Definition with_signature (c : Challenge.t) (sig : string) : Challenge.t :=
  {| Challenge.id := Challenge.id c; Challenge.prefix := Challenge.prefix c;
     Challenge.target := Challenge.target c; Challenge.expiresAt := Challenge.expiresAt c;
     Challenge.metadata := Challenge.metadata c; Challenge.signature := Some sig |}.

(** The limit of the search: [maxIterations], 10 000 000 when left out. *)
Definition limit (o : SolveOptions.t) : JsNum :=
  match SolveOptions.maxIterations o with
  | Some m => m
  | None => ofZ 10000000
  end.

(** [progressInterval], 100 000 when left out. *)
Definition interval (o : SolveOptions.t) : JsNum :=
  match SolveOptions.progressInterval o with
  | Some m => m
  | None => ofZ 100000
  end.

(** The defaults of [verifyToken]: five minutes, and [{}]. *)
Definition max_age (maxAgeMs : option JsNum) : JsNum :=
  match maxAgeMs with Some m => m | None => ofZ 300000 end.

Definition token_options (options : option TokenVerifyOptions.t) : TokenVerifyOptions.t :=
  match options with Some o => o | None => TokenVerifyOptions.empty end.

(** An identifier that [generateToken] accepts: a string that starts with
    [nha_]. *)
Definition acceptable_id (v : JsVal) : bool :=
  match v with VStr s => startsWith s "nha_" | _ => false end.

(** ** The functions of index.ts and client.ts *)

Section Core.

Context (P : Platform).

(** [String(n)] for a number *)
Definition Number_toString (n : JsNum) : string :=
  match n with
  | NaN => "NaN"
  | PosInf => "Infinity"
  | NegInf => "-Infinity"
  | Fin q =>
      match Q_integer q with
      | Some z => if Z.abs z <? 10 ^ 21 then Z_toString z else printOther P q
      | None => printOther P q
      end
  end.

(** [String(v)], also what a template literal does to each value. *)
Fixpoint ToString (v : JsVal) : string :=
  match v with
  | VUndefined => "undefined"
  | VNull => "null"
  | VBool true => "true"
  | VBool false => "false"
  | VNum n => Number_toString n
  | VBigInt z => Z_toString z
  | VStr s => s
  | VArr items =>
      String.concat ","
        (map (fun x => match x with
                       | VUndefined | VNull => EmptyString
                       | _ => ToString x
                       end) items)
  | VObj _ => "[object Object]"
  end.

(** [v.length === 0] where [v] is known to be a string *)
Definition length_is_zero (v : JsVal) : bool :=
  match v with VStr EmptyString => true | _ => false end.

(** *** JSON *)

Definition json_escape (c : ascii) : string :=
  let n := N_of_ascii c in
  (if n =? 34 then "\" ++ dquote
   else if n =? 92 then "\\"
   else if n =? 8 then "\b"
   else if n =? 9 then "\t"
   else if n =? 10 then "\n"
   else if n =? 12 then "\f"
   else if n =? 13 then "\r"
   else if n <? 32 then "\u00" ++ hex_byte n
   else String c EmptyString)%N.

Fixpoint json_escape_all (s : string) : string :=
  match s with
  | EmptyString => EmptyString
  | String c rest => json_escape c ++ json_escape_all rest
  end.

(** [JSON.stringify(s)] for a string *)
Definition JSON_quote (s : string) : string :=
  dquote ++ json_escape_all s ++ dquote.

Definition bigint_error : JsError :=
  TypeError "Do not know how to serialize a BigInt".

(** [JSON.stringify(v)] for [null] and for what is not an object, the only
    values [canonicalJson] hands to it: [undefined] stays [undefined]
    ([None]), and a BigInt is a TypeError. *)
Definition JSON_stringify_primitive (v : JsVal) : Exn (option string) :=
  match v with
  | VUndefined => Return None
  | VNull => Return (Some "null")
  | VBool true => Return (Some "true")
  | VBool false => Return (Some "false")
  | VNum n => Return (Some (if num_isFinite n then Number_toString n else "null"))
  | VBigInt _ => Throw bigint_error
  | VStr s => Return (Some (JSON_quote s))
  | VArr _ | VObj _ => Return None
  end.

(** Every computation of a list in turn; the first exception wins. *)
Fixpoint sequence {A : Type} (l : list (Exn A)) : Exn (list A) :=
  match l with
  | [] => Return []
  | m :: rest => a <- m ;; r <- sequence rest ;; Return (a :: r)
  end.

Definition sequence_fields {A : Type} (l : list (string * Exn A)) : Exn (list (string * A)) :=
  sequence (map (fun kv => v <- snd kv ;; Return (fst kv, v)) l).

Fixpoint insert_sorted (k : string) (l : list string) : list string :=
  match l with
  | [] => [k]
  | h :: t => if String.leb k h then k :: l else h :: insert_sorted k t
  end.

(** [keys.sort()], in the order of the bytes: that of the code units for
    keys within the Basic Multilingual Plane. *)
Definition sort_keys (l : list string) : list string :=
  fold_right insert_sorted [] l.

Fixpoint lookup {A : Type} (k : string) (l : list (string * A)) : option A :=
  match l with
  | [] => None
  | (k', v) :: rest => if String.eqb k k' then Some v else lookup k rest
  end.

(** What [+] and [join] make of a value that is a string or [undefined]. *)
Definition concatenated (s : option string) : string :=
  match s with Some x => x | None => "undefined" end.

Definition joined (s : option string) : string :=
  match s with Some x => x | None => EmptyString end.

(** [canonicalJson(obj)].  The values of an object are serialised field by
    field before the keys are sorted, where the source serialises them as
    it walks the sorted keys: the result is the same, and so is the
    exception, there being one kind.  The source recurses on the call
    stack and throws a RangeError when a value is nested too deep for it;
    no depth is too much here. *)
Fixpoint canonicalJson (obj : JsVal) : Exn (option string) :=
  match obj with
  | VArr items =>
      elems <- sequence (map canonicalJson items) ;;
      Return (Some ("[" ++ String.concat "," (map joined elems) ++ "]"))
  | VObj fields =>
      values <- sequence_fields
                  (map (fun kv => let '(k, v) := kv in (k, canonicalJson v)) fields) ;;
      let sortedKeys := sort_keys (map fst fields) in
      let pairs :=
        map (fun key =>
               JSON_quote key ++ ":"
               ++ concatenated (match lookup key values with
                                | Some s => s
                                | None => None
                                end))
            sortedKeys in
      Return (Some ("{" ++ String.concat "," pairs ++ "}"))
  | _ => JSON_stringify_primitive obj
  end.

(** [hmacSign(payload, secret, length)] *)
Definition hmacSign (payload secret : string) (length : nat) : string :=
  slice0 length (hmacSha256 P secret payload).

(** [crypto.timingSafeEqual(Buffer.from(a), Buffer.from(b))] *)
Definition timingSafeEqual (a b : string) : Exn bool :=
  if (String.length a =? String.length b)%nat then Return (String.eqb a b)
  else Throw (RangeError "Input buffers must have the same byte length").

(** [safeCompare(a, b)] *)
Definition safeCompare (a b : string) : Exn bool :=
  when negb (String.length a =? String.length b)%nat give false ;;
  try_catch (timingSafeEqual a b) (fun _ => Return false).

(** [metadata ? createHash('sha256').update(canonicalJson(metadata))
      .digest('hex').slice(0, 16) : ''], in [createChallenge] and in
    [verifyChallenge] *)
Definition metaHashOf (metadata : JsVal) : Exn string :=
  if truthy metadata then
    json <- canonicalJson metadata ;;
    match json with
    | Some s => Return (slice0 16 (sha256 P s))
    | None => Throw (TypeError "The data argument must be of type string")
    end
  else Return EmptyString.

(** [`${prefix}:${target}:${expiresAt}:${metaHash}`] *)
Definition signingPayload (prefix target expiresAt metaHash : string) : string :=
  prefix ++ ":" ++ target ++ ":" ++ expiresAt ++ ":" ++ metaHash.

(** [randomBytes(n)], read from the random source at offset [from] *)
Definition randomBytes (rnd : nat -> ascii) (from n : nat) : list N :=
  map (fun i => N_of_ascii (rnd i)) (seq from n).

(** [createChallenge(options = {})] at clock [nowMs] with random source [rnd] *)
Definition createChallenge (options : option ChallengeOptions.t)
    (nowMs : Z) (rnd : nat -> ascii) : Exn Challenge.t :=
  let options := match options with Some o => o | None => ChallengeOptions.empty end in
  let difficulty :=
    match ChallengeOptions.difficulty options with Some d => d | None => ofZ 4 end in
  let expiresIn :=
    match ChallengeOptions.expiresIn options with Some e => e | None => ofZ 60 end in
  let metadata := ChallengeOptions.metadata options in
  let secret := ChallengeOptions.secret options in
  let expiresIn :=
    if negb (num_isFinite expiresIn) || num_leb expiresIn (ofZ 0)
    then ofZ 60 else expiresIn in
  let difficulty := if negb (num_isFinite difficulty) then ofZ 4 else difficulty in
  let clampedDifficulty := Math_max (ofZ 1) (Math_min (ofZ 6) (Math_floor difficulty)) in
  let id := "nha_" ++ hex_of_bytes (randomBytes rnd 0 12) in
  let prefix := hex_of_bytes (randomBytes rnd 12 8) in
  target <- String_repeat "0" clampedDifficulty ;;
  let expiresAt := num_add (ofZ (nowMs / 1000)) expiresIn in
  let challenge :=
    {| Challenge.id := id; Challenge.prefix := prefix; Challenge.target := target;
       Challenge.expiresAt := expiresAt; Challenge.metadata := metadata;
       Challenge.signature := None |} in
  if given secret then
    metaHash <- metaHashOf metadata ;;
    let payload := signingPayload prefix target (Number_toString expiresAt) metaHash in
    Return (with_signature challenge (hmacSign payload (text secret) 32))
  else Return challenge.

(** [verifyChallenge(options)] at clock [nowMs].  The two tests under
    [if (requireSignature)] are written as two guarded returns. *)
Definition verifyChallenge (options : VerifyOptions.t) (nowMs : Z) : Exn VerifyResult.t :=
  let prefix := VerifyOptions.prefix options in
  let nonce := VerifyOptions.nonce options in
  let target := VerifyOptions.target options in
  let expiresAt := VerifyOptions.expiresAt options in
  let signature := VerifyOptions.signature options in
  let secret := VerifyOptions.secret options in
  let requireSignature := VerifyOptions.requireSignature options in
  let metadata := VerifyOptions.metadata options in
  when negb (truthy prefix) || negb (JsType_eqb (typeof prefix) TString)
       || length_is_zero prefix
    give VerifyResult.rejected invalid_input ;;
  when is_undefined nonce || is_null nonce
       || (negb (JsType_eqb (typeof nonce) TString)
           && negb (JsType_eqb (typeof nonce) TNumber))
    give VerifyResult.rejected invalid_input ;;
  when negb (truthy target) || negb (JsType_eqb (typeof target) TString)
       || negb (matches_zeros_1_6 (ToString target))
    give VerifyResult.rejected invalid_target ;;
  when negb (Number_isFinite expiresAt) || num_leb (asNumber expiresAt) (ofZ 0)
    give VerifyResult.rejected invalid_expiry ;;
  let nonceStr := ToString nonce in
  let now := ofZ (nowMs / 1000) in
  when num_gtb now (asNumber expiresAt)
    give VerifyResult.rejected expired ;;
  when flag requireSignature && negb (given secret)
    give VerifyResult.rejected missing_secret ;;
  when flag requireSignature && negb (given signature)
    give VerifyResult.rejected missing_signature ;;
  when given signature && negb (given secret)
    give VerifyResult.rejected missing_secret ;;
  let checkHash :=
    let hash := sha256 P (ToString prefix ++ nonceStr) in
    when negb (startsWith hash (ToString target))
      give VerifyResult.wrong_hash hash ;;
    Return (VerifyResult.accepted hash) in
  if given signature && given secret then
    metaHash <- metaHashOf metadata ;;
    let payload :=
      signingPayload (ToString prefix) (ToString target) (ToString expiresAt) metaHash in
    let expectedSig := hmacSign payload (text secret) 32 in
    same <- safeCompare (text signature) expectedSig ;;
    when negb same give VerifyResult.rejected invalid_signature ;;
    checkHash
  else checkHash.

(** [`${challengeId}:${timestamp}`] *)
Definition token_payload (challengeId : string) (timestamp : Z) : string :=
  challengeId ++ ":" ++ Number_toString (ofZ timestamp).

(** [generateToken(challengeId, secret)] at clock [nowMs] *)
Definition generateToken (challengeId : JsVal) (secret : option string)
    (nowMs : Z) : Exn string :=
  if negb (truthy challengeId) || negb (JsType_eqb (typeof challengeId) TString)
     || negb (startsWith (ToString challengeId) "nha_")
  then Throw (Error ("Invalid challengeId: must start with " ++ dquote ++ "nha_" ++ dquote))
  else
    let timestamp := nowMs in
    let payload := token_payload (ToString challengeId) timestamp in
    if given secret then
      let sig := hmacSign payload (text secret) 32 in
      Return (Base64.encode payload ++ "." ++ sig)
    else Return (Base64.encode payload).

(** [verifyToken(token, secret, maxAgeMs = 300000, options = {})] at clock
    [nowMs] *)
Definition verifyToken (token : JsVal) (secret : option string)
    (maxAgeMs : option JsNum) (options : option TokenVerifyOptions.t)
    (nowMs : Z) : Exn TokenResult.t :=
  let maxAgeMs := max_age maxAgeMs in
  let options := token_options options in
  try_catch
    (when negb (truthy token) || negb (JsType_eqb (typeof token) TString)
       give TokenResult.invalid ;;
     let pieces := split "." (ToString token) in
     let payloadB64 := nth_error pieces 0 in
     let sig := nth_error pieces 1 in
     when negb (given payloadB64) give TokenResult.invalid ;;
     let payload := Base64.decode (text payloadB64) in
     let parts := split ":" payload in
     when negb (List.length parts =? 2)%nat give TokenResult.invalid ;;
     let challengeId := nth 0 parts EmptyString in
     let timestampStr := nth 1 parts EmptyString in
     let timestamp := parseInt10 timestampStr in
     when negb (str_truthy challengeId) || negb (startsWith challengeId "nha_")
       give TokenResult.invalid ;;
     when negb (num_isFinite timestamp) || num_leb timestamp (ofZ 0)
       give TokenResult.invalid ;;
     when num_geb (num_sub (ofZ nowMs) timestamp) maxAgeMs
       give TokenResult.invalid ;;
     when flag (TokenVerifyOptions.requireSecret options) && negb (given secret)
       give TokenResult.invalid ;;
     if given secret then
       when negb (given sig) give TokenResult.invalid ;;
       let expectedSig := hmacSign payload (text secret) 32 in
       same <- safeCompare (text sig) expectedSig ;;
       when negb same give TokenResult.invalid ;;
       Return (TokenResult.ok challengeId)
     else Return (TokenResult.ok challengeId))
    (fun _ => Return TokenResult.invalid).

(** [sha256Async(message)]: Web Crypto in a browser, [createHash]
    otherwise; SHA-256 either way. *)
Definition sha256Async (message : string) : string := sha256 P message.

(** [sha256Sync(message)] *)
Definition sha256Sync (message : string) : string := sha256 P message.

(** The loop of [solveChallenge].  [nonce] and [iterations] are its two
    counters; [reads] counts the calls to [Date.now()], whose successive
    readings are [clock 0] (the start), [clock 1], ...  The result is
    [None] when the fuel runs out before the loop ends, and an exception
    when the callback throws. *)
Fixpoint solveLoop (clock : nat -> Z) (startTime : Z) (prefix target : string)
    (maxIterations : JsNum) (onProgress : option (Z -> Z -> Exn unit))
    (progressInterval : JsNum)
    (fuel : nat) (nonce iterations : Z) (reads : nat) : option (Exn SolveResult.t) :=
  match fuel with
  | O => None
  | S fuel' =>
      if num_ltb (ofZ nonce) maxIterations then
        let iterations := incr iterations in
        let nonceStr := Number_toString (ofZ nonce) in
        let hash :=
          if isNode P then sha256Sync (prefix ++ nonceStr)
          else sha256Async (prefix ++ nonceStr) in
        if startsWith hash target then
          let timeMs := clock reads - startTime in
          Some (Return
                  {| SolveResult.found := true; SolveResult.nonce := Some nonceStr;
                     SolveResult.iterations := iterations;
                     SolveResult.timeMs := timeMs;
                     SolveResult.hashRate := calculateHashRate iterations timeMs;
                     SolveResult.hash := Some hash |})
        else
          match onProgress with
          | Some callback =>
              if num_eqb (num_rem (ofZ iterations) progressInterval) (ofZ 0) then
                let timeMs := clock reads - startTime in
                match callback iterations (calculateHashRate iterations timeMs) with
                | Return _ =>
                    solveLoop clock startTime prefix target maxIterations onProgress
                      progressInterval fuel' (incr nonce) iterations (S reads)
                | Throw e => Some (Throw e)
                end
              else
                solveLoop clock startTime prefix target maxIterations onProgress
                  progressInterval fuel' (incr nonce) iterations reads
          | None =>
              solveLoop clock startTime prefix target maxIterations onProgress
                progressInterval fuel' (incr nonce) iterations reads
          end
      else
        let timeMs := clock reads - startTime in
        Some (Return
                {| SolveResult.found := false; SolveResult.nonce := None;
                   SolveResult.iterations := iterations;
                   SolveResult.timeMs := timeMs;
                   SolveResult.hashRate := calculateHashRate iterations timeMs;
                   SolveResult.hash := None |})
  end.

(** [solveChallenge(options)] with the clock readings [clock], run for at
    most [fuel] turns of the loop *)
Definition solveChallenge (clock : nat -> Z) (fuel : nat) (options : SolveOptions.t)
  : option (Exn SolveResult.t) :=
  let prefix := SolveOptions.prefix options in
  let target := SolveOptions.target options in
  let maxIterations := limit options in
  let onProgress := SolveOptions.onProgress options in
  let progressInterval := interval options in
  let startTime := clock 0%nat in
  solveLoop clock startTime prefix target maxIterations onProgress progressInterval
    fuel 0 0 1.

End Core.

(** ** The specification's own wording, to compare the code with *)

Section Specification.

Context (P : Platform).

(** A check of [verify]: the test that it fails, and the verdict then. *)
Definition Validation : Type := (Exn bool * VerifyResult.t)%type.

(** The verdict of the first failing check; a check is run only when all
    the checks before it passed. *)
Fixpoint first_failure (checks : list Validation) (otherwise : VerifyResult.t)
  : Exn VerifyResult.t :=
  match checks with
  | [] => Return otherwise
  | (fails, verdict) :: rest =>
      failed <- fails ;;
      if failed then Return verdict else first_failure rest otherwise
  end.

(** 1. [prefix] must be a non-empty string. *)
Definition nonempty_string (v : JsVal) : bool :=
  match v with VStr (String _ _) => true | _ => false end.

(** 2. [nonce] must be present and be a string or number. *)
Definition string_or_number (v : JsVal) : bool :=
  match v with VStr _ | VNum _ => true | _ => false end.

(** 3. [target] must match [^0{1,6}$] exactly. *)
Definition zeros_target (v : JsVal) : bool :=
  match v with VStr s => matches_zeros_1_6 s | _ => false end.

(** 4. [expiresAt] must be a finite number > 0. *)
Definition finite_positive (v : JsVal) : bool :=
  match v with VNum (Fin q) => Qltb 0 q | _ => false end.

(** 5. current time > [expiresAt], the time in whole seconds. *)
Definition past_expiry (v : JsVal) (nowMs : Z) : bool :=
  match v with VNum e => num_ltb e (ofZ (nowMs / 1000)) | _ => false end.

(** 8. both present: the signature recomputed as in [create] differs. *)
Definition signature_mismatch (o : VerifyOptions.t) : Exn bool :=
  match VerifyOptions.signature o, VerifyOptions.secret o with
  | Some (String c s), Some (String k key) =>
      metaHash <- metaHashOf P (VerifyOptions.metadata o) ;;
      let payload :=
        signingPayload (ToString P (VerifyOptions.prefix o))
                       (ToString P (VerifyOptions.target o))
                       (ToString P (VerifyOptions.expiresAt o)) metaHash in
      Return (negb (String.eqb (String c s) (hmacSign P payload (String k key) 32)))
  | _, _ => Return false
  end.

(** The ten steps of the validation order. *)
Definition verify_in_order (o : VerifyOptions.t) (nowMs : Z) : Exn VerifyResult.t :=
  let hash :=
    sha256 P (ToString P (VerifyOptions.prefix o) ++ ToString P (VerifyOptions.nonce o)) in
  let required := flag (VerifyOptions.requireSignature o) in
  let no_secret := negb (given (VerifyOptions.secret o)) in
  let no_signature := negb (given (VerifyOptions.signature o)) in
  first_failure
    [ (Return (negb (nonempty_string (VerifyOptions.prefix o))),
       VerifyResult.rejected invalid_input);
      (Return (negb (string_or_number (VerifyOptions.nonce o))),
       VerifyResult.rejected invalid_input);
      (Return (negb (zeros_target (VerifyOptions.target o))),
       VerifyResult.rejected invalid_target);
      (Return (negb (finite_positive (VerifyOptions.expiresAt o))),
       VerifyResult.rejected invalid_expiry);
      (Return (past_expiry (VerifyOptions.expiresAt o) nowMs),
       VerifyResult.rejected expired);
      (Return (required && no_secret), VerifyResult.rejected missing_secret);
      (Return (required && no_signature), VerifyResult.rejected missing_signature);
      (Return (negb no_signature && no_secret), VerifyResult.rejected missing_secret);
      (signature_mismatch o, VerifyResult.rejected invalid_signature);
      (Return (negb (startsWith hash (ToString P (VerifyOptions.target o)))),
       VerifyResult.wrong_hash hash) ]
    (VerifyResult.accepted hash).

End Specification.

(** The inputs that pass checks 1 to 5, and those that pass check 6. *)
Definition passes_input_checks (o : VerifyOptions.t) (nowMs : Z) : bool :=
  nonempty_string (VerifyOptions.prefix o)
  && string_or_number (VerifyOptions.nonce o)
  && zeros_target (VerifyOptions.target o)
  && finite_positive (VerifyOptions.expiresAt o)
  && negb (past_expiry (VerifyOptions.expiresAt o) nowMs).

Definition passes_requireSignature (o : VerifyOptions.t) : bool :=
  negb (flag (VerifyOptions.requireSignature o)
        && (negb (given (VerifyOptions.secret o))
            || negb (given (VerifyOptions.signature o)))).

(** [clamp(x, lo, hi)] *)
Definition clamp (x lo hi : Z) : Z := Z.max lo (Z.min hi x).

(** The difficulty asked for, a missing or non-finite one replaced by 4. *)
Definition requested_difficulty (o : ChallengeOptions.t) : Q :=
  match ChallengeOptions.difficulty o with
  | Some (Fin q) => q
  | _ => 4
  end.

(** The duration asked for, a missing, non-finite or non-positive one
    replaced by 60. *)
Definition requested_expiresIn (o : ChallengeOptions.t) : Q :=
  match ChallengeOptions.expiresIn o with
  | Some (Fin q) => if Qltb 0 q then q else 60
  | _ => 60
  end.

(** The options [createChallenge] works with. *)
Definition the_options (options : option ChallengeOptions.t) : ChallengeOptions.t :=
  match options with Some o => o | None => ChallengeOptions.empty end.

(** The challenge of the specification, signature apart: identifier and
    prefix from the random source, clamped difficulty, expiry. *)
Definition unsigned_challenge (o : ChallengeOptions.t) (nowMs : Z) (rnd : nat -> ascii)
  : Challenge.t :=
  {| Challenge.id := "nha_" ++ hex_of_bytes (randomBytes rnd 0 12);
     Challenge.prefix := hex_of_bytes (randomBytes rnd 12 8);
     Challenge.target :=
       repeat_string "0" (Z.to_nat (clamp (Qfloor (requested_difficulty o)) 1 6));
     Challenge.expiresAt := Fin (inject_Z (nowMs / 1000) + requested_expiresIn o);
     Challenge.metadata := ChallengeOptions.metadata o;
     Challenge.signature := None |}.

(** Nonce [n] solves the puzzle: SHA256(prefix + n) starts with the target. *)
Definition solves (P : Platform) (prefix target : string) (n : Z) : bool :=
  startsWith (sha256 P (prefix ++ Z_toString n)) target.

(** The solver reports nonce [n]: found, with its decimal string, its
    hash, and [n + 1] iterations. *)
Definition reports_nonce (P : Platform) (prefix : string) (n : Z) (r : SolveResult.t)
  : Prop :=
  SolveResult.found r = true
  /\ SolveResult.nonce r = Some (Z_toString n)
  /\ SolveResult.iterations r = n + 1
  /\ SolveResult.hash r = Some (sha256 P (prefix ++ Z_toString n)).

(** The solver reports a failure after [n] iterations. *)
Definition reports_failure (n : Z) (r : SolveResult.t) : Prop :=
  SolveResult.found r = false
  /\ SolveResult.nonce r = None
  /\ SolveResult.iterations r = n
  /\ SolveResult.hash r = None.

(** The callback, if there is one, returns whatever it is called with. *)
Definition progress_returns (o : SolveOptions.t) : Prop :=
  match SolveOptions.onProgress o with
  | Some callback => forall i h : Z, exists u, callback i h = Return u
  | None => True
  end.


(** The submissions that make [verifyChallenge] serialise the metadata:
    a signature, a secret and a metadata that are all given. *)
Definition serialises_metadata (o : VerifyOptions.t) : bool :=
  given (VerifyOptions.signature o) && given (VerifyOptions.secret o)
  && truthy (VerifyOptions.metadata o).

(** The clock reads a time after the epoch, within the range of [Date]. *)
Definition after_epoch (nowMs : Z) : Prop := 0 < nowMs <= 8640000000000000.


(** The options [with] another secret. *)
Definition ChallengeOptions_with_secret (o : ChallengeOptions.t) (s : option string)
  : ChallengeOptions.t :=
  {| ChallengeOptions.difficulty := ChallengeOptions.difficulty o;
     ChallengeOptions.expiresIn := ChallengeOptions.expiresIn o;
     ChallengeOptions.metadata := ChallengeOptions.metadata o;
     ChallengeOptions.secret := s |}.

Definition VerifyOptions_with_secret (o : VerifyOptions.t) (s : option string)
  : VerifyOptions.t :=
  {| VerifyOptions.prefix := VerifyOptions.prefix o;
     VerifyOptions.nonce := VerifyOptions.nonce o;
     VerifyOptions.target := VerifyOptions.target o;
     VerifyOptions.expiresAt := VerifyOptions.expiresAt o;
     VerifyOptions.signature := VerifyOptions.signature o;
     VerifyOptions.secret := s;
     VerifyOptions.requireSignature := VerifyOptions.requireSignature o;
     VerifyOptions.metadata := VerifyOptions.metadata o |}.

(** What [verifyChallenge] is called with after solving: the four fields
    of the challenge and of the solution, nothing else. *)
Definition submission (c : Challenge.t) (nonce : string) : VerifyOptions.t :=
  {| VerifyOptions.prefix := VStr (Challenge.prefix c);
     VerifyOptions.nonce := VStr nonce;
     VerifyOptions.target := VStr (Challenge.target c);
     VerifyOptions.expiresAt := VNum (Challenge.expiresAt c);
     VerifyOptions.signature := None;
     VerifyOptions.secret := None;
     VerifyOptions.requireSignature := None;
     VerifyOptions.metadata := VUndefined |}.

(** The counters of the solver's loop have come to [n]: every nonce below
    [n] was below the limit and did not solve. *)
Definition searched (P : Platform) (prefix target : string) (maxIterations : JsNum)
    (n : Z) : Prop :=
  0 <= n <= MAX_EXACT
  /\ forall j, 0 <= j < n ->
       num_ltb (ofZ j) maxIterations = true /\ solves P prefix target j = false.

(** The submission [with] another nonce. *)
Definition VerifyOptions_with_nonce (o : VerifyOptions.t) (nonce : JsVal)
  : VerifyOptions.t :=
  {| VerifyOptions.prefix := VerifyOptions.prefix o;
     VerifyOptions.nonce := nonce;
     VerifyOptions.target := VerifyOptions.target o;
     VerifyOptions.expiresAt := VerifyOptions.expiresAt o;
     VerifyOptions.signature := VerifyOptions.signature o;
     VerifyOptions.secret := VerifyOptions.secret o;
     VerifyOptions.requireSignature := VerifyOptions.requireSignature o;
     VerifyOptions.metadata := VerifyOptions.metadata o |}.

(** [/[a-f0-9]/] *)
Definition is_hex (c : ascii) : bool :=
  let n := N_of_ascii c in
  (((48 <=? n) && (n <=? 57)) || ((97 <=? n) && (n <=? 102)))%N.

(** [/^[a-f0-9]*$/] *)
Fixpoint all_hex (s : string) : bool :=
  match s with
  | EmptyString => true
  | String c rest => is_hex c && all_hex rest
  end.

(** [/^[a-f0-9]{n}$/] *)
Definition hex_of_length (n : nat) (s : string) : bool :=
  (String.length s =? n)%nat && all_hex s.

(** What [verifyChallenge] is called with for a signed challenge: the
    fields of the challenge, its signature included, the solver's nonce,
    and the secret and the metadata that [createChallenge] was given. *)
Definition signed_submission (c : Challenge.t) (nonce : string)
    (options : ChallengeOptions.t) (requireSignature : option bool) : VerifyOptions.t :=
  {| VerifyOptions.prefix := VStr (Challenge.prefix c);
     VerifyOptions.nonce := VStr nonce;
     VerifyOptions.target := VStr (Challenge.target c);
     VerifyOptions.expiresAt := VNum (Challenge.expiresAt c);
     VerifyOptions.signature := Challenge.signature c;
     VerifyOptions.secret := ChallengeOptions.secret options;
     VerifyOptions.requireSignature := requireSignature;
     VerifyOptions.metadata := ChallengeOptions.metadata options |}.

(** ** The command line (cli.ts) *)

(** The UTF-16 code units that a byte of UTF-8 starts: one for the first
    byte of a character, none for a continuation byte, two for the first
    of four bytes (a character beyond the BMP, a surrogate pair). *)
Definition code_units (c : ascii) : nat :=
  let n := N_of_ascii c in
  if (n <? 128)%N then 1%nat
  else if (n <? 192)%N then 0%nat
  else if (n <? 240)%N then 1%nat
  else 2%nat.

(** [s.length] *)
Fixpoint js_length (s : string) : nat :=
  match s with
  | EmptyString => 0%nat
  | String c rest => (code_units c + js_length rest)%nat
  end.

(** [s.indexOf(c)] for one character of ASCII, counted in bytes: -1 when
    [c] is not in [s]. *)
Fixpoint indexOf (c : ascii) (s : string) : Z :=
  match s with
  | EmptyString => -1
  | String x rest =>
      if Ascii.eqb x c then 0
      else let i := indexOf c rest in if i <? 0 then -1 else i + 1
  end.

(** [s.slice(from, to)], the positions counted in bytes: a negative
    position counts from the end, and all are brought within the string. *)
Definition slice (from to : Z) (s : string) : string :=
  let len := Z.of_nat (String.length s) in
  let within (i : Z) := if i <? 0 then Z.max (len + i) 0 else Z.min i len in
  String.substring (Z.to_nat (within from)) (Z.to_nat (within to - within from)) s.

(** [s.slice(from)] *)
Definition slice_from (from : Z) (s : string) : string :=
  slice from (Z.of_nat (String.length s)) s.

(** [/^-\d/.test(s)] *)
Definition dash_digit (s : string) : bool :=
  match s with
  | String "-" rest => starts_with_digit rest
  | _ => false
  end.

(** [next !== undefined && !next.startsWith('--')
      && !(next.startsWith('-') && !/^-\d/.test(next))]:
    the argument after a flag is its value. *)
Definition is_value (next : option string) : bool :=
  match next with
  | None => false
  | Some next =>
      negb (startsWith next "--")
      && negb (startsWith next "-" && negb (dash_digit next))
  end.

(** The object [parsed]: its own properties, the latest assigned first.
    The order in which the object lists them is not represented. *)
Module Parsed.

Definition t : Type := list (string * JsVal).

(** [parsed[key] = value] for a string or a boolean.  [__proto__] is the
    accessor of [Object.prototype]: given what is no object, it leaves
    the object as it is. *)
Definition set (key : string) (value : JsVal) (parsed : t) : t :=
  if String.eqb key "__proto__" then parsed else (key, value) :: parsed.

(** The own property [key] of [parsed]. *)
Fixpoint get (key : string) (parsed : t) : option JsVal :=
  match parsed with
  | [] => None
  | (k, v) :: rest => if String.eqb k key then Some v else get key rest
  end.

End Parsed.

(** The loop of [parseArgs], from the argument [args[i]] on: [rest] is
    what follows it, and [i++] in the body skips the head of [rest]. *)
Fixpoint parseArgs_loop (args : list string) (parsed : Parsed.t) : Parsed.t :=
  match args with
  | [] => parsed
  | arg :: rest =>
      if startsWith arg "--" then
        if contains "=" arg then
          let eqIndex := indexOf "=" arg in
          let key := slice 2 eqIndex arg in
          let value := slice_from (eqIndex + 1) arg in
          parseArgs_loop rest (Parsed.set key (VStr value) parsed)
        else
          let key := slice_from 2 arg in
          match rest with
          | next :: after =>
              if is_value (Some next)
              then parseArgs_loop after (Parsed.set key (VStr next) parsed)
              else parseArgs_loop rest (Parsed.set key (VBool true) parsed)
          | [] => parseArgs_loop rest (Parsed.set key (VBool true) parsed)
          end
      else if startsWith arg "-" && (js_length arg =? 2)%nat then
        let key := slice_from 1 arg in
        match rest with
        | next :: after =>
            if is_value (Some next)
            then parseArgs_loop after (Parsed.set key (VStr next) parsed)
            else parseArgs_loop rest (Parsed.set key (VBool true) parsed)
        | [] => parseArgs_loop rest (Parsed.set key (VBool true) parsed)
        end
      else parseArgs_loop rest parsed
  end.

(** [parseArgs(args)] *)
Definition parseArgs (args : list string) : Parsed.t := parseArgs_loop args [].

(** The values of [parsed] come from the arguments [all]: each is [true],
    an argument that can be a value, or what follows the equals sign of
    an argument [--key=value] for its key. *)
Definition from_arguments (all : list string) (parsed : Parsed.t) : Prop :=
  forall (key : string) (v : JsVal),
    Parsed.get key parsed = Some v ->
    v = VBool true
    \/ exists s : string,
         v = VStr s
         /\ ((In s all /\ (startsWith s "-" = false \/ dash_digit s = true))
             \/ In ("--" ++ key ++ "=" ++ s) all).

(** ** The solver of the skill (skill/scripts/solve.sh) *)

(** What the program of [node -e] ends with: the JSON object of a
    solution on the standard output, or [Max iterations reached] on the
    standard error and the exit status 1. *)
Module ScriptOutput.

Inductive t : Type :=
| solution (nonce hash : string) (timeMs iterations : Z)
| max_iterations_reached.

End ScriptOutput.

(** The loop [while (true)] of the program, entered with [nonce]; [ms] is
    [Date.now() - start] as read at a solution.  [None]: out of fuel. *)
Fixpoint solve_sh_loop (fuel : nat) (prefix target : string) (ms : Z) (nonce : Z)
  : option ScriptOutput.t :=
  match fuel with
  | O => None
  | S fuel' =>
      let hash := sha256 node (prefix ++ Z_toString nonce) in
      if startsWith hash target then
        Some (ScriptOutput.solution (Z_toString nonce) hash ms (nonce + 1))
      else
        let nonce := nonce + 1 in
        if 100000000 <? nonce then Some ScriptOutput.max_iterations_reached
        else solve_sh_loop fuel' prefix target ms nonce
  end.

(** The program of [node -e] for the environment variables [NHA_PREFIX]
    and [NHA_TARGET]; [clock k] is the reading of the call number [k] of
    [Date.now()]. *)
Definition solve_sh (fuel : nat) (prefix target : string) (clock : nat -> Z)
  : option ScriptOutput.t :=
  let start := clock 0%nat in
  solve_sh_loop fuel prefix target (clock 1%nat - start) 0.

(** What an output of the script says of the search. *)
Definition script_output_is_right (prefix target : string) (ms : Z)
    (out : ScriptOutput.t) : Prop :=
  match out with
  | ScriptOutput.solution nonce hash timeMs iterations =>
      exists n : Z,
        0 <= n <= 100000000
        /\ nonce = Z_toString n
        /\ hash = sha256 node (prefix ++ Z_toString n)
        /\ startsWith hash target = true
        /\ (forall j, 0 <= j < n -> solves node prefix target j = false)
        /\ iterations = n + 1 /\ timeMs = ms
  | ScriptOutput.max_iterations_reached =>
      forall j, 0 <= j <= 100000000 -> solves node prefix target j = false
  end.

(* ================================================================== *)
(** * Part II. Lemmas and theorems                                     *)
(* ================================================================== *)

(** ** Numbers *)

Lemma Qle_bool_inject (a b : Z) : Qle_bool (inject_Z a) (inject_Z b) = (a <=? b).
Proof. unfold Qle_bool, inject_Z; simpl. now rewrite !Z.mul_1_r. Qed.

Lemma Qltb_inject (a b : Z) : Qltb (inject_Z a) (inject_Z b) = (a <? b).
Proof. unfold Qltb. rewrite Qle_bool_inject. now rewrite Z.ltb_antisym. Qed.

Lemma Qltb_lt (x y : Q) : Qltb x y = true <-> (x < y)%Q.
Proof.
  unfold Qltb. rewrite negb_true_iff. split.
  - intros H. apply Qnot_le_lt. intros L. apply Qle_bool_iff in L. congruence.
  - intros H. destruct (Qle_bool y x) eqn:E; [|reflexivity].
    apply Qle_bool_iff in E. exfalso. exact (Qlt_not_le _ _ H E).
Qed.

Lemma num_ltb_ofZ (a b : Z) : num_ltb (ofZ a) (ofZ b) = (a <? b).
Proof. apply Qltb_inject. Qed.

Lemma num_leb_ofZ (a b : Z) : num_leb (ofZ a) (ofZ b) = (a <=? b).
Proof. apply Qle_bool_inject. Qed.

Lemma Q_integer_inject (z : Z) : Q_integer (inject_Z z) = Some z.
Proof. unfold Q_integer, inject_Z; simpl. now rewrite Z.mod_1_r, Z.div_1_r. Qed.

(** ** Decimal digits *)

Ltac digit_code :=
  repeat match goal with
  | |- context [Z.of_N (N_of_ascii ?c)] =>
      let v := eval vm_compute in (Z.of_N (N_of_ascii c)) in
      change (Z.of_N (N_of_ascii c)) with v
  end.

Lemma digits_value_cons (c : ascii) (s : string) (acc d : Z) :
  digit_of c = Some d -> digits_value (String c s) acc = digits_value s (10 * acc + d).
Proof. intros H. simpl. now rewrite H. Qed.

Lemma digits_value_stop (rest : string) (acc : Z) :
  starts_with_digit rest = false -> digits_value rest acc = acc.
Proof.
  destruct rest as [|c rest]; [reflexivity|].
  simpl. destruct (digit_of c); [discriminate|reflexivity].
Qed.

(** Scanning the digits of [d], with a positive value already read. *)
Lemma digits_value_acc (d : Decimal.uint) (acc : positive) (rest : string) :
  starts_with_digit rest = false ->
  digits_value (NilEmpty.string_of_uint d ++ rest) (Zpos acc)
  = Zpos (Pos.of_uint_acc d acc).
Proof.
  intros Hrest. revert acc.
  induction d; intros acc;
    [ now apply digits_value_stop | .. ];
    cbn [NilEmpty.string_of_uint append];
    erewrite digits_value_cons by reflexivity;
    cbn [Pos.of_uint_acc]; rewrite <- IHd; f_equal; digit_code; lia.
Qed.

Lemma digits_value_uint (d : Decimal.uint) (rest : string) :
  starts_with_digit rest = false ->
  digits_value (NilEmpty.string_of_uint d ++ rest) 0 = Z.of_N (Pos.of_uint d).
Proof.
  intros Hrest.
  induction d;
    [ now apply digits_value_stop | .. ];
    cbn [NilEmpty.string_of_uint append];
    erewrite digits_value_cons by reflexivity;
    cbn [Pos.of_uint Z.of_N]; digit_code;
    [ exact IHd | apply (digits_value_acc d _ rest Hrest) .. ].
Qed.

Lemma to_uint_starts_with_digit (p : positive) :
  exists c s, NilEmpty.string_of_uint (Pos.to_uint p) = String c s
              /\ is_space c = false /\ c <> "-"%char /\ c <> "+"%char
              /\ starts_with_digit (String c s) = true.
Proof.
  pose proof (DecimalPos.Unsigned.to_uint_nonnil p) as Hn.
  destruct (Pos.to_uint p); try contradiction; simpl;
    eexists; eexists; (split; [reflexivity|]); repeat split; discriminate.
Qed.

Lemma Z_toString_pos (p : positive) :
  Z_toString (Zpos p) = NilEmpty.string_of_uint (Pos.to_uint p).
Proof.
  unfold Z_toString. simpl.
  pose proof (DecimalPos.Unsigned.to_uint_nonnil p) as Hn.
  unfold NilZero.string_of_uint. destruct (Pos.to_uint p); try contradiction; reflexivity.
Qed.

Lemma append_empty (s : string) : s ++ "" = s.
Proof. induction s; simpl; congruence. Qed.

(** [parseInt] reads back what [toString] printed. *)
Lemma parseInt10_Z_toString (z : Z) :
  0 < z -> parseInt10 (Z_toString z) = number_of_integer z.
Proof.
  destruct z as [|p|p]; try lia. intros _.
  rewrite Z_toString_pos.
  destruct (to_uint_starts_with_digit p) as (c & s & E & Hsp & Hm & Hp & Hd).
  unfold parseInt10. rewrite E. simpl trimStart. rewrite Hsp.
  assert (Hbody : (let '(negative, body) :=
                     match String c s with
                     | String "-" rest => (true, rest)
                     | String "+" rest => (false, rest)
                     | _ => (false, String c s)
                     end in
                   if starts_with_digit body
                   then number_of_integer
                          (if negative then - digits_value body 0 else digits_value body 0)
                   else NaN)
                  = number_of_integer (digits_value (String c s) 0)).
  { destruct (Ascii.eqb_spec c "-"); [contradiction|].
    destruct (Ascii.eqb_spec c "+"); [contradiction|].
    destruct c as [[] [] [] [] [] [] [] []]; try contradiction;
      cbv beta iota zeta; rewrite Hd; reflexivity. }
  rewrite Hbody. rewrite <- E.
  rewrite <- (append_empty (NilEmpty.string_of_uint (Pos.to_uint p))).
  rewrite digits_value_uint by reflexivity.
  now rewrite DecimalPos.Unsigned.of_to.
Qed.

Lemma Number_toString_ofZ P (z : Z) :
  Z.abs z < 10 ^ 21 -> Number_toString P (ofZ z) = Z_toString z.
Proof.
  intros H. unfold Number_toString, ofZ. rewrite Q_integer_inject.
  destruct (Z.ltb_spec (Z.abs z) (10 ^ 21)); [reflexivity|lia].
Qed.

(** ** Comparisons with an integer *)

Lemma Qltb_compat (x y y' : Q) : (y == y')%Q -> Qltb x y = Qltb x y'.
Proof.
  intros E. destruct (Qltb x y') eqn:H.
  - apply Qltb_lt. apply Qltb_lt in H. now rewrite E.
  - destruct (Qltb x y) eqn:H'; [|reflexivity].
    apply Qltb_lt in H'. rewrite E in H'. apply Qltb_lt in H'. congruence.
Qed.

Lemma num_ltb_integer (n N : Z) (q : Q) :
  (q == inject_Z N)%Q -> num_ltb (ofZ n) (Fin q) = (n <? N).
Proof.
  intros E. cbn [num_ltb ofZ]. rewrite (Qltb_compat _ _ _ E). apply Qltb_inject.
Qed.

Lemma num_ltb_down (n m : Z) (x : JsNum) :
  n <= m -> num_ltb (ofZ m) x = true -> num_ltb (ofZ n) x = true.
Proof.
  intros L. destruct x as [ | | |q]; cbn [num_ltb ofZ]; try easy.
  rewrite !Qltb_lt. intros H. eapply Qle_lt_trans; [|exact H].
  rewrite <- Zle_Qle. exact L.
Qed.

Lemma MAX_EXACT_value : MAX_EXACT = 9007199254740992.
Proof. reflexivity. Qed.

Lemma incr_below (n : Z) : n < MAX_EXACT -> incr n = n + 1.
Proof. intros H. unfold incr. destruct (Z.ltb_spec n MAX_EXACT); [reflexivity|lia]. Qed.

Lemma incr_stuck : incr MAX_EXACT = MAX_EXACT.
Proof. reflexivity. Qed.

(** The least of the non-negative integers that satisfy a test. *)
Lemma least_below (f : Z -> bool) (n : Z) :
  0 <= n -> f n = true ->
  exists m, 0 <= m <= n /\ f m = true /\ forall j, 0 <= j < m -> f j = false.
Proof.
  intros Hn Hf.
  assert (H : forall b : nat,
             (forall j, 0 <= j < Z.of_nat b -> f j = false)
             \/ exists m, 0 <= m < Z.of_nat b /\ f m = true
                          /\ forall j, 0 <= j < m -> f j = false).
  { induction b as [|b [IH | (m & Hm & Hfm & Hl)]].
    - left. intros j Hj. lia.
    - destruct (f (Z.of_nat b)) eqn:E.
      + right. exists (Z.of_nat b). repeat split; try lia; assumption.
      + left. intros j Hj. destruct (Z.eq_dec j (Z.of_nat b)) as [->|]; [exact E|].
        apply IH. lia.
    - right. exists m. repeat split; try lia; assumption. }
  destruct (H (Z.to_nat (n + 1))) as [Hnone | (m & Hm & Hfm & Hl)].
  - rewrite Hnone in Hf by lia. discriminate.
  - exists m. repeat split; try lia; assumption.
Qed.

Section SolverFacts.

Context (P : Platform) (clock : nat -> Z) (startTime : Z) (prefix target : string)
        (mi : JsNum) (onProgress : option (Z -> Z -> Exn unit)) (pi : JsNum).

Let loop := solveLoop P clock startTime prefix target mi onProgress pi.

Lemma nonce_string (n : Z) :
  0 <= n <= MAX_EXACT -> Number_toString P (ofZ n) = Z_toString n.
Proof. intros H. apply Number_toString_ofZ. rewrite MAX_EXACT_value in H. lia. Qed.

(** Browser or not, the hash is the platform's SHA-256. *)
Lemma solver_hash (message : string) :
  (if isNode P then sha256Sync P message else sha256Async P message) = sha256 P message.
Proof. now destruct (isNode P). Qed.

Lemma solveLoop_hit (fuel : nat) (n : Z) (reads : nat) :
  0 <= n < MAX_EXACT -> num_ltb (ofZ n) mi = true -> solves P prefix target n = true ->
  exists r, loop (S fuel) n n reads = Some (Return r) /\ reports_nonce P prefix n r.
Proof.
  intros Hn Hlt Hs. unfold loop. cbn [solveLoop].
  rewrite Hlt, solver_hash, nonce_string by lia.
  unfold solves in Hs. rewrite Hs, incr_below by lia.
  eexists. split; [reflexivity|]. repeat split.
Qed.

Lemma solveLoop_end (fuel : nat) (n : Z) (reads : nat) :
  num_ltb (ofZ n) mi = false ->
  exists r, loop (S fuel) n n reads = Some (Return r) /\ reports_failure n r.
Proof.
  intros Hlt. unfold loop. cbn [solveLoop]. rewrite Hlt.
  eexists. split; [reflexivity|]. repeat split.
Qed.

(** What a result with [found] says, whatever the counters were. *)
Lemma solveLoop_found (fuel : nat) (n i : Z) (reads : nat) (r : SolveResult.t) :
  loop fuel n i reads = Some (Return r) -> SolveResult.found r = true ->
  exists nonce hash,
    SolveResult.nonce r = Some nonce /\ SolveResult.hash r = Some hash
    /\ hash = sha256 P (prefix ++ nonce) /\ startsWith hash target = true.
Proof.
  unfold loop. revert n i reads.
  induction fuel as [|fuel IH]; intros n i reads; cbn [solveLoop]; [discriminate|].
  rewrite solver_hash.
  destruct (num_ltb (ofZ n) mi).
  - destruct (startsWith _ target) eqn:E.
    + intros H _. injection H as <-.
      cbn [SolveResult.nonce SolveResult.hash]. eauto 6.
    + destruct onProgress as [callback|]; [|apply IH].
      destruct (num_eqb _ _); [|apply IH].
      destruct (callback _ _); [apply IH|discriminate].
  - intros H Hf. injection H as <-. discriminate Hf.
Qed.

Section CallbackReturns.

Hypothesis callback_returns :
  match onProgress with
  | Some callback => forall i h : Z, exists u, callback i h = Return u
  | None => True
  end.

(** One turn of the loop on a nonce that does not solve. *)
Lemma solveLoop_miss (fuel : nat) (n : Z) (reads : nat) :
  0 <= n < MAX_EXACT -> num_ltb (ofZ n) mi = true -> solves P prefix target n = false ->
  exists reads', loop (S fuel) n n reads = loop fuel (n + 1) (n + 1) reads'.
Proof.
  intros Hn Hlt Hs. unfold loop. cbn [solveLoop].
  rewrite Hlt, solver_hash, nonce_string by lia.
  unfold solves in Hs. rewrite Hs, incr_below by lia.
  destruct onProgress as [callback|]; [|eauto].
  destruct (num_eqb _ _); [|eauto].
  destruct (callback_returns (n + 1) (calculateHashRate (n + 1) (clock reads - startTime)))
    as [u ->].
  eauto.
Qed.

(** The loop reaches the least solving nonce [m] from any nonce below it. *)
Lemma solveLoop_reaches (m : Z) :
  0 <= m < MAX_EXACT -> num_ltb (ofZ m) mi = true ->
  solves P prefix target m = true ->
  (forall j, 0 <= j < m -> solves P prefix target j = false) ->
  forall (d : nat) (n : Z) (fuel reads : nat),
    n = m - Z.of_nat d -> 0 <= n -> (d < fuel)%nat ->
    exists r, loop fuel n n reads = Some (Return r) /\ reports_nonce P prefix m r.
Proof.
  intros Hm Hlt Hs Hleast.
  induction d as [|d IH]; intros n fuel reads En Hn Hf;
    (destruct fuel as [|fuel]; [lia|]).
  - replace n with m by lia. now apply solveLoop_hit.
  - destruct (solveLoop_miss fuel n reads) as [reads' ->];
      [ lia | apply (num_ltb_down n m); [lia|assumption] | apply Hleast; lia | ].
    apply IH; lia.
Qed.

(** With no solving nonce below an integer limit [N], the loop ends at [N]. *)
Lemma solveLoop_exhausts (N : Z) :
  0 <= N <= MAX_EXACT -> (forall n, num_ltb (ofZ n) mi = (n <? N)) ->
  (forall j, 0 <= j < N -> solves P prefix target j = false) ->
  forall (d : nat) (n : Z) (fuel reads : nat),
    n = N - Z.of_nat d -> 0 <= n -> (d < fuel)%nat ->
    exists r, loop fuel n n reads = Some (Return r) /\ reports_failure N r.
Proof.
  intros HN Hmi Hnone.
  induction d as [|d IH]; intros n fuel reads En Hn Hf;
    (destruct fuel as [|fuel]; [lia|]).
  - replace n with N by lia. apply solveLoop_end. rewrite Hmi. apply Z.ltb_irrefl.
  - destruct (solveLoop_miss fuel n reads) as [reads' ->];
      [ lia | rewrite Hmi; apply Z.ltb_lt; lia | apply Hnone; lia | ].
    apply IH; lia.
Qed.

(** At 2^53 the counter no longer moves: a larger limit is never reached. *)
Lemma solveLoop_stalls (fuel reads : nat) :
  num_ltb (ofZ MAX_EXACT) mi = true -> solves P prefix target MAX_EXACT = false ->
  loop fuel MAX_EXACT MAX_EXACT reads = None.
Proof.
  intros Hlt Hs. unfold loop. revert reads.
  induction fuel as [|fuel IH]; intros reads; [reflexivity|].
  cbn [solveLoop].
  rewrite Hlt, solver_hash, nonce_string by (rewrite MAX_EXACT_value; lia).
  unfold solves in Hs. rewrite Hs. rewrite incr_stuck.
  destruct onProgress as [callback|]; [|apply IH].
  destruct (num_eqb _ _); [|apply IH].
  destruct (callback_returns MAX_EXACT
              (calculateHashRate MAX_EXACT (clock reads - startTime))) as [u ->].
  apply IH.
Qed.

End CallbackReturns.

End SolverFacts.

(** ** Strings *)

Lemma split_nonempty (c : ascii) (s : string) : (1 <= List.length (split c s))%nat.
Proof.
  induction s as [|x s IH]; simpl; [lia|].
  destruct (Ascii.eqb x c); simpl; [lia|].
  destruct (split c s); simpl in *; lia.
Qed.

Lemma split_cons_other (c x : ascii) (s : string) :
  Ascii.eqb x c = false ->
  exists h t, split c s = h :: t /\ split c (String x s) = String x h :: t.
Proof.
  intros E. pose proof (split_nonempty c s) as L.
  simpl. rewrite E. destruct (split c s) as [|h t]; [simpl in L; lia|].
  now exists h, t.
Qed.

Lemma split_without (c : ascii) (s : string) :
  contains c s = false -> split c s = [s].
Proof.
  induction s as [|x s IH]; simpl; [reflexivity|].
  intros H. apply orb_false_iff in H as [E H].
  rewrite E, (IH H). reflexivity.
Qed.

Lemma split_app (c : ascii) (a rest : string) :
  contains c a = false -> split c (a ++ String c rest) = a :: split c rest.
Proof.
  induction a as [|x a IH]; simpl.
  - intros _. now rewrite Ascii.eqb_refl.
  - intros H. apply orb_false_iff in H as [E H].
    rewrite E, (IH H). reflexivity.
Qed.

Lemma split_length_app (c : ascii) (a rest : string) :
  List.length (split c (a ++ String c rest))
  = (List.length (split c a) + List.length (split c rest))%nat.
Proof.
  induction a as [|x a IH].
  - simpl. now rewrite Ascii.eqb_refl.
  - destruct (Ascii.eqb x c) eqn:E.
    + simpl. rewrite E. simpl. now rewrite IH.
    + destruct (split_cons_other c x a E) as (h & t & E1 & E2).
      destruct (split_cons_other c x (a ++ String c rest) E) as (h' & t' & E3 & E4).
      change (String x a ++ String c rest) with (String x (a ++ String c rest)).
      rewrite E4, E2. rewrite E3, E1 in IH. exact IH.
Qed.

Lemma split_length_with (c : ascii) (s : string) :
  contains c s = true -> (2 <= List.length (split c s))%nat.
Proof.
  induction s as [|x s IH]; simpl; [discriminate|].
  destruct (Ascii.eqb x c) eqn:E; simpl.
  - intros _. pose proof (split_nonempty c s). lia.
  - intros H. specialize (IH H). destruct (split c s); simpl in *; lia.
Qed.

Lemma str_truthy_app (a b : string) : str_truthy a = true -> str_truthy (a ++ b) = true.
Proof. now destruct a. Qed.

Lemma startsWith_truthy (s p : string) :
  str_truthy p = true -> startsWith s p = true -> str_truthy s = true.
Proof. destruct p; [discriminate|]. destruct s; [discriminate|reflexivity]. Qed.

(** The digits of a positive integer hold no character that is not a digit. *)
Lemma uint_digits_only (c : ascii) (d : Decimal.uint) :
  digit_of c = None -> contains c (NilEmpty.string_of_uint d) = false.
Proof.
  intros H.
  induction d; cbn [NilEmpty.string_of_uint contains]; [reflexivity | ..];
    rewrite IHd, orb_false_r;
    match goal with |- Ascii.eqb ?k c = false =>
      destruct (Ascii.eqb_spec k c) as [<-|]; [discriminate H | reflexivity]
    end.
Qed.

Lemma Z_toString_digits_only (c : ascii) (z : Z) :
  0 < z -> digit_of c = None -> contains c (Z_toString z) = false.
Proof.
  destruct z as [|p|p]; try lia. intros _ H.
  rewrite Z_toString_pos. now apply uint_digits_only.
Qed.

(** ** Base64 *)

Module Base64Facts.
Import Base64.

Lemma sextet_of_char_of_sextet (t : sextet) :
  sextet_of_char (char_of_sextet t) = Some t.
Proof. destruct t as [[[[[[] []] []] []] []] []]; reflexivity. Qed.

Lemma char_of_sextet_not (t : sextet) :
  Ascii.eqb (char_of_sextet t) pad = false /\ Ascii.eqb (char_of_sextet t) "." = false.
Proof. destruct t as [[[[[[] []] []] []] []] []]; split; reflexivity. Qed.

Lemma sextets_cons (t : sextet) (rest : list ascii) :
  sextets (char_of_sextet t :: rest) = t :: sextets rest.
Proof. simpl. now rewrite sextet_of_char_of_sextet. Qed.

Lemma sextets_pad (rest : list ascii) : sextets (pad :: rest) = [].
Proof. reflexivity. Qed.

Lemma bytes_of_sextets_group (a b c : ascii) :
  byte1 (sx1 a) (sx2 a b) = a /\ byte2 (sx2 a b) (sx3 b c) = b
  /\ byte3 (sx3 b c) (sx4 c) = c.
Proof. destruct a, b, c; repeat split. Qed.

Lemma list3_ind (A : Type) (Q : list A -> Prop) :
  Q [] -> (forall a, Q [a]) -> (forall a b, Q [a; b]) ->
  (forall a b c rest, Q rest -> Q (a :: b :: c :: rest)) ->
  forall l, Q l.
Proof.
  intros H0 H1 H2 H3.
  fix IH 1. intros [|a [|b [|c rest]]].
  - exact H0.
  - apply H1.
  - apply H2.
  - apply H3, IH.
Qed.

Lemma decode_encode_list (l : list ascii) :
  bytes_of_sextets (sextets (encode_list l)) = l.
Proof.
  induction l as [|a|a b|a b c rest IH] using list3_ind.
  - reflexivity.
  - cbn [encode_list]. rewrite !sextets_cons, sextets_pad. cbn [bytes_of_sextets].
    now destruct (bytes_of_sextets_group a zero zero) as (-> & _).
  - cbn [encode_list]. rewrite !sextets_cons, sextets_pad. cbn [bytes_of_sextets].
    destruct (bytes_of_sextets_group a b zero) as (-> & -> & _). reflexivity.
  - cbn [encode_list]. rewrite !sextets_cons. cbn [bytes_of_sextets].
    destruct (bytes_of_sextets_group a b c) as (-> & -> & ->). now rewrite IH.
Qed.

Lemma decode_encode (s : string) : decode (encode s) = s.
Proof.
  unfold decode, encode.
  now rewrite list_ascii_of_string_of_list_ascii, decode_encode_list,
    string_of_list_ascii_of_string.
Qed.

Lemma encode_list_no_dot (l : list ascii) :
  contains "." (string_of_list_ascii (encode_list l)) = false.
Proof.
  induction l as [|a|a b|a b c rest IH] using list3_ind;
    cbn [encode_list string_of_list_ascii contains];
    repeat match goal with
           | |- context [Ascii.eqb (char_of_sextet ?t) "."] =>
               rewrite (proj2 (char_of_sextet_not t))
           end; auto.
Qed.

Lemma encode_no_dot (s : string) : contains "." (encode s) = false.
Proof. apply encode_list_no_dot. Qed.

Lemma encode_truthy (s : string) : str_truthy s = true -> str_truthy (encode s) = true.
Proof.
  destruct s as [|a s]; [discriminate|]. intros _.
  unfold encode. cbn [list_ascii_of_string].
  destruct (list_ascii_of_string s) as [|b [|c rest]]; reflexivity.
Qed.

End Base64Facts.

(** ** Exceptions *)

Lemma try_catch_returns (A : Type) (m : Exn A) (a : A) :
  exists r, try_catch m (fun _ => Return a) = Return r.
Proof. destruct m; simpl; eauto. Qed.

(** ** Constant-time comparison *)

Lemma String_eqb_length (a b : string) :
  String.eqb a b = true -> String.length a = String.length b.
Proof. intros H. apply String.eqb_eq in H. now subst. Qed.

Lemma safeCompare_eqb (a b : string) : safeCompare a b = Return (String.eqb a b).
Proof.
  unfold safeCompare, timingSafeEqual.
  destruct (Nat.eqb_spec (String.length a) (String.length b)) as [E|N]; simpl.
  - reflexivity.
  - destruct (String.eqb a b) eqn:E; [|reflexivity].
    apply String_eqb_length in E. contradiction.
Qed.

(** ** Values *)

Lemma JsVal_deep_ind (Q : JsVal -> Prop) :
  Q VUndefined -> Q VNull -> (forall b, Q (VBool b)) -> (forall n, Q (VNum n)) ->
  (forall z, Q (VBigInt z)) -> (forall s, Q (VStr s)) ->
  (forall items, Forall Q items -> Q (VArr items)) ->
  (forall fields, Forall (fun kv => Q (snd kv)) fields -> Q (VObj fields)) ->
  forall v, Q v.
Proof.
  intros Hu Hn Hb Hnum Hbig Hs Harr Hobj.
  fix IH 1. intros [ | | b | n | z | s | items | fields].
  - exact Hu.
  - exact Hn.
  - apply Hb.
  - apply Hnum.
  - apply Hbig.
  - apply Hs.
  - apply Harr. induction items as [|x xs IHxs]; constructor; [apply IH | exact IHxs].
  - apply Hobj. induction fields as [|[k x] xs IHxs]; constructor; [apply IH | exact IHxs].
Qed.

Section CoreFacts.

Context (P : Platform).

(** With no metadata there is nothing to serialise. *)
Lemma metaHashOf_of_nothing (m : JsVal) :
  truthy m = false -> metaHashOf P m = Return EmptyString.
Proof. intros H. unfold metaHashOf. now rewrite H. Qed.

End CoreFacts.

(** ** The difficulty and the duration of a challenge *)

Lemma clamp_range (x : Z) : 1 <= clamp x 1 6 <= 6.
Proof. unfold clamp. lia. Qed.

Lemma clamped_difficulty (q : Q) :
  Math_max (ofZ 1) (Math_min (ofZ 6) (Math_floor (Fin q))) = ofZ (clamp (Qfloor q) 1 6).
Proof.
  unfold Math_floor, Math_min. cbn [ofZ]. fold (ofZ (Qfloor q)). fold (ofZ 6).
  rewrite num_ltb_ofZ. unfold Math_max, clamp.
  destruct (Z.ltb_spec (Qfloor q) 6); cbn [ofZ]; fold (ofZ (Qfloor q)); fold (ofZ 6);
    fold (ofZ 1); rewrite num_ltb_ofZ;
    match goal with |- context [?a <? ?b] => destruct (Z.ltb_spec a b) end;
    f_equal; lia.
Qed.

Lemma String_repeat_ofZ (s : string) (n : Z) :
  0 <= n -> String_repeat s (ofZ n) = Return (repeat_string s (Z.to_nat n)).
Proof.
  intros H. unfold String_repeat, Qtrunc, ofZ, inject_Z. cbn [Qnum Qden].
  rewrite Z.quot_1_r. destruct (Z.ltb_spec n 0); [lia|reflexivity].
Qed.

Lemma zeros_match (n : nat) :
  (1 <= n <= 6)%nat -> matches_zeros_1_6 (repeat_string "0" n) = true.
Proof.
  intros H.
  assert (E : (n = 1 \/ n = 2 \/ n = 3 \/ n = 4 \/ n = 5 \/ n = 6)%nat) by lia.
  repeat (destruct E as [-> | E]; [reflexivity|]). now subst.
Qed.

Section ChallengeFacts.

Context (P : Platform).

Lemma createChallenge_unfold (options : option ChallengeOptions.t) (nowMs : Z)
    (rnd : nat -> ascii) :
  let o := the_options options in
  let c := unsigned_challenge o nowMs rnd in
  createChallenge P options nowMs rnd
  = if given (ChallengeOptions.secret o) then
      metaHash <- metaHashOf P (ChallengeOptions.metadata o) ;;
      Return (with_signature c
                (hmacSign P
                   (signingPayload (Challenge.prefix c) (Challenge.target c)
                      (Number_toString P (Challenge.expiresAt c)) metaHash)
                   (text (ChallengeOptions.secret o)) 32))
    else Return c.
Proof.
  intros o c. unfold createChallenge. fold (the_options options). fold o.
  assert (Hd : (if negb (num_isFinite
                          match ChallengeOptions.difficulty o with
                          | Some d => d | None => ofZ 4 end)
                then ofZ 4
                else match ChallengeOptions.difficulty o with
                     | Some d => d | None => ofZ 4 end)
               = Fin (requested_difficulty o)).
  { unfold requested_difficulty.
    destruct (ChallengeOptions.difficulty o) as [[ | | |q]|]; reflexivity. }
  assert (He : (if negb (num_isFinite
                          match ChallengeOptions.expiresIn o with
                          | Some e => e | None => ofZ 60 end)
                   || num_leb match ChallengeOptions.expiresIn o with
                              | Some e => e | None => ofZ 60 end (ofZ 0)
                then ofZ 60
                else match ChallengeOptions.expiresIn o with
                     | Some e => e | None => ofZ 60 end)
               = Fin (requested_expiresIn o)).
  { unfold requested_expiresIn.
    destruct (ChallengeOptions.expiresIn o) as [[ | | |q]|]; try reflexivity.
    cbn [num_isFinite negb orb num_leb ofZ]. unfold Qltb.
    change (inject_Z 0) with 0%Q.
    destruct (Qle_bool q 0); reflexivity. }
  rewrite Hd, He, clamped_difficulty.
  rewrite String_repeat_ofZ by (pose proof (clamp_range (Qfloor (requested_difficulty o))); lia).
  reflexivity.
Qed.

End ChallengeFacts.

(** ** The guards of [verifyChallenge] and the checks of the specification *)

Lemma guard_prefix (v : JsVal) :
  negb (truthy v) || negb (JsType_eqb (typeof v) TString) || length_is_zero v
  = negb (nonempty_string v).
Proof.
  destruct v as [ | | [] | [ | | |q] | z | [|c s] | items | fields]; simpl; try reflexivity.
  - now rewrite orb_true_r.
  - now rewrite orb_true_r.
Qed.

Lemma guard_nonce (v : JsVal) :
  is_undefined v || is_null v
  || (negb (JsType_eqb (typeof v) TString) && negb (JsType_eqb (typeof v) TNumber))
  = negb (string_or_number v).
Proof. destruct v; reflexivity. Qed.

Section GuardFacts.
Context (P : Platform).

Lemma guard_target (v : JsVal) :
  negb (truthy v) || negb (JsType_eqb (typeof v) TString)
  || negb (matches_zeros_1_6 (ToString P v))
  = negb (zeros_target v).
Proof.
  destruct v as [ | | [] | [ | | |q] | z | [|c s] | items | fields]; simpl; try reflexivity;
    now rewrite orb_true_r.
Qed.

End GuardFacts.

Lemma guard_expiry (v : JsVal) :
  negb (Number_isFinite v) || num_leb (asNumber v) (ofZ 0) = negb (finite_positive v).
Proof.
  destruct v as [ | | b | [ | | |q] | z | s | items | fields]; try reflexivity.
  cbn [Number_isFinite num_isFinite negb orb asNumber num_leb ofZ finite_positive].
  unfold Qltb. change (inject_Z 0) with 0%Q. now rewrite negb_involutive.
Qed.

Lemma guard_expired (v : JsVal) (nowMs : Z) :
  num_gtb (ofZ (nowMs / 1000)) (asNumber v) = past_expiry v nowMs.
Proof. destruct v as [ | | b | [ | | |q] | z | s | items | fields]; reflexivity. Qed.

Lemma given_text (o : option string) :
  given o = true -> exists c s, o = Some (String c s) /\ text o = String c s.
Proof. destruct o as [[|c s]|]; try discriminate. eauto. Qed.

Section VerifyFacts.

Context (P : Platform).

(** [verifyChallenge] runs the checks of the specification in its order. *)
Lemma verifyChallenge_in_order (o : VerifyOptions.t) (nowMs : Z) :
  verifyChallenge P o nowMs = verify_in_order P o nowMs.
Proof.
  unfold verifyChallenge, verify_in_order.
  rewrite guard_prefix, guard_nonce, guard_target, guard_expiry, guard_expired.
  cbn [first_failure bind].
  destruct (negb (nonempty_string (VerifyOptions.prefix o))); [reflexivity|].
  destruct (negb (string_or_number (VerifyOptions.nonce o))); [reflexivity|].
  destruct (negb (zeros_target (VerifyOptions.target o))); [reflexivity|].
  destruct (negb (finite_positive (VerifyOptions.expiresAt o))); [reflexivity|].
  destruct (past_expiry (VerifyOptions.expiresAt o) nowMs); [reflexivity|].
  destruct (flag (VerifyOptions.requireSignature o) && negb (given (VerifyOptions.secret o)));
    [reflexivity|].
  destruct (flag (VerifyOptions.requireSignature o) && negb (given (VerifyOptions.signature o)));
    [reflexivity|].
  rewrite negb_involutive.
  destruct (given (VerifyOptions.signature o)) eqn:Gs;
    destruct (given (VerifyOptions.secret o)) eqn:Gk; cbn [andb negb].
  - destruct (given_text _ Gs) as (c & s & Es & Ts).
    destruct (given_text _ Gk) as (k & key & Ek & Tk).
    unfold signature_mismatch. rewrite Es, Ek. cbn [text].
    destruct (metaHashOf P (VerifyOptions.metadata o)) as [h|e]; cbn [bind]; [|reflexivity].
    rewrite safeCompare_eqb. cbn [bind].
    destruct (String.eqb _ _); reflexivity.
  - reflexivity.
  - unfold signature_mismatch.
    destruct (VerifyOptions.signature o) as [[|c s]|]; try discriminate; reflexivity.
  - unfold signature_mismatch.
    destruct (VerifyOptions.signature o) as [[|c s]|]; try discriminate; reflexivity.
Qed.

End VerifyFacts.

(** ** Tokens *)

Lemma num_leb_compat (x : JsNum) (q q' : Q) :
  (q == q')%Q -> num_leb x (Fin q) = num_leb x (Fin q').
Proof.
  intros E. destruct x as [ | | |y]; try reflexivity. cbn [num_leb].
  destruct (Qle_bool y q') eqn:H.
  - apply Qle_bool_iff. apply Qle_bool_iff in H. now rewrite E.
  - destruct (Qle_bool y q) eqn:H'; [|reflexivity].
    apply Qle_bool_iff in H'. rewrite E in H'. apply Qle_bool_iff in H'. congruence.
Qed.

(** The age [Date.now() - timestamp] of a token stamped at [t]. *)
Lemma token_age (nowMs t : Z) (m : JsNum) :
  num_geb (num_sub (ofZ nowMs) (ofZ t)) m = num_leb m (ofZ (nowMs - t)).
Proof.
  unfold num_geb. cbn [num_sub ofZ]. apply num_leb_compat.
  unfold Qminus, Z.sub. rewrite inject_Z_plus, inject_Z_opp. reflexivity.
Qed.

Lemma after_epoch_small (t : Z) : after_epoch t -> Z.abs t < 10 ^ 21.
Proof. unfold after_epoch. lia. Qed.

Lemma number_of_integer_exact (t : Z) : after_epoch t -> number_of_integer t = ofZ t.
Proof.
  unfold after_epoch, number_of_integer. intros H.
  assert (B : 8640000000000000 < DOUBLE_OVERFLOW) by reflexivity.
  destruct (Z.leb_spec DOUBLE_OVERFLOW t); [lia|].
  destruct (Z.leb_spec t (- DOUBLE_OVERFLOW)); [lia|reflexivity].
Qed.

Section TokenFacts.

Context (P : Platform).

Lemma generateToken_accepts (i : string) (secret : option string) (nowMs : Z) :
  startsWith i "nha_" = true ->
  generateToken P (VStr i) secret nowMs
  = Return (Base64.encode (token_payload P i nowMs)
            ++ (if given secret
                then "." ++ hmacSign P (token_payload P i nowMs) (text secret) 32
                else "")).
Proof.
  intros H. unfold generateToken, token_payload. cbn [truthy typeof JsType_eqb ToString negb orb].
  rewrite H, (startsWith_truthy i "nha_" eq_refl H). cbn [negb orb].
  destruct (given secret); [reflexivity|]. now rewrite append_empty.
Qed.

Lemma generateToken_returns (v : JsVal) (secret : option string) (nowMs : Z) :
  returns (generateToken P v secret nowMs) = acceptable_id v.
Proof.
  unfold generateToken, acceptable_id.
  destruct v as [ | | [] | [ | | |q] | z | [|c s] | items | fields]; try reflexivity.
  - cbn [truthy typeof JsType_eqb negb orb].
    destruct (Qeq_bool q 0); reflexivity.
  - cbn [truthy]. destruct (z =? 0); reflexivity.
  - cbn [truthy str_truthy typeof JsType_eqb ToString negb orb].
    destruct (startsWith (String c s) "nha_"); cbn [negb]; [|reflexivity].
    destruct (given secret); reflexivity.
Qed.

Lemma verifyToken_never_throws (token : JsVal) (secret : option string)
    (maxAgeMs : option JsNum) (options : option TokenVerifyOptions.t) (nowMs : Z) :
  exists r, verifyToken P token secret maxAgeMs options nowMs = Return r.
Proof. unfold verifyToken. apply try_catch_returns. Qed.

(** The first piece of a generated token is the encoded payload. *)
Lemma token_pieces (payload tail : string) :
  tail = EmptyString \/ (exists sig, tail = "." ++ sig) ->
  exists rest, split "." (Base64.encode payload ++ tail) = Base64.encode payload :: rest
               /\ (tail = EmptyString -> rest = []).
Proof.
  intros [-> | [sig ->]].
  - rewrite append_empty, split_without by apply Base64Facts.encode_no_dot. eauto.
  - change ("." ++ sig) with (String "." sig).
    rewrite split_app by apply Base64Facts.encode_no_dot.
    eexists. split; [reflexivity|discriminate].
Qed.

(** A token whose identifier holds a colon has too many parts. *)
Lemma verifyToken_colon (i : string) (stamp tail : string) (secret : option string)
    (maxAgeMs : option JsNum) (options : option TokenVerifyOptions.t) (nowMs : Z) :
  startsWith i "nha_" = true -> contains ":" i = true ->
  tail = EmptyString \/ (exists sig, tail = "." ++ sig) ->
  verifyToken P (VStr (Base64.encode (i ++ ":" ++ stamp) ++ tail)) secret maxAgeMs options nowMs
  = Return TokenResult.invalid.
Proof.
  intros Hs Hc Htail. unfold verifyToken.
  assert (Hp : str_truthy (i ++ ":" ++ stamp) = true)
    by (apply str_truthy_app, (startsWith_truthy i "nha_" eq_refl Hs)).
  pose proof (Base64Facts.encode_truthy _ Hp) as Hb.
  cbn [truthy typeof JsType_eqb ToString].
  rewrite (str_truthy_app _ tail Hb). cbn [negb orb].
  destruct (token_pieces (i ++ ":" ++ stamp) tail Htail) as (rest & -> & _).
  cbn [nth_error given text]. rewrite Hb. cbn [negb].
  rewrite Base64Facts.decode_encode.
  change (":" ++ stamp) with (String ":" stamp).
  pose proof (split_length_app ":" i stamp) as L.
  pose proof (split_length_with ":" i Hc) as L2.
  pose proof (split_nonempty ":" stamp) as L1.
  destruct (Nat.eqb_spec (List.length (split ":" (i ++ String ":" stamp))) 2) as [E|_];
    [lia|reflexivity].
Qed.

(** The verdict on a token that [generateToken] issued without a secret,
    for an identifier with no colon. *)
Lemma verifyToken_unsigned (i : string) (t : Z) (secret : option string)
    (maxAgeMs : option JsNum) (options : option TokenVerifyOptions.t) (nowMs : Z) :
  startsWith i "nha_" = true -> contains ":" i = false -> after_epoch t ->
  verifyToken P (VStr (Base64.encode (token_payload P i t))) secret maxAgeMs options nowMs
  = Return (if num_leb (max_age maxAgeMs) (ofZ (nowMs - t)) then TokenResult.invalid
            else if flag (TokenVerifyOptions.requireSecret (token_options options))
                    && negb (given secret) then TokenResult.invalid
            else if given secret then TokenResult.invalid
            else TokenResult.ok i).
Proof.
  intros Hs Hc Ht. unfold verifyToken, token_payload.
  rewrite (Number_toString_ofZ P t (after_epoch_small t Ht)).
  assert (Hi : str_truthy i = true) by apply (startsWith_truthy i "nha_" eq_refl Hs).
  assert (Hp : str_truthy (i ++ ":" ++ Z_toString t) = true) by now apply str_truthy_app.
  pose proof (Base64Facts.encode_truthy _ Hp) as Hb.
  cbn [truthy typeof JsType_eqb ToString]. rewrite Hb. cbn [negb orb].
  rewrite split_without by apply Base64Facts.encode_no_dot.
  cbn [nth_error given text]. rewrite Hb. cbn [negb].
  rewrite Base64Facts.decode_encode.
  change (":" ++ Z_toString t) with (String ":" (Z_toString t)).
  rewrite (split_app ":" i _ Hc).
  rewrite split_without
    by (apply Z_toString_digits_only; [unfold after_epoch in Ht; lia | reflexivity]).
  cbn [List.length Nat.eqb negb nth].
  rewrite Hi, Hs. cbn [negb orb].
  rewrite parseInt10_Z_toString by (unfold after_epoch in Ht; lia).
  rewrite (number_of_integer_exact t Ht).
  cbn [num_isFinite ofZ negb orb]. fold (ofZ t). fold (ofZ 0).
  rewrite num_leb_ofZ.
  destruct (Z.leb_spec t 0); [unfold after_epoch in Ht; lia|].
  rewrite token_age. fold (max_age maxAgeMs). fold (token_options options).
  destruct (num_leb (max_age maxAgeMs) (ofZ (nowMs - t))); [reflexivity|].
  destruct (flag _ && negb (given secret)); [reflexivity|].
  destruct (given secret); reflexivity.
Qed.

End TokenFacts.

(** ** Created challenges *)

Lemma requested_expiresIn_positive (o : ChallengeOptions.t) : (0 < requested_expiresIn o)%Q.
Proof.
  unfold requested_expiresIn.
  destruct (ChallengeOptions.expiresIn o) as [[ | | |q]|]; try reflexivity.
  destruct (Qltb 0 q) eqn:E; [now apply Qltb_lt|reflexivity].
Qed.

Lemma num_ltb_not_leb (a b : JsNum) : num_ltb a b = true -> num_leb b a = false.
Proof.
  destruct a as [ | | |x], b as [ | | |y]; cbn [num_ltb num_leb]; try easy.
  unfold Qltb. now rewrite negb_true_iff.
Qed.

Section ChallengeShape.

Context (P : Platform).

(** Whatever the signature, a created challenge has the fields of the
    specification. *)
Lemma createChallenge_fields (options : option ChallengeOptions.t) (nowMs : Z)
    (rnd : nat -> ascii) (c : Challenge.t) :
  createChallenge P options nowMs rnd = Return c ->
  let u := unsigned_challenge (the_options options) nowMs rnd in
  Challenge.id c = Challenge.id u /\ Challenge.prefix c = Challenge.prefix u
  /\ Challenge.target c = Challenge.target u
  /\ Challenge.expiresAt c = Challenge.expiresAt u
  /\ Challenge.metadata c = Challenge.metadata u.
Proof.
  rewrite createChallenge_unfold. cbv zeta.
  destruct (given _).
  - destruct (metaHashOf P _); cbn [bind]; [|discriminate].
    intros H. injection H as <-. repeat split.
  - intros H. injection H as <-. repeat split.
Qed.



(** A created challenge passes the checks on the shape of its fields. *)
Lemma unsigned_challenge_well_formed (o : ChallengeOptions.t) (nowMs : Z)
    (rnd : nat -> ascii) :
  after_epoch nowMs ->
  let u := unsigned_challenge o nowMs rnd in
  nonempty_string (VStr (Challenge.prefix u)) = true
  /\ zeros_target (VStr (Challenge.target u)) = true
  /\ finite_positive (VNum (Challenge.expiresAt u)) = true.
Proof.
  intros Hc. cbv zeta. repeat split.
  - cbn [unsigned_challenge Challenge.target zeros_target].
    apply zeros_match. pose proof (clamp_range (Qfloor (requested_difficulty o))). lia.
  - cbn [unsigned_challenge Challenge.expiresAt finite_positive].
    apply Qltb_lt.
    apply Qlt_le_trans with (y := requested_expiresIn o);
      [apply requested_expiresIn_positive|].
    rewrite <- (Qplus_0_l (requested_expiresIn o)) at 1.
    apply Qplus_le_l. change 0%Q with (inject_Z 0). rewrite <- Zle_Qle.
    unfold after_epoch in Hc. apply Z.div_pos; lia.
Qed.

(** The verdict when a signature comes without a secret. *)
Lemma verifyChallenge_missing_secret (o : VerifyOptions.t) (nowMs : Z) :
  given (VerifyOptions.signature o) = true -> given (VerifyOptions.secret o) = false ->
  passes_input_checks o nowMs = true ->
  verifyChallenge P o nowMs = Return (VerifyResult.rejected missing_secret).
Proof.
  intros Hs Hk Hin. rewrite verifyChallenge_in_order. unfold verify_in_order.
  unfold passes_input_checks in Hin.
  repeat (apply andb_true_iff in Hin as [Hin ?]).
  cbn [first_failure bind].
  repeat match goal with
         | H : ?b = true |- context [negb ?b] => rewrite H
         | H : negb ?b = true |- context [if ?b then _ else _] =>
             apply negb_true_iff in H; rewrite H
         end.
  rewrite ?Hk, ?Hs. cbn [negb andb].
  destruct (flag (VerifyOptions.requireSignature o)); reflexivity.
Qed.

End ChallengeShape.

(** ** The claims *)

(** C1.  A challenge made by [createChallenge], solved by [solveChallenge]
    for its prefix and target, and submitted before it expires with its
    prefix, the solver's nonce, its target and its [expiresAt], is
    accepted by [verifyChallenge]: [valid] is true, the hash is the one
    the solver reported, and it starts with the target.  The clock at the
    creation reads a time after the epoch. *)
Theorem solved_challenge_verifies (P : Platform) (options : option ChallengeOptions.t)
    (createdAt : Z) (rnd : nat -> ascii) (c : Challenge.t)
    (clock : nat -> Z) (fuel : nat) (o : SolveOptions.t) (r : SolveResult.t)
    (nowMs : Z) :
  after_epoch createdAt ->
  createChallenge P options createdAt rnd = Return c ->
  SolveOptions.prefix o = Challenge.prefix c ->
  SolveOptions.target o = Challenge.target c ->
  solveChallenge P clock fuel o = Some (Return r) ->
  SolveResult.found r = true ->
  num_gtb (ofZ (nowMs / 1000)) (Challenge.expiresAt c) = false ->
  exists nonce hash,
    SolveResult.nonce r = Some nonce /\ SolveResult.hash r = Some hash
    /\ verifyChallenge P (submission c nonce) nowMs = Return (VerifyResult.accepted hash)
    /\ startsWith hash (Challenge.target c) = true.
Proof.
  intros Hclock Hc Hprefix Htarget Hsolve Hfound Hlive.
  destruct (solveLoop_found P _ _ _ _ _ _ _ _ _ _ _ r Hsolve Hfound)
    as (nonce & hash & En & Eh & Ehash & Hstarts).
  rewrite Hprefix in Ehash. rewrite Htarget in Hstarts.
  exists nonce, hash. repeat split; try assumption.
  destruct (createChallenge_fields P _ _ _ _ Hc) as (_ & Ep & Et & Ee & _).
  destruct (unsigned_challenge_well_formed (the_options options) createdAt rnd Hclock)
    as (W1 & W2 & W3).
  rewrite <- Ep in W1. rewrite <- Et in W2. rewrite <- Ee in W3.
  rewrite verifyChallenge_in_order. unfold verify_in_order.
  cbn [submission VerifyOptions.prefix VerifyOptions.nonce VerifyOptions.target
       VerifyOptions.expiresAt VerifyOptions.signature VerifyOptions.secret
       VerifyOptions.requireSignature VerifyOptions.metadata
       flag given negb andb signature_mismatch ToString].
  rewrite W1, W2, W3. cbn [negb first_failure bind past_expiry].
  unfold num_gtb in Hlive. rewrite Hlive. rewrite <- Ehash, Hstarts. reflexivity.
Qed.

Lemma Qltb_irrefl_eq (x y : Q) : (x == y)%Q -> Qltb x y = false.
Proof.
  intros E. destruct (Qltb x y) eqn:H; [|reflexivity].
  apply Qltb_lt in H. rewrite E in H. exfalso. exact (Qlt_irrefl _ H).
Qed.

(** No check but the fifth gives the verdict [expired]. *)
Lemma first_failure_not_expired (checks : list Validation) (otherwise : VerifyResult.t) :
  Forall (fun c => snd c <> VerifyResult.rejected expired
                   \/ fst c = Return false) checks ->
  otherwise <> VerifyResult.rejected expired ->
  first_failure checks otherwise <> Return (VerifyResult.rejected expired).
Proof.
  intros H Ho. induction H as [|[fails verdict] rest Hc _ IH]; cbn [first_failure].
  - congruence.
  - destruct fails as [[|]|e]; cbn [bind]; try discriminate; try exact IH.
    destruct Hc as [Hv | Hf]; cbn [fst snd] in *; congruence.
Qed.

(** C2.  [verifyChallenge] applies the checks in the order of the
    specification: non-empty string prefix; nonce a string or a number;
    target matching [^0{1,6}$]; [expiresAt] finite and positive; current
    time after [expiresAt]; [requireSignature] without a secret, then
    without a signature; a signature without a secret; the comparison of
    signatures; the hash.  The verdict is that of the first check that
    fails, and a check is not run unless the earlier ones passed.  A
    challenge whose [expiresAt] is the current time is not expired. *)
Theorem verifyChallenge_check_order (P : Platform) :
  (forall (o : VerifyOptions.t) (nowMs : Z),
      verifyChallenge P o nowMs = verify_in_order P o nowMs)
  /\ (forall (o : VerifyOptions.t) (nowMs : Z) (q : Q),
         VerifyOptions.expiresAt o = VNum (Fin q) ->
         (q == inject_Z (nowMs / 1000))%Q ->
         verifyChallenge P o nowMs <> Return (VerifyResult.rejected expired)).
Proof.
  split; [apply verifyChallenge_in_order|].
  intros o nowMs q Eq Hq. rewrite verifyChallenge_in_order. unfold verify_in_order.
  apply first_failure_not_expired; [|discriminate].
  repeat (apply Forall_cons; [try (left; discriminate)|]); [|apply Forall_nil].
  right. cbn [fst]. rewrite Eq. cbn [past_expiry num_ltb ofZ].
  now rewrite (Qltb_irrefl_eq _ _ Hq).
Qed.

(** C3.  With a signature supplied and no secret, an input that passes the
    checks of the prefix, the nonce, the target, the validity of the
    expiry, the expiry and [requireSignature] is rejected with
    [missing_secret], whatever SHA256(prefix + nonce) is. *)
Theorem signature_without_secret (P : Platform) (o : VerifyOptions.t) (nowMs : Z) :
  given (VerifyOptions.signature o) = true ->
  given (VerifyOptions.secret o) = false ->
  passes_input_checks o nowMs = true ->
  passes_requireSignature o = true ->
  verifyChallenge P o nowMs = Return (VerifyResult.rejected missing_secret).
Proof. intros Hs Hk Hin _. now apply verifyChallenge_missing_secret. Qed.

(** C4, as amended.  [solveChallenge] tries the nonces 0, 1, 2, ... as
    decimal strings in order.  If a nonce below [maxIterations] (and below
    2^53) has SHA256(prefix + nonce) starting with the target, it returns
    [found: true] with the least such nonce, its hash, and [iterations]
    equal to that nonce plus one.  Otherwise, when [maxIterations] is an
    integer between 0 and 2^53, it returns [found: false] with
    [iterations] equal to [maxIterations].  It does not throw; the
    callback [onProgress], if there is one, is one that returns. *)
Theorem solveChallenge_least_nonce (P : Platform) (clock : nat -> Z)
    (o : SolveOptions.t) :
  let prefix := SolveOptions.prefix o in
  let target := SolveOptions.target o in
  progress_returns o ->
  (forall n : Z,
      0 <= n < MAX_EXACT -> num_ltb (ofZ n) (limit o) = true ->
      solves P prefix target n = true ->
      exists m : Z,
        0 <= m <= n /\ solves P prefix target m = true
        /\ (forall j, 0 <= j < m -> solves P prefix target j = false)
        /\ forall fuel : nat, (Z.to_nat m < fuel)%nat ->
             exists r, solveChallenge P clock fuel o = Some (Return r)
                       /\ reports_nonce P prefix m r)
  /\ (forall (N : Z) (q : Q),
         limit o = Fin q -> (q == inject_Z N)%Q -> 0 <= N <= MAX_EXACT ->
         (forall j, 0 <= j < N -> solves P prefix target j = false) ->
         forall fuel : nat, (Z.to_nat N < fuel)%nat ->
           exists r, solveChallenge P clock fuel o = Some (Return r)
                     /\ reports_failure N r).
Proof.
  cbv zeta. intros Hcb. split.
  - intros n Hn Hlt Hs.
    destruct (least_below (solves P (SolveOptions.prefix o) (SolveOptions.target o)) n
                ltac:(lia) Hs) as (m & Hm & Hsm & Hleast).
    exists m. repeat split; try lia; try assumption.
    intros fuel Hf. unfold solveChallenge.
    apply (solveLoop_reaches P _ _ _ _ _ _ _ Hcb m) with (d := Z.to_nat m);
      try assumption; try lia.
    apply (num_ltb_down m n); [lia|assumption].
  - intros N q El Hq HN Hnone fuel Hf. unfold solveChallenge.
    apply (solveLoop_exhausts P _ _ _ _ _ _ _ Hcb N) with (d := Z.to_nat N);
      try assumption; try lia.
    intros n. rewrite El. now apply num_ltb_integer.
Qed.

Section TokenAge.

Context (P : Platform).

(** The tail of a token after its payload: nothing, or a dot and a signature. *)
Lemma token_tail (secret : option string) (payload : string) :
  let tail := if given secret then "." ++ hmacSign P payload (text secret) 32 else "" in
  tail = EmptyString \/ (exists sig, tail = "." ++ sig).
Proof. cbv zeta. destruct (given secret); eauto. Qed.

(** A token as old as the maximum age, or older, is rejected. *)
Lemma verifyToken_too_old (i : string) (t : Z) (tail : string) (secret : option string)
    (maxAgeMs : option JsNum) (options : option TokenVerifyOptions.t) (nowMs : Z) :
  startsWith i "nha_" = true -> after_epoch t ->
  tail = EmptyString \/ (exists sig, tail = "." ++ sig) ->
  num_leb (max_age maxAgeMs) (ofZ (nowMs - t)) = true ->
  verifyToken P (VStr (Base64.encode (token_payload P i t) ++ tail))
    secret maxAgeMs options nowMs
  = Return TokenResult.invalid.
Proof.
  intros Hs Ht Htail Hold.
  destruct (contains ":" i) eqn:Hc.
  { unfold token_payload. now apply verifyToken_colon. }
  unfold verifyToken, token_payload.
  rewrite (Number_toString_ofZ P t (after_epoch_small t Ht)).
  assert (Hi : str_truthy i = true) by apply (startsWith_truthy i "nha_" eq_refl Hs).
  assert (Hp : str_truthy (i ++ ":" ++ Z_toString t) = true) by now apply str_truthy_app.
  pose proof (Base64Facts.encode_truthy _ Hp) as Hb.
  cbn [truthy typeof JsType_eqb ToString].
  rewrite (str_truthy_app _ tail Hb). cbn [negb orb].
  destruct (token_pieces (i ++ ":" ++ Z_toString t) tail Htail) as (rest & -> & _).
  cbn [nth_error given text]. rewrite Hb. cbn [negb].
  rewrite Base64Facts.decode_encode.
  change (":" ++ Z_toString t) with (String ":" (Z_toString t)).
  rewrite (split_app ":" i _ Hc).
  rewrite split_without
    by (apply Z_toString_digits_only; [unfold after_epoch in Ht; lia | reflexivity]).
  cbn [List.length Nat.eqb negb nth].
  rewrite Hi, Hs. cbn [negb orb].
  rewrite parseInt10_Z_toString by (unfold after_epoch in Ht; lia).
  rewrite (number_of_integer_exact t Ht).
  cbn [num_isFinite ofZ negb orb]. fold (ofZ t). fold (ofZ 0).
  rewrite num_leb_ofZ.
  destruct (Z.leb_spec t 0); [unfold after_epoch in Ht; lia|].
  rewrite token_age. fold (max_age maxAgeMs). now rewrite Hold.
Qed.

(** Unless the maximum age is [NaN], a token that is accepted is younger
    than the maximum age: the bound is exclusive. *)
Lemma verifyToken_accepts_young (i : string) (t : Z) (signedWith secret : option string)
    (maxAgeMs : option JsNum) (options : option TokenVerifyOptions.t) (nowMs : Z)
    (token : string) (r : TokenResult.t) :
  after_epoch t -> max_age maxAgeMs <> NaN ->
  generateToken P (VStr i) signedWith t = Return token ->
  verifyToken P (VStr token) secret maxAgeMs options nowMs = Return r ->
  TokenResult.valid r = true ->
  num_ltb (ofZ (nowMs - t)) (max_age maxAgeMs) = true.
Proof.
  intros Ht Hnan Hgen Hver Hvalid.
  assert (Hs : startsWith i "nha_" = true).
  { pose proof (generateToken_returns P (VStr i) signedWith t) as Hr.
    rewrite Hgen in Hr. symmetry. exact Hr. }
  rewrite (generateToken_accepts P i signedWith t Hs) in Hgen.
  injection Hgen as Etoken. subst token.
  destruct (num_leb (max_age maxAgeMs) (ofZ (nowMs - t))) eqn:Hold.
  - pose proof (verifyToken_too_old i t _ secret maxAgeMs options nowMs Hs Ht
                  (token_tail signedWith (token_payload P i t)) Hold) as Hv.
    assert (E : Return r = Return TokenResult.invalid) by (rewrite <- Hver; exact Hv).
    injection E as ->. discriminate Hvalid.
  - destruct (max_age maxAgeMs) as [ | | |m]; [congruence | | | ];
      cbn [num_leb num_ltb ofZ] in *; try discriminate; try reflexivity.
    unfold Qltb. now rewrite Hold.
Qed.

End TokenAge.

(** C5, where the code departs from it.  A token issued by
    [generateToken] and verified with [maxAgeMs = NaN] is accepted at any
    age: here more than two centuries after it was issued. *)
Theorem verifyToken_NaN_max_age_never_expires :
  generateToken node (VStr "nha_0123456789abcdef01234567") None 1700000000000
  = Return "bmhhXzAxMjM0NTY3ODlhYmNkZWYwMTIzNDU2NzoxNzAwMDAwMDAwMDAw"
  /\ verifyToken node (VStr "bmhhXzAxMjM0NTY3ODlhYmNkZWYwMTIzNDU2NzoxNzAwMDAwMDAwMDAw")
       None (Some NaN) None 9700000000000
     = Return (TokenResult.ok "nha_0123456789abcdef01234567")
  /\ num_ltb (ofZ (9700000000000 - 1700000000000)) NaN = false.
Proof. split; [|split]; vm_compute; reflexivity. Qed.

(** C6, as amended.  For an identifier that [generateToken] accepts and
    that holds no colon, a token issued without a secret and verified
    without a secret within the maximum age is valid, with the identifier
    it was issued for.  The clock at the issue reads a time after the
    epoch. *)
Theorem token_round_trip (P : Platform) (i : string) (issuedAt nowMs : Z)
    (maxAgeMs : option JsNum) :
  startsWith i "nha_" = true -> contains ":" i = false ->
  after_epoch issuedAt ->
  num_ltb (ofZ (nowMs - issuedAt)) (max_age maxAgeMs) = true ->
  exists token : string,
    generateToken P (VStr i) None issuedAt = Return token
    /\ verifyToken P (VStr token) None maxAgeMs None nowMs = Return (TokenResult.ok i).
Proof.
  intros Hs Hc Ht Hage. eexists. split.
  - rewrite (generateToken_accepts P i None issuedAt Hs). cbn [given].
    rewrite append_empty. reflexivity.
  - rewrite (verifyToken_unsigned P i issuedAt None maxAgeMs None nowMs Hs Hc Ht).
    now rewrite (num_ltb_not_leb _ _ Hage).
Qed.

(** C9.  For an identifier that starts with [nha_] and holds a colon,
    [generateToken] returns a token, and [verifyToken] rejects that token
    for every secret, maximum age, option and time: the decoded payload
    has more than two parts. *)
Theorem colon_identifier_never_verifies (P : Platform) (i : string)
    (signedWith : option string) (issuedAt : Z) :
  startsWith i "nha_" = true -> contains ":" i = true ->
  exists token : string,
    generateToken P (VStr i) signedWith issuedAt = Return token
    /\ (2 < List.length (split ":" (token_payload P i issuedAt)))%nat
    /\ forall (secret : option string) (maxAgeMs : option JsNum)
              (options : option TokenVerifyOptions.t) (nowMs : Z),
         verifyToken P (VStr token) secret maxAgeMs options nowMs
         = Return TokenResult.invalid.
Proof.
  intros Hs Hc. eexists. split; [|split].
  - apply (generateToken_accepts P i signedWith issuedAt Hs).
  - unfold token_payload. change (":" ++ ?s) with (String ":" s).
    rewrite split_length_app.
    pose proof (split_length_with ":" i Hc).
    pose proof (split_nonempty ":" (Number_toString P (ofZ issuedAt))). lia.
  - intros secret maxAgeMs options nowMs. unfold token_payload.
    apply verifyToken_colon; try assumption. apply token_tail.
Qed.

Section Throwing.

Context (P : Platform).

(** [verifyChallenge] returns a verdict when it has no metadata to
    serialise, and when the serialisation returns. *)
Lemma verifyChallenge_returns (o : VerifyOptions.t) (nowMs : Z) :
  serialises_metadata o = false
  \/ (exists h, metaHashOf P (VerifyOptions.metadata o) = Return h) ->
  exists r, verifyChallenge P o nowMs = Return r.
Proof.
  intros H.
  assert (Hm : given (VerifyOptions.signature o) && given (VerifyOptions.secret o) = false
               \/ exists h, metaHashOf P (VerifyOptions.metadata o) = Return h).
  { destruct H as [H | H]; [|now right]. unfold serialises_metadata in H.
    apply andb_false_iff in H as [H | H]; [now left|].
    right. rewrite (metaHashOf_of_nothing P _ H). eauto. }
  rewrite verifyChallenge_in_order. unfold verify_in_order.
  cbn [first_failure bind].
  repeat match goal with
         | |- exists r, (if ?c then _ else _) = Return r => destruct c; [eauto|]
         end.
  assert (Hsig : exists b, signature_mismatch P o = Return b).
  { unfold signature_mismatch.
    destruct (VerifyOptions.signature o) as [[|c s]|]; eauto.
    destruct (VerifyOptions.secret o) as [[|k key]|]; eauto.
    destruct Hm as [Hm | [h Hm]]; [discriminate Hm|].
    rewrite Hm. cbn [bind]. eauto. }
  destruct Hsig as [b ->]. cbn [bind].
  destruct b; [eauto|]. destruct (negb _); eauto.
Qed.

(** An exception of [verifyChallenge] is one of the serialisation of the
    metadata, for the comparison of signatures. *)
Lemma verifyChallenge_throws_only (o : VerifyOptions.t) (nowMs : Z) (e : JsError) :
  verifyChallenge P o nowMs = Throw e ->
  given (VerifyOptions.signature o) = true /\ given (VerifyOptions.secret o) = true
  /\ metaHashOf P (VerifyOptions.metadata o) = Throw e.
Proof.
  rewrite verifyChallenge_in_order. unfold verify_in_order.
  cbn [first_failure bind].
  repeat match goal with
         | |- (if ?c then _ else _) = Throw e -> _ => destruct c; [discriminate|]
         end.
  unfold signature_mismatch.
  destruct (VerifyOptions.signature o) as [[|c s]|]; cbn [bind];
    try (destruct (negb _); discriminate).
  destruct (VerifyOptions.secret o) as [[|k key]|]; cbn [bind];
    try (destruct (negb _); discriminate).
  destruct (metaHashOf P (VerifyOptions.metadata o)) as [h|e']; cbn [bind].
  - destruct (negb (String.eqb _ _)); [discriminate|]. destruct (negb _); discriminate.
  - intros H. injection H as ->. repeat split.
Qed.

End Throwing.

(** C7, where the code departs from it.  [verifyChallenge] throws on a
    well-typed input: a signed submission whose metadata holds a BigInt
    makes [canonicalJson] call [JSON.stringify] on that BigInt, which is a
    TypeError that nothing catches. *)
Theorem verifyChallenge_throws_on_bigint_metadata :
  verifyChallenge node
    {| VerifyOptions.prefix := VStr "0c0d0e0f10111213";
       VerifyOptions.nonce := VStr "0";
       VerifyOptions.target := VStr "0";
       VerifyOptions.expiresAt := VNum (ofZ 1700000060);
       VerifyOptions.signature := Some "00000000000000000000000000000000";
       VerifyOptions.secret := Some "k";
       VerifyOptions.requireSignature := None;
       VerifyOptions.metadata := VObj [("tokenId", VBigInt 1)] |}
    1700000000000
  = Throw (TypeError "Do not know how to serialize a BigInt").
Proof. vm_compute. reflexivity. Qed.


(** C10.  The empty string as a secret is the same as no secret:
    [createChallenge] attaches no signature; [verifyChallenge] answers
    [missing_secret] to a signature instead of comparing it;
    [generateToken] returns the unsigned token; [verifyToken] skips the
    check of the signature and fails the option [requireSecret]. *)
Theorem empty_secret_is_no_secret (P : Platform) :
  (forall (o : ChallengeOptions.t) (nowMs : Z) (rnd : nat -> ascii),
      createChallenge P (Some (ChallengeOptions_with_secret o (Some ""))) nowMs rnd
      = createChallenge P (Some (ChallengeOptions_with_secret o None)) nowMs rnd
      /\ exists c, createChallenge P (Some (ChallengeOptions_with_secret o (Some "")))
                     nowMs rnd = Return c
                   /\ Challenge.signature c = None)
  /\ (forall (o : VerifyOptions.t) (nowMs : Z),
         verifyChallenge P (VerifyOptions_with_secret o (Some "")) nowMs
         = verifyChallenge P (VerifyOptions_with_secret o None) nowMs
         /\ (given (VerifyOptions.signature o) = true ->
             passes_input_checks o nowMs = true ->
             verifyChallenge P (VerifyOptions_with_secret o (Some "")) nowMs
             = Return (VerifyResult.rejected missing_secret)))
  /\ (forall (challengeId : JsVal) (nowMs : Z),
         generateToken P challengeId (Some "") nowMs
         = generateToken P challengeId None nowMs
         /\ (forall i, challengeId = VStr i -> startsWith i "nha_" = true ->
             generateToken P challengeId (Some "") nowMs
             = Return (Base64.encode (token_payload P i nowMs))))
  /\ (forall (token : JsVal) (maxAgeMs : option JsNum)
             (options : option TokenVerifyOptions.t) (nowMs : Z),
         verifyToken P token (Some "") maxAgeMs options nowMs
         = verifyToken P token None maxAgeMs options nowMs
         /\ (flag (TokenVerifyOptions.requireSecret (token_options options)) = true ->
             verifyToken P token (Some "") maxAgeMs options nowMs
             = Return TokenResult.invalid)).
Proof.
  repeat split.
  - eexists. split; [rewrite createChallenge_unfold; reflexivity | reflexivity].
  - intros Hs Hin.
    apply verifyChallenge_missing_secret; [exact Hs | reflexivity | exact Hin].
  - intros i -> Hs. rewrite (generateToken_accepts P i (Some "") nowMs Hs).
    cbn [given str_truthy]. now rewrite append_empty.
  - intros Hreq. unfold verifyToken. rewrite Hreq. cbn [given str_truthy negb andb].
    repeat match goal with
           | |- try_catch (if ?c then _ else _) _ = _ => destruct c; [reflexivity|]
           end.
    reflexivity.
Qed.

(** * Further properties of the code *)

(** ** The solver, whatever its callback does *)

Section SolverResults.

Context (P : Platform) (clock : nat -> Z) (startTime : Z) (prefix target : string)
        (mi : JsNum) (onProgress : option (Z -> Z -> Exn unit)) (pi : JsNum).

Let loop := solveLoop P clock startTime prefix target mi onProgress pi.

Lemma searched_zero : searched P prefix target mi 0.
Proof. split; [rewrite MAX_EXACT_value; lia|]. intros j Hj. lia. Qed.

Lemma searched_next (n : Z) :
  searched P prefix target mi n -> num_ltb (ofZ n) mi = true ->
  solves P prefix target n = false ->
  searched P prefix target mi (incr n).
Proof.
  intros [Hn Hl] Hlt Hs. unfold incr. destruct (Z.ltb_spec n MAX_EXACT); [|now split].
  split; [lia|]. intros j Hj. destruct (Z.eq_dec j n) as [->|]; [now split|].
  apply Hl. lia.
Qed.

(** What the loop returns, from counters that have [searched]. *)
Lemma solveLoop_result (fuel : nat) :
  forall (n : Z) (reads : nat) (r : SolveResult.t),
    searched P prefix target mi n -> loop fuel n n reads = Some (Return r) ->
    exists m : Z,
      searched P prefix target mi m
      /\ SolveResult.iterations r = (if SolveResult.found r then incr m else m)
      /\ if SolveResult.found r
         then num_ltb (ofZ m) mi = true /\ solves P prefix target m = true
              /\ SolveResult.nonce r = Some (Z_toString m)
              /\ SolveResult.hash r = Some (sha256 P (prefix ++ Z_toString m))
         else num_ltb (ofZ m) mi = false
              /\ SolveResult.nonce r = None /\ SolveResult.hash r = None.
Proof.
  unfold loop.
  induction fuel as [|fuel IH]; intros n reads r Hn; cbn [solveLoop]; [discriminate|].
  rewrite solver_hash, (nonce_string P n (proj1 Hn)).
  destruct (num_ltb (ofZ n) mi) eqn:Hlt.
  - fold (solves P prefix target n).
    destruct (solves P prefix target n) eqn:Hs.
    + intros H. injection H as <-. exists n.
      cbn [SolveResult.found SolveResult.iterations SolveResult.nonce SolveResult.hash].
      split; [exact Hn|]. repeat split; assumption.
    + pose proof (searched_next n Hn Hlt Hs) as Hn'.
      destruct onProgress as [callback|]; [|now apply IH].
      destruct (num_eqb _ _); [|now apply IH].
      destruct (callback _ _); [now apply IH|discriminate].
  - intros H. injection H as <-. exists n.
    cbn [SolveResult.found SolveResult.iterations SolveResult.nonce SolveResult.hash].
    split; [exact Hn|]. repeat split; assumption.
Qed.

(** An exception of the loop is an exception of the callback. *)
Lemma solveLoop_throws (fuel : nat) :
  forall (n i : Z) (reads : nat) (e : JsError),
    loop fuel n i reads = Some (Throw e) ->
    exists callback iterations rate,
      onProgress = Some callback /\ callback iterations rate = Throw e.
Proof.
  unfold loop.
  induction fuel as [|fuel IH]; intros n i reads e; cbn [solveLoop]; [discriminate|].
  destruct (num_ltb (ofZ n) mi); [|discriminate].
  destruct (startsWith _ target); [discriminate|].
  destruct onProgress as [callback|] eqn:Ecb.
  - destruct (num_eqb _ _); [|apply IH].
    destruct (callback _ _) eqn:Ec; [apply IH|].
    intros H. injection H as <-. eauto.
  - intros H. destruct (IH _ _ _ _ H) as (cb & _ & _ & Hcb & _). discriminate.
Qed.

End SolverResults.

(** X1.  A nonce that [solveChallenge] reports is right and is the least:
    whatever the options, the clock and the callback, a result with
    [found: true] carries the decimal string of an integer [n] below
    [maxIterations] such that SHA256(prefix + n) starts with the target,
    that hash, and [n + 1] iterations ([n] at 2^53, where the counter no
    longer moves); no integer from 0 to [n - 1] solves. *)
Theorem solveChallenge_found_is_least (P : Platform) (clock : nat -> Z) (fuel : nat)
    (o : SolveOptions.t) (r : SolveResult.t) :
  solveChallenge P clock fuel o = Some (Return r) ->
  SolveResult.found r = true ->
  exists n : Z,
    0 <= n /\ num_ltb (ofZ n) (limit o) = true
    /\ SolveResult.nonce r = Some (Z_toString n)
    /\ SolveResult.hash r = Some (sha256 P (SolveOptions.prefix o ++ Z_toString n))
    /\ startsWith (sha256 P (SolveOptions.prefix o ++ Z_toString n))
         (SolveOptions.target o) = true
    /\ (forall j, 0 <= j < n ->
          startsWith (sha256 P (SolveOptions.prefix o ++ Z_toString j))
            (SolveOptions.target o) = false)
    /\ SolveResult.iterations r = incr n.
Proof.
  unfold solveChallenge. intros H Hf.
  destruct (solveLoop_result P _ _ _ _ _ _ _ _ _ _ _ (searched_zero P _ _ _) H)
    as (m & Hm & Hi & Hr).
  rewrite Hf in Hi, Hr. destruct Hr as (Hlt & Hs & En & Eh).
  exists m. repeat split; try assumption; apply Hm.
Qed.

(** X2.  [solveChallenge] gives up only after an exhaustive search: a
    result with [found: false] has no nonce and no hash, its [iterations]
    is not below [maxIterations], and no integer nonce from 0 that is
    below [maxIterations] solves. *)
Theorem solveChallenge_failure_is_exhaustive (P : Platform) (clock : nat -> Z)
    (fuel : nat) (o : SolveOptions.t) (r : SolveResult.t) :
  solveChallenge P clock fuel o = Some (Return r) ->
  SolveResult.found r = false ->
  SolveResult.nonce r = None /\ SolveResult.hash r = None
  /\ 0 <= SolveResult.iterations r
  /\ num_ltb (ofZ (SolveResult.iterations r)) (limit o) = false
  /\ forall j, 0 <= j -> num_ltb (ofZ j) (limit o) = true ->
       startsWith (sha256 P (SolveOptions.prefix o ++ Z_toString j))
         (SolveOptions.target o) = false.
Proof.
  unfold solveChallenge. intros H Hf.
  destruct (solveLoop_result P _ _ _ _ _ _ _ _ _ _ _ (searched_zero P _ _ _) H)
    as (m & Hm & Hi & Hr).
  rewrite Hf in Hi, Hr. destruct Hr as (Hlt & En & Eh). rewrite Hi.
  repeat split; try assumption; try apply Hm.
  intros j Hj Hjlt. apply (proj2 Hm j). split; [exact Hj|].
  destruct (Z.lt_ge_cases j m) as [L|G]; [exact L|].
  rewrite (num_ltb_down m j _ G Hjlt) in Hlt. discriminate.
Qed.

(** X3.  [solveChallenge] throws nothing of its own: when it ends with an
    exception, there is a callback [onProgress] and it is the callback
    that threw it. *)
Theorem solveChallenge_throws_what_onProgress_throws (P : Platform) (clock : nat -> Z)
    (fuel : nat) (o : SolveOptions.t) (e : JsError) :
  solveChallenge P clock fuel o = Some (Throw e) ->
  exists callback iterations rate,
    SolveOptions.onProgress o = Some callback /\ callback iterations rate = Throw e.
Proof. unfold solveChallenge. apply solveLoop_throws. Qed.

(** X4.  What [solveChallenge] finds depends on the prefix, the target and
    [maxIterations] only: two runs that return, with whatever clocks,
    callbacks and progress intervals, agree on [found], [nonce],
    [iterations] and [hash]. *)
Theorem solveChallenge_search_is_independent (P : Platform) (clock clock' : nat -> Z)
    (fuel fuel' : nat) (o o' : SolveOptions.t) (r r' : SolveResult.t) :
  SolveOptions.prefix o = SolveOptions.prefix o' ->
  SolveOptions.target o = SolveOptions.target o' ->
  limit o = limit o' ->
  solveChallenge P clock fuel o = Some (Return r) ->
  solveChallenge P clock' fuel' o' = Some (Return r') ->
  SolveResult.found r = SolveResult.found r'
  /\ SolveResult.nonce r = SolveResult.nonce r'
  /\ SolveResult.iterations r = SolveResult.iterations r'
  /\ SolveResult.hash r = SolveResult.hash r'.
Proof.
  unfold solveChallenge. intros Ep Et El H H'. rewrite <- Ep, <- Et, <- El in H'.
  destruct (solveLoop_result P _ _ _ _ _ _ _ _ _ _ _ (searched_zero P _ _ _) H)
    as (m & Hm & Hi & Hr).
  destruct (solveLoop_result P _ _ _ _ _ _ _ _ _ _ _ (searched_zero P _ _ _) H')
    as (m' & Hm' & Hi' & Hr').
  assert (E : SolveResult.found r = SolveResult.found r' /\ m = m').
  { destruct (Z.lt_trichotomy m m') as [L | [E | L]].
    - exfalso. destruct (proj2 Hm' m (conj (proj1 (proj1 Hm)) L)) as [Hlt Hs].
      destruct (SolveResult.found r);
        [destruct Hr as (_ & Hs' & _) | destruct Hr as (Hlt' & _)]; congruence.
    - split; [|exact E]. subst m'.
      destruct (SolveResult.found r), (SolveResult.found r'); try reflexivity; exfalso;
        destruct Hr as (Hlt & _), Hr' as (Hlt' & _); congruence.
    - exfalso. destruct (proj2 Hm m' (conj (proj1 (proj1 Hm')) L)) as [Hlt Hs].
      destruct (SolveResult.found r');
        [destruct Hr' as (_ & Hs' & _) | destruct Hr' as (Hlt' & _)]; congruence. }
  destruct E as [Ef ->]. rewrite <- Ef in Hi', Hr'. rewrite Hi, Hi'.
  split; [exact Ef|].
  destruct (SolveResult.found r).
  - destruct Hr as (_ & _ & -> & ->), Hr' as (_ & _ & -> & ->). repeat split.
  - destruct Hr as (_ & -> & ->), Hr' as (_ & -> & ->). repeat split.
Qed.

(** ** Accepted submissions *)

Ltac not_valid :=
  let H := fresh in intros H; injection H as <-; discriminate.

Lemma nonempty_string_inv (v : JsVal) :
  nonempty_string v = true -> exists s, v = VStr s /\ s <> "".
Proof.
  destruct v as [ | | | | | [|c s] | | ]; try discriminate.
  intros _. eexists. split; [reflexivity|discriminate].
Qed.

Lemma zeros_target_inv (v : JsVal) :
  zeros_target v = true -> exists s, v = VStr s /\ matches_zeros_1_6 s = true.
Proof. destruct v; try discriminate. eauto. Qed.


Lemma Qltb_false (x y : Q) : Qltb x y = false <-> (y <= x)%Q.
Proof. unfold Qltb. rewrite negb_false_iff. apply Qle_bool_iff. Qed.

Section VerdictFacts.

Context (P : Platform).

(** The checks that an accepted submission went through. *)
Lemma verifyChallenge_valid (o : VerifyOptions.t) (nowMs : Z) (r : VerifyResult.t) :
  verifyChallenge P o nowMs = Return r -> VerifyResult.valid r = true ->
  let hash :=
    sha256 P (ToString P (VerifyOptions.prefix o) ++ ToString P (VerifyOptions.nonce o)) in
  passes_input_checks o nowMs = true
  /\ passes_requireSignature o = true
  /\ (given (VerifyOptions.signature o) = true -> given (VerifyOptions.secret o) = true)
  /\ signature_mismatch P o = Return false
  /\ startsWith hash (ToString P (VerifyOptions.target o)) = true
  /\ r = VerifyResult.accepted hash.
Proof.
  rewrite verifyChallenge_in_order. unfold verify_in_order, passes_input_checks,
    passes_requireSignature.
  cbn [first_failure bind].
  destruct (nonempty_string _); cbn [negb andb]; [|not_valid].
  destruct (string_or_number _); cbn [negb andb]; [|not_valid].
  destruct (zeros_target _); cbn [negb andb]; [|not_valid].
  destruct (finite_positive _); cbn [negb andb]; [|not_valid].
  destruct (past_expiry _ _); cbn [negb andb]; [not_valid|].
  destruct (flag _); cbn [negb andb].
  - destruct (given (VerifyOptions.secret o)); cbn [negb andb orb]; [|not_valid].
    destruct (given (VerifyOptions.signature o)); cbn [negb andb orb]; [|not_valid].
    destruct (signature_mismatch P o) as [[|]|e]; cbn [bind];
      [not_valid | | discriminate].
    destruct (startsWith _ _); cbn [negb]; [|not_valid].
    intros H _. injection H as <-. repeat split.
  - destruct (given (VerifyOptions.signature o)), (given (VerifyOptions.secret o));
      cbn [negb andb orb]; try not_valid;
      (destruct (signature_mismatch P o) as [[|]|e]; cbn [bind];
       [not_valid | | discriminate]);
      (destruct (startsWith _ _); cbn [negb]; [|not_valid]);
      intros H _; injection H as <-; repeat split; discriminate.
Qed.

Lemma past_expiry_earlier (v : JsVal) (now1 now2 : Z) :
  now1 <= now2 -> past_expiry v now2 = false -> past_expiry v now1 = false.
Proof.
  intros L. destruct v as [ | | | [ | | |q] | | | | ]; try easy.
  cbn [past_expiry num_ltb ofZ]. rewrite !Qltb_false. intros H.
  eapply Qle_trans; [|exact H]. rewrite <- Zle_Qle. apply Z.div_le_mono; lia.
Qed.

End VerdictFacts.


(** X6.  [verifyChallenge] never accepts on an unchecked signature: when
    [requireSignature] is set, or a signature is supplied, a result with
    [valid: true] means that a secret and a signature were both given and
    that the signature is the HMAC under that secret, cut to 32
    characters, of the submitted prefix, target and [expiresAt] (printed
    in decimal, when it is an integer up to 2^53) with the hash of the
    metadata (the empty string when there is no metadata), joined by
    colons. *)
Theorem verifyChallenge_checks_signature (P : Platform) (o : VerifyOptions.t)
    (nowMs : Z) (r : VerifyResult.t) :
  verifyChallenge P o nowMs = Return r -> VerifyResult.valid r = true ->
  flag (VerifyOptions.requireSignature o) = true
  \/ given (VerifyOptions.signature o) = true ->
  given (VerifyOptions.secret o) = true
  /\ given (VerifyOptions.signature o) = true
  /\ exists prefix target expiresAt metaHash : string,
       VerifyOptions.prefix o = VStr prefix /\ VerifyOptions.target o = VStr target
       /\ (forall z : Z,
             VerifyOptions.expiresAt o = VNum (ofZ z) -> Z.abs z <= MAX_EXACT ->
             expiresAt = Z_toString z)
       /\ (truthy (VerifyOptions.metadata o) = false -> metaHash = "")
       /\ text (VerifyOptions.signature o)
          = hmacSign P (signingPayload prefix target expiresAt metaHash)
              (text (VerifyOptions.secret o)) 32.
Proof.
  intros H Hv Hsig.
  destruct (verifyChallenge_valid P o nowMs r H Hv) as (Hin & Hreq & Hsk & Hm & _).
  unfold passes_requireSignature in Hreq.
  assert (G : given (VerifyOptions.secret o) = true
              /\ given (VerifyOptions.signature o) = true).
  { destruct Hsig as [Hf | Hg].
    - rewrite Hf in Hreq. cbn [andb] in Hreq.
      apply negb_true_iff, orb_false_iff in Hreq as [A B].
      apply negb_false_iff in A, B. now split.
    - split; [now apply Hsk | exact Hg]. }
  destruct G as [Gk Gs]. split; [exact Gk|]. split; [exact Gs|].
  unfold passes_input_checks in Hin.
  apply andb_true_iff in Hin as [Hin _]. apply andb_true_iff in Hin as [Hin _].
  apply andb_true_iff in Hin as [Hin Ht]. apply andb_true_iff in Hin as [Hp _].
  destruct (nonempty_string_inv _ Hp) as (prefix & Ep & _).
  destruct (zeros_target_inv _ Ht) as (target & Et & _).
  unfold signature_mismatch in Hm. rewrite Ep, Et in Hm. cbn [ToString] in Hm.
  destruct (VerifyOptions.signature o) as [[|c s]|]; try discriminate.
  destruct (VerifyOptions.secret o) as [[|k key]|]; try discriminate.
  destruct (metaHashOf P (VerifyOptions.metadata o)) as [h|e] eqn:Eh; cbn [bind] in Hm;
    [|discriminate].
  exists prefix, target, (ToString P (VerifyOptions.expiresAt o)), h.
  split; [exact Ep|]. split; [exact Et|]. split; [|split].
  - intros z -> Hz. cbn [ToString]. apply Number_toString_ofZ.
    rewrite MAX_EXACT_value in Hz. lia.
  - intros Hno. rewrite (metaHashOf_of_nothing P _ Hno) in Eh. now injection Eh as <-.
  - cbn [text]. destruct (String.eqb _ _) eqn:E in Hm; [|discriminate Hm].
    apply String.eqb_eq in E. exact E.
Qed.

(** X7.  A nonce given as a number is verified as its decimal string: for
    an integer up to 2^53 in magnitude, [verifyChallenge] with the number
    gives what it gives with the string. *)
Theorem verifyChallenge_numeric_nonce (P : Platform) (o : VerifyOptions.t)
    (n nowMs : Z) :
  Z.abs n <= MAX_EXACT ->
  verifyChallenge P (VerifyOptions_with_nonce o (VNum (ofZ n))) nowMs
  = verifyChallenge P (VerifyOptions_with_nonce o (VStr (Z_toString n))) nowMs.
Proof.
  intros Hn. unfold verifyChallenge.
  cbn [VerifyOptions_with_nonce VerifyOptions.prefix VerifyOptions.nonce
       VerifyOptions.target VerifyOptions.expiresAt VerifyOptions.signature
       VerifyOptions.secret VerifyOptions.requireSignature VerifyOptions.metadata
       is_undefined is_null typeof JsType_eqb negb andb orb ToString].
  rewrite (Number_toString_ofZ P n); [reflexivity|].
  rewrite MAX_EXACT_value in Hn. lia.
Qed.

(** X8.  Time only makes a submission expire: at a later time
    [verifyChallenge] gives what it gave before, exception included, or
    the verdict [expired]. *)
Theorem verifyChallenge_later_only_expires (P : Platform) (o : VerifyOptions.t)
    (now1 now2 : Z) :
  now1 <= now2 ->
  verifyChallenge P o now2 = verifyChallenge P o now1
  \/ verifyChallenge P o now2 = Return (VerifyResult.rejected expired).
Proof.
  intros L. rewrite !verifyChallenge_in_order. unfold verify_in_order.
  cbn [first_failure bind].
  destruct (negb (nonempty_string _)); [now left|].
  destruct (negb (string_or_number _)); [now left|].
  destruct (negb (zeros_target _)); [now left|].
  destruct (negb (finite_positive _)); [now left|].
  destruct (past_expiry _ now2) eqn:E2; [now right|].
  rewrite (past_expiry_earlier _ now1 now2 L E2). now left.
Qed.

(** ** Valid tokens *)

Lemma split_two (c : ascii) (s : string) :
  List.length (split c s) = 2%nat ->
  split c s = [nth 0 (split c s) ""; nth 1 (split c s) ""].
Proof. destruct (split c s) as [|a [|b [|]]]; try discriminate. reflexivity. Qed.


Lemma age_earlier (now1 now2 : Z) (ts m : JsNum) :
  now1 <= now2 -> num_isFinite ts = true ->
  num_geb (num_sub (ofZ now2) ts) m = false ->
  num_geb (num_sub (ofZ now1) ts) m = false.
Proof.
  intros L Hf. destruct ts as [ | | |q]; try discriminate.
  unfold num_geb. cbn [num_sub ofZ].
  destruct m as [ | | |y]; cbn [num_leb]; try easy.
  intros H. destruct (Qle_bool y (inject_Z now1 - q)) eqn:E; [|reflexivity].
  apply Qle_bool_iff in E.
  assert (H' : Qle_bool y (inject_Z now2 - q) = true).
  { apply Qle_bool_iff. eapply Qle_trans; [exact E|].
    apply Qplus_le_l. rewrite <- Zle_Qle. exact L. }
  congruence.
Qed.

Section TokenVerdicts.

Context (P : Platform).


End TokenVerdicts.


(** X10.  Time only makes a token expire: at a later time [verifyToken]
    gives what it gave before, or [{valid: false}]. *)
Theorem verifyToken_later_only_expires (P : Platform) (token : JsVal)
    (secret : option string) (maxAgeMs : option JsNum)
    (options : option TokenVerifyOptions.t) (now1 now2 : Z) :
  now1 <= now2 ->
  verifyToken P token secret maxAgeMs options now2
  = verifyToken P token secret maxAgeMs options now1
  \/ verifyToken P token secret maxAgeMs options now2 = Return TokenResult.invalid.
Proof.
  intros L. unfold verifyToken.
  destruct (negb (truthy token) || negb (JsType_eqb (typeof token) TString));
    [now left|].
  destruct (negb (given (nth_error (split "." (ToString P token)) 0))); [now left|].
  destruct (negb (List.length _ =? 2)%nat); [now left|].
  destruct (negb (str_truthy _) || negb (startsWith _ "nha_")); [now left|].
  destruct (num_isFinite (parseInt10 _)) eqn:Hf; cbn [negb orb]; [|now left].
  destruct (num_leb (parseInt10 _) (ofZ 0)); [now left|].
  destruct (num_geb (num_sub (ofZ now2) _) _) eqn:H2; [now right|].
  rewrite (age_earlier now1 now2 _ _ L Hf H2). now left.
Qed.

(** X11.  A token without a signature is worth nothing to a verifier that
    holds a secret: for a token with no dot and a non-empty secret,
    [verifyToken] returns [{valid: false}]. *)
Theorem verifyToken_unsigned_with_secret (P : Platform) (t : string)
    (secret : option string) (maxAgeMs : option JsNum)
    (options : option TokenVerifyOptions.t) (nowMs : Z) :
  contains "." t = false -> given secret = true ->
  verifyToken P (VStr t) secret maxAgeMs options nowMs = Return TokenResult.invalid.
Proof.
  intros Hd Gk. unfold verifyToken. cbn [ToString].
  rewrite (split_without _ _ Hd). cbn [nth_error given text]. rewrite Gk.
  cbn [negb andb].
  repeat match goal with
         | |- try_catch (if ?c then _ else _) _ = _ => destruct c; [reflexivity|]
         end.
  reflexivity.
Qed.

(** X12.  Without a secret [verifyToken] does not look at a signature:
    whatever follows the first dot of a token, the result is that of the
    part before the dot. *)
Theorem verifyToken_without_secret_ignores_signature (P : Platform) (b s : string)
    (secret : option string) (maxAgeMs : option JsNum)
    (options : option TokenVerifyOptions.t) (nowMs : Z) :
  contains "." b = false -> given secret = false ->
  verifyToken P (VStr (b ++ "." ++ s)) secret maxAgeMs options nowMs
  = verifyToken P (VStr b) secret maxAgeMs options nowMs.
Proof.
  intros Hd Gk. unfold verifyToken. cbn [ToString].
  change ("." ++ s) with (String "." s).
  rewrite (split_app _ b s Hd), (split_without _ _ Hd).
  cbn [nth_error given text]. rewrite Gk.
  destruct b as [|c b]; [reflexivity|].
  cbn [append truthy str_truthy typeof JsType_eqb negb orb].
  reflexivity.
Qed.

(** ** Hexadecimal strings *)

Lemma hex_digit_is_hex (n : N) : (n < 16)%N -> is_hex (hex_digit n) = true.
Proof.
  intros H.
  assert (A : forallb (fun k => is_hex (hex_digit (N.of_nat k))) (seq 0 16) = true)
    by reflexivity.
  rewrite forallb_forall in A.
  rewrite <- (N2Nat.id n). apply A. apply in_seq. lia.
Qed.

Lemma all_hex_app (a b : string) : all_hex (a ++ b) = all_hex a && all_hex b.
Proof. induction a as [|c a IH]; simpl; [reflexivity|]. now rewrite IH, andb_assoc. Qed.

Lemma string_length_app (a b : string) :
  String.length (a ++ b) = (String.length a + String.length b)%nat.
Proof. induction a as [|c a IH]; simpl; congruence. Qed.

Lemma hex_of_bytes_shape (l : list N) :
  Forall (fun b => (b < 256)%N) l ->
  hex_of_length (2 * List.length l) (hex_of_bytes l) = true.
Proof.
  unfold hex_of_length.
  induction 1 as [|b l Hb _ IH]; [reflexivity|].
  apply andb_true_iff in IH as [IHl IHh]. apply Nat.eqb_eq in IHl.
  cbn [hex_of_bytes hex_byte append List.length String.length all_hex].
  rewrite IHh, !hex_digit_is_hex.
  - rewrite IHl. rewrite andb_true_r. apply Nat.eqb_eq. lia.
  - apply N.mod_lt. discriminate.
  - apply N.Div0.div_lt_upper_bound. exact Hb.
Qed.

Lemma all_hex_without (c : ascii) (s : string) :
  is_hex c = false -> all_hex s = true -> contains c s = false.
Proof.
  intros Hc. induction s as [|x s IH]; simpl; [reflexivity|].
  intros H. apply andb_true_iff in H as [Hx Hs]. rewrite (IH Hs), orb_false_r.
  destruct (Ascii.eqb_spec x c) as [->|]; [congruence|reflexivity].
Qed.

Lemma substring_0_shape (n : nat) (s : string) :
  all_hex s = true -> (n <= String.length s)%nat ->
  hex_of_length n (String.substring 0 n s) = true.
Proof.
  unfold hex_of_length. revert s.
  induction n as [|n IH]; intros s Hh Hl.
  - destruct s; reflexivity.
  - destruct s as [|c s]; [simpl in Hl; lia|].
    simpl in Hh, Hl. apply andb_true_iff in Hh as [Hc Hs].
    specialize (IH s Hs ltac:(lia)). apply andb_true_iff in IH as [IHl IHh].
    cbn [String.substring String.length all_hex]. rewrite Hc, IHh.
    apply Nat.eqb_eq in IHl. rewrite IHl. now rewrite Nat.eqb_refl.
Qed.

Lemma randomBytes_shape (rnd : nat -> ascii) (from n : nat) :
  Forall (fun b => (b < 256)%N) (randomBytes rnd from n)
  /\ List.length (randomBytes rnd from n) = n.
Proof.
  unfold randomBytes. split.
  - apply Forall_map. apply Forall_forall. intros i _. apply N_ascii_bounded.
  - now rewrite length_map, length_seq.
Qed.

(** ** The digests of Node *)

Module SHA256Facts.
Import SHA256.
Local Open Scope list_scope.
Local Open Scope N_scope.

Lemma be_bytes_shape (count : nat) (x : N) :
  Forall (fun b => b < 256) (be_bytes count x) /\ List.length (be_bytes count x) = count.
Proof.
  induction count as [|c [IHf IHl]]; simpl; [now split|].
  split; [constructor; [apply N.mod_lt; discriminate | exact IHf] | now rewrite IHl].
Qed.

Lemma round_length (st : list N * list N) (k : N) : List.length (fst (round st k)) = 8%nat.
Proof. destruct st as [v w]. reflexivity. Qed.

Lemma rounds_length (ks : list N) :
  ks <> [] -> forall st, List.length (fst (fold_left round ks st)) = 8%nat.
Proof.
  induction ks as [|k ks IH]; [congruence|]. intros _ st. cbn [fold_left].
  destruct ks as [|k' ks]; [apply round_length|].
  apply IH. discriminate.
Qed.

Lemma K_not_nil : K <> [].
Proof. discriminate. Qed.

Lemma compress_length (h block : list N) :
  List.length h = 8%nat -> List.length (compress h block) = 8%nat.
Proof.
  intros Hh. unfold compress.
  pose proof (rounds_length K K_not_nil (h, block)) as Hv.
  remember (fold_left round K (h, block)) as st eqn:Est. clear Est.
  destruct st as [v w]. cbn [fst] in Hv.
  rewrite length_map, length_combine, Hh, Hv. reflexivity.
Qed.

Lemma fold_left_step (A B : Type) (f : A -> B -> A) (b : B) (l : list B) (a : A) :
  fold_left f (b :: l) a = fold_left f l (f a b).
Proof. reflexivity. Qed.

Lemma compress_all_length (bl : list (list N)) (h : list N) :
  List.length h = 8%nat -> List.length (fold_left compress bl h) = 8%nat.
Proof.
  revert h. induction bl as [|b bl IH]; intros h Hh.
  - exact Hh.
  - rewrite fold_left_step. apply IH. apply compress_length. exact Hh.
Qed.

Lemma concat_be_bytes (ws : list N) :
  Forall (fun b => b < 256) (List.concat (map (be_bytes 4) ws))
  /\ List.length (List.concat (map (be_bytes 4) ws)) = (4 * List.length ws)%nat.
Proof.
  induction ws as [|w ws [IHf IHl]]; [now split|].
  cbn [map List.concat]. destruct (be_bytes_shape 4 w) as [Hf Hl]. split.
  - apply Forall_app. now split.
  - rewrite List.length_app, Hl, IHl. cbn [List.length]. lia.
Qed.

Lemma digest_shape (msg : list N) :
  Forall (fun b => b < 256) (digest msg) /\ List.length (digest msg) = 32%nat.
Proof.
  unfold digest.
  match goal with |- context [fold_left compress ?bl H0] =>
    pose proof (compress_all_length bl H0 eq_refl) as H8;
    destruct (concat_be_bytes (fold_left compress bl H0)) as [Hf Hl]
  end.
  split; [exact Hf|]. rewrite Hl, H8. reflexivity.
Qed.

Lemma sha256_hex_shape (s : string) : hex_of_length 64 (sha256_hex s) = true.
Proof.
  unfold sha256_hex. destruct (digest_shape (bytes_of_string s)) as [Hf Hl].
  pose proof (hex_of_bytes_shape _ Hf) as H. rewrite Hl in H. exact H.
Qed.

Lemma hmac_sha256_hex_shape (key s : string) :
  hex_of_length 64 (hmac_sha256_hex key s) = true.
Proof.
  unfold hmac_sha256_hex, hmac.
  match goal with |- context [digest ?m] =>
    destruct (digest_shape m) as [Hf Hl] end.
  pose proof (hex_of_bytes_shape _ Hf) as H. rewrite Hl in H. exact H.
Qed.

End SHA256Facts.

(** A signature of Node: the first 32 characters of an HMAC. *)
Lemma node_signature_shape (payload secret : string) :
  hex_of_length 32 (hmacSign node payload secret 32) = true.
Proof.
  unfold hmacSign, slice0. cbn [hmacSha256 node].
  pose proof (SHA256Facts.hmac_sha256_hex_shape secret payload) as H.
  apply andb_true_iff in H as [Hl Hh]. apply Nat.eqb_eq in Hl.
  apply substring_0_shape; [exact Hh | lia].
Qed.

Lemma hex_of_length_truthy (n : nat) (s : string) :
  hex_of_length (S n) s = true -> str_truthy s = true.
Proof. destruct s; [discriminate|reflexivity]. Qed.

(** ** Created challenges and what they sign *)

(** X13.  The shape of what [createChallenge] makes: the identifier is
    [nha_] and 24 hexadecimal digits, so that [generateToken] accepts it
    and it holds no colon; the prefix is 16 hexadecimal digits; the target
    is one to six zeros; and [expiresAt] is not before the second of the
    creation. *)
Theorem createChallenge_shape (P : Platform) (options : option ChallengeOptions.t)
    (nowMs : Z) (rnd : nat -> ascii) (c : Challenge.t) :
  createChallenge P options nowMs rnd = Return c ->
  (exists h : string, Challenge.id c = "nha_" ++ h /\ hex_of_length 24 h = true)
  /\ acceptable_id (VStr (Challenge.id c)) = true
  /\ contains ":" (Challenge.id c) = false
  /\ hex_of_length 16 (Challenge.prefix c) = true
  /\ matches_zeros_1_6 (Challenge.target c) = true
  /\ exists q : Q, Challenge.expiresAt c = Fin q /\ (inject_Z (nowMs / 1000) <= q)%Q.
Proof.
  intros Hc.
  destruct (createChallenge_fields P _ _ _ _ Hc) as (Ei & Ep & Et & Ee & _).
  rewrite Ei, Ep, Et, Ee.
  cbn [unsigned_challenge Challenge.id Challenge.prefix Challenge.target
       Challenge.expiresAt].
  destruct (randomBytes_shape rnd 0 12) as [Hf12 Hl12].
  destruct (randomBytes_shape rnd 12 8) as [Hf8 Hl8].
  pose proof (hex_of_bytes_shape _ Hf12) as H24. rewrite Hl12 in H24.
  pose proof (hex_of_bytes_shape _ Hf8) as H16. rewrite Hl8 in H16.
  split; [eexists; split; [reflexivity | exact H24]|].
  split; [reflexivity|].
  split.
  { change (contains ":" (hex_of_bytes (randomBytes rnd 0 12)) = false).
    apply all_hex_without; [reflexivity|].
    unfold hex_of_length in H24. now apply andb_true_iff in H24. }
  split; [exact H16|].
  split.
  { apply zeros_match.
    pose proof (clamp_range (Qfloor (requested_difficulty (the_options options)))). lia. }
  eexists. split; [reflexivity|].
  rewrite <- (Qplus_0_r (inject_Z (nowMs / 1000))) at 1.
  apply Qplus_le_r. apply Qlt_le_weak. apply requested_expiresIn_positive.
Qed.

(** X14.  On Node a challenge is signed exactly when a non-empty secret
    is given, and its signature is 32 hexadecimal digits: 128 bits of
    the HMAC. *)
Theorem createChallenge_signature_on_node (options : option ChallengeOptions.t)
    (nowMs : Z) (rnd : nat -> ascii) (c : Challenge.t) :
  createChallenge node options nowMs rnd = Return c ->
  if given (ChallengeOptions.secret (the_options options))
  then exists s : string, Challenge.signature c = Some s /\ hex_of_length 32 s = true
  else Challenge.signature c = None.
Proof.
  rewrite createChallenge_unfold. cbv zeta.
  destruct (given (ChallengeOptions.secret (the_options options))).
  - destruct (metaHashOf node _) as [h|e]; cbn [bind]; [|discriminate].
    intros H. injection H as <-. cbn [with_signature Challenge.signature].
    eexists. split; [reflexivity|]. apply node_signature_shape.
  - intros H. injection H as <-. reflexivity.
Qed.

(** The signature of a created challenge, in terms of its own fields. *)
Lemma createChallenge_signature (P : Platform) (options : option ChallengeOptions.t)
    (nowMs : Z) (rnd : nat -> ascii) (c : Challenge.t) :
  createChallenge P options nowMs rnd = Return c ->
  if given (ChallengeOptions.secret (the_options options))
  then exists metaHash : string,
         metaHashOf P (ChallengeOptions.metadata (the_options options)) = Return metaHash
         /\ Challenge.signature c
            = Some (hmacSign P
                      (signingPayload (Challenge.prefix c) (Challenge.target c)
                         (Number_toString P (Challenge.expiresAt c)) metaHash)
                      (text (ChallengeOptions.secret (the_options options))) 32)
  else Challenge.signature c = None.
Proof.
  rewrite createChallenge_unfold. cbv zeta.
  destruct (given (ChallengeOptions.secret (the_options options))).
  - destruct (metaHashOf P _) as [h|e]; cbn [bind]; [|discriminate].
    intros H. injection H as <-. exists h. split; reflexivity.
  - intros H. injection H as <-. reflexivity.
Qed.

(** X15.  A challenge made by [createChallenge] is judged by its hash
    alone when it comes back with its own signature and the secret and
    metadata it was made with: before it expires, [verifyChallenge]
    accepts with the hash when SHA256(prefix + nonce) starts with the
    target, and answers [invalid_hash] with the hash otherwise; with
    [requireSignature] set this asks for a secret and a signature that
    are not empty. *)
Theorem created_challenge_is_judged_by_its_hash (P : Platform)
    (options : ChallengeOptions.t) (createdAt : Z) (rnd : nat -> ascii)
    (c : Challenge.t) (nonce : string) (requireSignature : option bool) (nowMs : Z) :
  createChallenge P (Some options) createdAt rnd = Return c ->
  after_epoch createdAt ->
  num_gtb (ofZ (nowMs / 1000)) (Challenge.expiresAt c) = false ->
  (flag requireSignature = true ->
   given (ChallengeOptions.secret options) = true
   /\ given (Challenge.signature c) = true) ->
  let hash := sha256 P (Challenge.prefix c ++ nonce) in
  verifyChallenge P (signed_submission c nonce options requireSignature) nowMs
  = Return (if startsWith hash (Challenge.target c)
            then VerifyResult.accepted hash else VerifyResult.wrong_hash hash).
Proof.
  intros Hc Hclock Hlive Hreq. cbv zeta.
  destruct (createChallenge_fields P _ _ _ _ Hc) as (_ & Ep & Et & Ee & _).
  destruct (unsigned_challenge_well_formed (the_options (Some options)) createdAt rnd Hclock)
    as (W1 & W2 & W3).
  rewrite <- Ep in W1. rewrite <- Et in W2. rewrite <- Ee in W3.
  assert (Hmis : signature_mismatch P (signed_submission c nonce options requireSignature)
                 = Return false
                 /\ (given (Challenge.signature c) = true ->
                     given (ChallengeOptions.secret options) = true)).
  { pose proof (createChallenge_signature P (Some options) createdAt rnd c Hc) as Hsg.
    cbn [the_options] in Hsg.
    unfold signature_mismatch.
    cbn [signed_submission VerifyOptions.signature VerifyOptions.secret
         VerifyOptions.prefix VerifyOptions.target VerifyOptions.expiresAt
         VerifyOptions.metadata ToString].
    destruct (given (ChallengeOptions.secret options)) eqn:Gk.
    - destruct Hsg as (h & Eh & Es). rewrite Es, Eh. split; [|reflexivity].
      destruct (given_text _ Gk) as (k & key & Ek & Tk). rewrite Ek in *.
      cbn [text bind]. destruct (hmacSign P _ _ 32) as [|x sig]; [reflexivity|].
      rewrite String.eqb_refl. reflexivity.
    - rewrite Hsg. split; [reflexivity|discriminate]. }
  destruct Hmis as [Hmis Hsk].
  rewrite verifyChallenge_in_order. unfold verify_in_order. rewrite Hmis.
  cbn [signed_submission VerifyOptions.prefix VerifyOptions.nonce VerifyOptions.target
       VerifyOptions.expiresAt VerifyOptions.signature VerifyOptions.secret
       VerifyOptions.requireSignature VerifyOptions.metadata ToString].
  rewrite W1, W2, W3. cbn [negb first_failure bind past_expiry].
  unfold num_gtb in Hlive. rewrite Hlive.
  destruct (flag requireSignature).
  - destruct (Hreq eq_refl) as [-> ->]. cbn [negb andb].
    destruct (startsWith _ _); reflexivity.
  - cbn [andb].
    destruct (given (Challenge.signature c)) eqn:Gs; cbn [negb andb].
    + rewrite (Hsk eq_refl). cbn [negb]. destruct (startsWith _ _); reflexivity.
    + destruct (startsWith _ _); reflexivity.
Qed.

(** ** Signed tokens *)

Section SignedTokens.

Context (P : Platform).

(** The verdict on a token that [generateToken] signed, when the signature
    is a non-empty string without a dot. *)
Lemma verifyToken_signed (i : string) (t : Z) (secret : option string)
    (maxAgeMs : option JsNum) (options : option TokenVerifyOptions.t) (nowMs : Z) :
  let sig := hmacSign P (token_payload P i t) (text secret) 32 in
  startsWith i "nha_" = true -> contains ":" i = false -> after_epoch t ->
  given secret = true -> str_truthy sig = true -> contains "." sig = false ->
  num_ltb (ofZ (nowMs - t)) (max_age maxAgeMs) = true ->
  verifyToken P (VStr (Base64.encode (token_payload P i t) ++ "." ++ sig))
    secret maxAgeMs options nowMs
  = Return (TokenResult.ok i).
Proof.
  cbv zeta. intros Hs Hc Ht Gk Hsig Hdot Hage.
  unfold verifyToken.
  assert (Hi : str_truthy i = true) by apply (startsWith_truthy i "nha_" eq_refl Hs).
  assert (Hp : str_truthy (token_payload P i t) = true)
    by (unfold token_payload; now apply str_truthy_app).
  pose proof (Base64Facts.encode_truthy _ Hp) as Hb.
  cbn [truthy typeof JsType_eqb ToString].
  rewrite (str_truthy_app _ _ Hb). cbn [negb orb].
  change ("." ++ hmacSign P (token_payload P i t) (text secret) 32)
    with (String "." (hmacSign P (token_payload P i t) (text secret) 32)).
  rewrite (split_app "." _ _ (Base64Facts.encode_no_dot _)), (split_without _ _ Hdot).
  cbn [nth_error given text]. rewrite Hb. cbn [negb].
  rewrite Base64Facts.decode_encode.
  assert (Eparts : split ":" (token_payload P i t) = [i; Z_toString t]).
  { unfold token_payload.
    rewrite (Number_toString_ofZ P t (after_epoch_small t Ht)).
    change (":" ++ Z_toString t) with (String ":" (Z_toString t)).
    rewrite (split_app ":" i _ Hc).
    rewrite split_without
      by (apply Z_toString_digits_only; [unfold after_epoch in Ht; lia | reflexivity]).
    reflexivity. }
  rewrite Eparts. cbn [List.length Nat.eqb negb nth].
  rewrite Hi, Hs. cbn [negb orb].
  rewrite parseInt10_Z_toString by (unfold after_epoch in Ht; lia).
  rewrite (number_of_integer_exact t Ht).
  cbn [num_isFinite ofZ negb orb]. fold (ofZ t). fold (ofZ 0).
  rewrite num_leb_ofZ.
  destruct (Z.leb_spec t 0); [unfold after_epoch in Ht; lia|].
  rewrite token_age. fold (max_age maxAgeMs).
  rewrite (num_ltb_not_leb _ _ Hage). rewrite Gk, Hsig.
  cbn [negb andb]. rewrite andb_false_r.
  rewrite safeCompare_eqb, String.eqb_refl. reflexivity.
Qed.

End SignedTokens.

(** X16.  The round trip of a signed token on Node: for an identifier that
    starts with [nha_] and holds no colon and for a non-empty secret, the
    token that [generateToken] issues is accepted by [verifyToken] with
    the same secret, within the maximum age and whatever the options, with
    the identifier it was issued for. *)
Theorem signed_token_round_trip (i : string) (secret : option string)
    (issuedAt nowMs : Z) (maxAgeMs : option JsNum)
    (options : option TokenVerifyOptions.t) :
  startsWith i "nha_" = true -> contains ":" i = false ->
  given secret = true -> after_epoch issuedAt ->
  num_ltb (ofZ (nowMs - issuedAt)) (max_age maxAgeMs) = true ->
  exists token : string,
    generateToken node (VStr i) secret issuedAt = Return token
    /\ verifyToken node (VStr token) secret maxAgeMs options nowMs
       = Return (TokenResult.ok i).
Proof.
  intros Hs Hc Gk Ht Hage. eexists. split.
  - rewrite (generateToken_accepts node i secret issuedAt Hs). rewrite Gk. reflexivity.
  - pose proof (node_signature_shape (token_payload node i issuedAt) (text secret)) as Hx.
    apply verifyToken_signed; try assumption.
    + exact (hex_of_length_truthy _ _ Hx).
    + apply all_hex_without; [reflexivity|].
      unfold hex_of_length in Hx. now apply andb_true_iff in Hx.
Qed.

(** ** The arguments of the command line *)

Lemma substring_all (s : string) : String.substring 0 (String.length s) s = s.
Proof. induction s as [|c s IH]; [reflexivity|]. simpl. now rewrite IH. Qed.

Lemma substring_skip (a b : string) (n : nat) :
  String.substring (String.length a) n (a ++ b) = String.substring 0 n b.
Proof. induction a as [|c a IH]; [reflexivity|]. simpl. exact IH. Qed.

Lemma substring_head (a b : string) :
  String.substring 0 (String.length a) (a ++ b) = a.
Proof.
  induction a as [|c a IH]; simpl.
  - destruct b; reflexivity.
  - now rewrite IH.
Qed.

Lemma append_assoc (a b c : string) : (a ++ b) ++ c = a ++ b ++ c.
Proof. induction a as [|x a IH]; [reflexivity|]. cbn. now rewrite IH. Qed.

Lemma slice_from_app (a b : string) :
  slice_from (Z.of_nat (String.length a)) (a ++ b) = b.
Proof.
  unfold slice_from, slice. rewrite string_length_app.
  assert (E1 : (Z.of_nat (String.length a) <? 0) = false) by (apply Z.ltb_ge; lia).
  assert (E2 : (Z.of_nat (String.length a + String.length b) <? 0) = false)
    by (apply Z.ltb_ge; lia).
  rewrite E1, E2.
  rewrite Z.min_l by lia. rewrite Z.min_l by lia.
  rewrite Nat2Z.id.
  replace (Z.to_nat (Z.of_nat (String.length a + String.length b)
                     - Z.of_nat (String.length a)))
    with (String.length b) by lia.
  rewrite substring_skip. apply substring_all.
Qed.

Lemma slice_middle (a b c : string) :
  slice (Z.of_nat (String.length a)) (Z.of_nat (String.length a + String.length b))
    (a ++ b ++ c) = b.
Proof.
  unfold slice. rewrite !string_length_app.
  assert (E1 : (Z.of_nat (String.length a) <? 0) = false) by (apply Z.ltb_ge; lia).
  assert (E2 : (Z.of_nat (String.length a + String.length b) <? 0) = false)
    by (apply Z.ltb_ge; lia).
  rewrite E1, E2.
  rewrite Z.min_l by lia. rewrite Z.min_l by lia.
  rewrite Nat2Z.id.
  replace (Z.to_nat (Z.of_nat (String.length a + String.length b)
                     - Z.of_nat (String.length a)))
    with (String.length b) by lia.
  rewrite substring_skip. apply substring_head.
Qed.

Lemma indexOf_app (c : ascii) (a rest : string) :
  contains c a = false ->
  indexOf c (a ++ String c rest) = Z.of_nat (String.length a).
Proof.
  induction a as [|x a IH]; simpl.
  - intros _. now rewrite Ascii.eqb_refl.
  - intros H. apply orb_false_iff in H as [Hx Ha]. rewrite Hx, (IH Ha).
    destruct (Z.ltb_spec (Z.of_nat (String.length a)) 0); lia.
Qed.

Lemma contains_app (c : ascii) (a b : string) :
  contains c (a ++ b) = contains c a || contains c b.
Proof. induction a as [|x a IH]; simpl; [reflexivity|]. now rewrite IH, orb_assoc. Qed.

Lemma prefix_cons (a b : ascii) (p s : string) :
  String.prefix (String a p) (String b s)
  = if Ascii.eqb a b then String.prefix p s else false.
Proof.
  cbn [String.prefix].
  destruct (ascii_dec a b) as [E|N], (Ascii.eqb_spec a b); congruence.
Qed.

Lemma dash_digit_cons (a : ascii) (rest : string) :
  dash_digit (String a rest)
  = if Ascii.eqb "-" a then starts_with_digit rest else false.
Proof. destruct a as [[] [] [] [] [] [] [] []]; reflexivity. Qed.

(** What can be a value: what does not start with a dash, or starts with
    a dash and a digit. *)
Lemma is_value_iff (next : string) :
  is_value (Some next) = negb (startsWith next "-") || dash_digit next.
Proof.
  unfold is_value, startsWith.
  destruct next as [|a [|b next]]; [reflexivity | |];
    rewrite !prefix_cons, dash_digit_cons; cbn [String.prefix].
  - destruct (Ascii.eqb "-" a); reflexivity.
  - destruct (Ascii.eqb "-" a); [|reflexivity].
    destruct (Ascii.eqb_spec "-"%char b) as [<-|]; [destruct next; reflexivity|].
    cbn [negb andb orb]. now rewrite negb_involutive.
Qed.

Lemma startsWith_long (s : string) : startsWith ("--" ++ s) "--" = true.
Proof.
  unfold startsWith. cbn [append]. rewrite !prefix_cons, !Ascii.eqb_refl.
  destruct s; reflexivity.
Qed.

Lemma long_flag_is_no_value (s : string) : is_value (Some ("--" ++ s)) = false.
Proof.
  unfold is_value, startsWith. cbn [append]. rewrite !prefix_cons.
  rewrite !Ascii.eqb_refl. destruct s; reflexivity.
Qed.

(** An argument that cannot be a value is read as a flag wherever it
    stands: the loop reaches it with what the arguments before it gave. *)
Lemma parseArgs_loop_cut (a : string) (post : list string) :
  is_value (Some a) = false ->
  forall (pre : list string) (parsed : Parsed.t),
    parseArgs_loop (pre ++ a :: post)%list parsed
    = parseArgs_loop (a :: post) (parseArgs_loop pre parsed).
Proof.
  intros Ha pre.
  remember (parseArgs_loop (a :: post)) as K eqn:HK.
  assert (G : forall n pre, (List.length pre <= n)%nat -> forall parsed,
                parseArgs_loop (pre ++ a :: post)%list parsed
                = K (parseArgs_loop pre parsed)).
  { clear pre. induction n as [|n IH]; intros pre Hn parsed.
    - destruct pre; [now rewrite HK | simpl in Hn; lia].
    - destruct pre as [|arg rest]; [now rewrite HK|].
      simpl in Hn.
      assert (IHrest : forall p, parseArgs_loop (rest ++ a :: post)%list p
                                 = K (parseArgs_loop rest p))
        by (intros p; apply IH; lia).
      change ((arg :: rest) ++ a :: post)%list with (arg :: (rest ++ a :: post))%list.
      cbn [parseArgs_loop].
      destruct (startsWith arg "--").
      + destruct (contains "=" arg); [apply IHrest|].
        destruct rest as [|next after].
        * cbn [app parseArgs_loop]. rewrite Ha. now rewrite HK.
        * change ((next :: after) ++ a :: post)%list
            with (next :: (after ++ a :: post))%list.
          cbv beta iota.
          destruct (is_value (Some next)).
          -- apply IH. simpl in Hn. lia.
          -- apply IHrest.
      + destruct (startsWith arg "-" && (js_length arg =? 2)%nat); [|apply IHrest].
        destruct rest as [|next after].
        * cbn [app parseArgs_loop]. rewrite Ha. now rewrite HK.
        * change ((next :: after) ++ a :: post)%list
            with (next :: (after ++ a :: post))%list.
          cbv beta iota.
          destruct (is_value (Some next)).
          -- apply IH. simpl in Hn. lia.
          -- apply IHrest. }
  intros parsed. apply (G (List.length pre)). lia.
Qed.

Lemma get_set (key : string) (value : JsVal) (parsed : Parsed.t) :
  String.eqb key "__proto__" = false ->
  Parsed.get key (Parsed.set key value parsed) = Some value.
Proof.
  intros H. unfold Parsed.set. rewrite H. cbn [Parsed.get].
  now rewrite String.eqb_refl.
Qed.

(** X17.  [--key=value] at the end of the arguments gives the string
    [value] to [key], whatever stands before it and whatever the value
    is: empty, starting with a dash, or holding an equals sign. *)
Theorem parseArgs_key_equals_value (pre : list string) (key value : string) :
  contains "=" key = false -> String.eqb key "__proto__" = false ->
  Parsed.get key (parseArgs (List.app pre ["--" ++ key ++ "=" ++ value]))
  = Some (VStr value).
Proof.
  intros Hk Hp. unfold parseArgs.
  rewrite (parseArgs_loop_cut _ [] (long_flag_is_no_value _)).
  set (parsed := parseArgs_loop pre []).
  assert (Hi : indexOf "=" ("--" ++ key ++ "=" ++ value)
               = Z.of_nat (String.length ("--" ++ key))).
  { change ("--" ++ key ++ "=" ++ value) with (("--" ++ key) ++ String "=" value).
    apply indexOf_app. cbn. exact Hk. }
  assert (Hc : contains "=" ("--" ++ key ++ "=" ++ value) = true).
  { change ("--" ++ key ++ "=" ++ value) with (("--" ++ key) ++ String "=" value).
    rewrite contains_app. change (contains "=" (String "=" value)) with true.
    apply orb_true_r. }
  cbn [parseArgs_loop].
  rewrite startsWith_long, Hc, Hi.
  assert (Ekey : slice 2 (Z.of_nat (String.length ("--" ++ key)))
                   ("--" ++ key ++ "=" ++ value) = key).
  { change (String.length ("--" ++ key)) with (String.length "--" + String.length key)%nat.
    change 2 with (Z.of_nat (String.length "--")).
    apply (slice_middle "--" key ("=" ++ value)). }
  assert (Eval : slice_from (Z.of_nat (String.length ("--" ++ key)) + 1)
                   ("--" ++ key ++ "=" ++ value) = value).
  { assert (L : String.length (("--" ++ key) ++ "=") = S (String.length ("--" ++ key)))
      by (rewrite string_length_app; cbn [String.length]; lia).
    replace (Z.of_nat (String.length ("--" ++ key)) + 1)
      with (Z.of_nat (String.length (("--" ++ key) ++ "="))) by (rewrite L; lia).
    replace ("--" ++ key ++ "=" ++ value) with ((("--" ++ key) ++ "=") ++ value)
      by (now rewrite !append_assoc).
    apply slice_from_app. }
  rewrite Ekey, Eval. apply get_set. exact Hp.
Qed.

Lemma slice_from_long (key : string) : slice_from 2 ("--" ++ key) = key.
Proof. exact (slice_from_app "--" key). Qed.

Lemma contains_long (key : string) :
  contains "=" ("--" ++ key) = contains "=" key.
Proof. reflexivity. Qed.

(** X18.  A flag [--key] at the end of the arguments is [true]; followed
    by one more argument that does not start with a dash, or that starts
    with a dash and a digit (a negative number), it has that argument as
    its value; whatever stands before the flag. *)
Theorem parseArgs_flag_and_value (pre : list string) (key : string) :
  contains "=" key = false -> String.eqb key "__proto__" = false ->
  Parsed.get key (parseArgs (List.app pre ["--" ++ key])) = Some (VBool true)
  /\ forall next : string,
       startsWith next "-" = false \/ dash_digit next = true ->
       Parsed.get key (parseArgs (List.app pre ["--" ++ key; next])) = Some (VStr next).
Proof.
  intros Hk Hp. unfold parseArgs. split; [|intros next Hn];
    rewrite (parseArgs_loop_cut _ _ (long_flag_is_no_value _));
    cbn [parseArgs_loop]; rewrite startsWith_long, contains_long, Hk, slice_from_long.
  - apply get_set. exact Hp.
  - assert (Hv : is_value (Some next) = true).
    { rewrite is_value_iff. destruct Hn as [-> | ->]; [reflexivity | apply orb_true_r]. }
    rewrite Hv. apply get_set. exact Hp.
Qed.

Lemma js_length_proto (key : string) :
  js_length key = 1%nat -> String.eqb key "__proto__" = false.
Proof.
  intros H. destruct (String.eqb_spec key "__proto__") as [->|]; [discriminate H|reflexivity].
Qed.

(** X19.  A short flag: a dash and one character that is no dash and no
    digit is read as the flag of that character, [true] at the end of
    the arguments and with the next argument as its value when that can
    be one. *)
Theorem parseArgs_short_flag (pre : list string) (key : string) :
  js_length key = 1%nat -> startsWith key "-" = false -> starts_with_digit key = false ->
  Parsed.get key (parseArgs (List.app pre ["-" ++ key])) = Some (VBool true)
  /\ forall next : string,
       startsWith next "-" = false \/ dash_digit next = true ->
       Parsed.get key (parseArgs (List.app pre ["-" ++ key; next])) = Some (VStr next).
Proof.
  intros Hl Hd Hg. unfold parseArgs.
  assert (Hv : is_value (Some ("-" ++ key)) = false).
  { rewrite is_value_iff. cbn [append]. rewrite dash_digit_cons.
    unfold startsWith. rewrite prefix_cons. rewrite Ascii.eqb_refl, Hg.
    destruct key; reflexivity. }
  assert (H1 : startsWith ("-" ++ key) "--" = false).
  { revert Hd. unfold startsWith. cbn [append]. rewrite prefix_cons, Ascii.eqb_refl.
    destruct key as [|c key]; [reflexivity|].
    rewrite !prefix_cons. destruct (Ascii.eqb "-" c); [|reflexivity].
    destruct key; discriminate. }
  assert (H2 : startsWith ("-" ++ key) "-" && (js_length ("-" ++ key) =? 2)%nat = true).
  { unfold startsWith. cbn [append js_length]. rewrite prefix_cons, Hl.
    destruct key; reflexivity. }
  assert (H3 : slice_from 1 ("-" ++ key) = key) by exact (slice_from_app "-" key).
  split; [|intros next Hn];
    rewrite (parseArgs_loop_cut _ _ Hv); cbn [parseArgs_loop]; rewrite H1, H2, H3.
  - apply get_set. now apply js_length_proto.
  - assert (Hn' : is_value (Some next) = true).
    { rewrite is_value_iff. destruct Hn as [-> | ->]; [reflexivity | apply orb_true_r]. }
    rewrite Hn'. apply get_set. now apply js_length_proto.
Qed.

(** The parts of [--key=value]. *)
Lemma prefix_app (p s : string) : String.prefix p s = true -> exists r, s = p ++ r.
Proof.
  revert s. induction p as [|a p IH]; intros s H.
  - exists s. reflexivity.
  - destruct s as [|b s]; [discriminate|].
    rewrite prefix_cons in H. destruct (Ascii.eqb_spec a b) as [->|]; [|discriminate].
    destruct (IH s H) as [r ->]. exists r. reflexivity.
Qed.

Lemma contains_first (c : ascii) (s : string) :
  contains c s = true ->
  exists a b, s = a ++ String c b /\ contains c a = false.
Proof.
  induction s as [|x s IH]; [discriminate|]. cbn [contains].
  destruct (Ascii.eqb_spec x c) as [->|N].
  - intros _. exists "", s. split; reflexivity.
  - cbn [orb]. intros H. destruct (IH H) as (a & b & -> & Ha).
    exists (String x a), b. split; [reflexivity|].
    cbn [contains]. rewrite Ha. destruct (Ascii.eqb_spec x c); [contradiction|reflexivity].
Qed.

Lemma long_flag_parts (key value : string) :
  contains "=" key = false ->
  let arg := "--" ++ key ++ "=" ++ value in
  slice 2 (indexOf "=" arg) arg = key
  /\ slice_from (indexOf "=" arg + 1) arg = value.
Proof.
  intros Hk arg. subst arg.
  assert (Hi : indexOf "=" ("--" ++ key ++ "=" ++ value)
               = Z.of_nat (String.length ("--" ++ key))).
  { change ("--" ++ key ++ "=" ++ value) with (("--" ++ key) ++ String "=" value).
    apply indexOf_app. exact Hk. }
  rewrite Hi. split.
  - change (String.length ("--" ++ key)) with (String.length "--" + String.length key)%nat.
    change 2 with (Z.of_nat (String.length "--")).
    apply (slice_middle "--" key ("=" ++ value)).
  - assert (L : String.length (("--" ++ key) ++ "=") = S (String.length ("--" ++ key)))
      by (rewrite string_length_app; cbn [String.length]; lia).
    replace (Z.of_nat (String.length ("--" ++ key)) + 1)
      with (Z.of_nat (String.length (("--" ++ key) ++ "="))) by (rewrite L; lia).
    replace ("--" ++ key ++ "=" ++ value) with ((("--" ++ key) ++ "=") ++ value)
      by (now rewrite !append_assoc).
    apply slice_from_app.
Qed.

Lemma long_flag_inv (arg : string) :
  startsWith arg "--" = true -> contains "=" arg = true ->
  arg = "--" ++ slice 2 (indexOf "=" arg) arg ++ "="
        ++ slice_from (indexOf "=" arg + 1) arg.
Proof.
  intros Hs Hc. destruct (prefix_app _ _ Hs) as [r ->].
  rewrite contains_long in Hc.
  destruct (contains_first _ _ Hc) as (k & v & -> & Hk).
  destruct (long_flag_parts k v Hk) as [E1 E2].
  change (String "=" v) with ("=" ++ v). rewrite E1, E2. reflexivity.
Qed.

Lemma from_arguments_set (all : list string) (k : string) (v : JsVal)
    (parsed : Parsed.t) :
  from_arguments all parsed ->
  (v = VBool true
   \/ exists s : string,
        v = VStr s
        /\ ((In s all /\ (startsWith s "-" = false \/ dash_digit s = true))
            \/ In ("--" ++ k ++ "=" ++ s) all)) ->
  from_arguments all (Parsed.set k v parsed).
Proof.
  intros Hp Hv key w. unfold Parsed.set.
  destruct (String.eqb k "__proto__"); [apply Hp|].
  cbn [Parsed.get]. destruct (String.eqb_spec k key) as [->|N]; [|apply Hp].
  intros H. injection H as <-. exact Hv.
Qed.

Lemma is_value_cases (s : string) :
  is_value (Some s) = true -> startsWith s "-" = false \/ dash_digit s = true.
Proof.
  rewrite is_value_iff. intros H. apply orb_true_iff in H as [H|H]; [left|now right].
  now apply negb_true_iff in H.
Qed.

Lemma parseArgs_loop_from_arguments (all : list string) :
  forall (n : nat) (args : list string), (List.length args <= n)%nat ->
  forall parsed : Parsed.t,
    incl args all -> from_arguments all parsed ->
    from_arguments all (parseArgs_loop args parsed).
Proof.
  induction n as [|n IH]; intros args Hn parsed Hi Hp.
  - destruct args; [exact Hp | simpl in Hn; lia].
  - destruct args as [|arg rest]; [exact Hp|]. simpl in Hn.
    assert (Harg : In arg all) by (apply Hi; now left).
    assert (Hrest : incl rest all) by (intros x Hx; apply Hi; now right).
    cbn [parseArgs_loop].
    destruct (startsWith arg "--") eqn:Hs.
    + destruct (contains "=" arg) eqn:Hc.
      * apply IH; [lia | exact Hrest |].
        apply from_arguments_set; [exact Hp|]. right. eexists. split; [reflexivity|].
        right. rewrite <- (long_flag_inv arg Hs Hc). exact Harg.
      * destruct rest as [|next after].
        -- cbn [parseArgs_loop]. apply from_arguments_set; [exact Hp | now left].
        -- destruct (is_value (Some next)) eqn:Hv.
           ++ apply IH; [simpl in Hn; lia | intros x Hx; apply Hrest; now right |].
              apply from_arguments_set; [exact Hp|]. right. eexists. split; [reflexivity|].
              left. split; [apply Hrest; now left | now apply is_value_cases].
           ++ apply IH; [lia | exact Hrest |].
              apply from_arguments_set; [exact Hp | now left].
    + destruct (startsWith arg "-" && (js_length arg =? 2)%nat).
      * destruct rest as [|next after].
        -- cbn [parseArgs_loop]. apply from_arguments_set; [exact Hp | now left].
        -- destruct (is_value (Some next)) eqn:Hv.
           ++ apply IH; [simpl in Hn; lia | intros x Hx; apply Hrest; now right |].
              apply from_arguments_set; [exact Hp|]. right. eexists. split; [reflexivity|].
              left. split; [apply Hrest; now left | now apply is_value_cases].
           ++ apply IH; [lia | exact Hrest |].
              apply from_arguments_set; [exact Hp | now left].
      * apply IH; [lia | exact Hrest | exact Hp].
Qed.

(** X20.  No flag is taken for a value: every property of what
    [parseArgs] returns is [true], or the string after the equals sign of
    an argument [--key=value] for its own key, or an argument that does
    not start with a dash or that starts with a dash and a digit. *)
Theorem parseArgs_values (args : list string) (key : string) (v : JsVal) :
  Parsed.get key (parseArgs args) = Some v ->
  v = VBool true
  \/ exists s : string,
       v = VStr s
       /\ ((In s args /\ (startsWith s "-" = false \/ dash_digit s = true))
           \/ In ("--" ++ key ++ "=" ++ s) args).
Proof.
  apply (parseArgs_loop_from_arguments args (List.length args) args (le_n _) []).
  - apply incl_refl.
  - intros k w H. discriminate H.
Qed.

(** ** The solver of the skill *)

Lemma solve_sh_loop_more (prefix target : string) (ms : Z) (out : ScriptOutput.t) :
  forall (fuel fuel' : nat) (nonce : Z),
    (fuel <= fuel')%nat ->
    solve_sh_loop fuel prefix target ms nonce = Some out ->
    solve_sh_loop fuel' prefix target ms nonce = Some out.
Proof.
  induction fuel as [|fuel IH]; intros fuel' nonce Hle; [discriminate|].
  destruct fuel' as [|fuel']; [lia|].
  cbn [solve_sh_loop].
  destruct (startsWith _ target); [exact (fun H => H)|].
  destruct (100000000 <? nonce + 1); [exact (fun H => H)|].
  apply IH. lia.
Qed.

Lemma solve_sh_loop_ends (prefix target : string) (ms : Z) :
  forall (fuel : nat) (nonce : Z),
    0 <= nonce <= 100000000 ->
    100000000 - nonce < Z.of_nat fuel ->
    exists out : ScriptOutput.t, solve_sh_loop fuel prefix target ms nonce = Some out.
Proof.
  induction fuel as [|fuel IH]; intros nonce Hn Hf; [lia|].
  cbn [solve_sh_loop].
  destruct (startsWith _ target); [eexists; reflexivity|].
  destruct (Z.ltb_spec 100000000 (nonce + 1)) as [Hend|Hgo]; [eexists; reflexivity|].
  apply IH; lia.
Qed.

Lemma solve_sh_loop_right (prefix target : string) (ms : Z) (out : ScriptOutput.t) :
  forall (fuel : nat) (nonce : Z),
    0 <= nonce <= 100000000 ->
    (forall j, 0 <= j < nonce -> solves node prefix target j = false) ->
    solve_sh_loop fuel prefix target ms nonce = Some out ->
    script_output_is_right prefix target ms out.
Proof.
  induction fuel as [|fuel IH]; intros nonce Hn Hmiss; [discriminate|].
  cbn [solve_sh_loop].
  destruct (startsWith (sha256 node (prefix ++ Z_toString nonce)) target) eqn:Hs.
  - intros H. injection H as <-.
    exists nonce. repeat split; try assumption; lia.
  - assert (Hmiss' : forall j, 0 <= j < nonce + 1 -> solves node prefix target j = false).
    { intros j Hj. destruct (Z.eq_dec j nonce) as [->|]; [exact Hs | apply Hmiss; lia]. }
    destruct (Z.ltb_spec 100000000 (nonce + 1)) as [Hend|Hgo].
    + intros H. injection H as <-. intros j Hj. apply Hmiss'. lia.
    + apply IH; [lia | exact Hmiss'].
Qed.

(** X21.  The script of the skill ends, and what it prints is right:
    within 100000001 turns of its loop it prints either a solution, whose
    nonce is the decimal string of the least integer [n] from 0 such that
    SHA256(prefix + n) starts with the target, with that hash and
    [n + 1] iterations, or [Max iterations reached], and then no nonce
    from 0 to 100000000 solves. *)
Theorem solve_sh_is_right (prefix target : string) (clock : nat -> Z) :
  exists out : ScriptOutput.t,
    (forall fuel : nat,
       100000000 < Z.of_nat fuel -> solve_sh fuel prefix target clock = Some out)
    /\ script_output_is_right prefix target (clock 1%nat - clock 0%nat) out.
Proof.
  unfold solve_sh.
  remember (Z.to_nat 100000001) as enough eqn:He.
  assert (Hb : 100000000 - 0 < Z.of_nat enough) by lia.
  destruct (solve_sh_loop_ends prefix target (clock 1%nat - clock 0%nat) enough 0
              ltac:(lia) Hb) as (out & Hout).
  exists out. split.
  - intros fuel Hfuel. apply (solve_sh_loop_more _ _ _ _ enough); [lia | exact Hout].
  - apply (solve_sh_loop_right _ _ _ _ enough 0); [lia | intros j Hj; lia | exact Hout].
Qed.

(** X22.  The script and the library agree: when [solveChallenge] on Node
    finds a nonce for a prefix and a target and the script prints a
    solution for them, the two carry the same nonce, the same hash and
    the same number of iterations. *)
Theorem solve_sh_agrees_with_solveChallenge (clock clock' : nat -> Z) (fuel fuel' : nat)
    (o : SolveOptions.t) (r : SolveResult.t) (nonce hash : string)
    (timeMs iterations : Z) :
  solveChallenge node clock fuel o = Some (Return r) ->
  SolveResult.found r = true ->
  solve_sh fuel' (SolveOptions.prefix o) (SolveOptions.target o) clock'
  = Some (ScriptOutput.solution nonce hash timeMs iterations) ->
  SolveResult.nonce r = Some nonce /\ SolveResult.hash r = Some hash
  /\ SolveResult.iterations r = iterations.
Proof.
  intros H Hf Hs.
  unfold solveChallenge in H.
  destruct (solveLoop_result node _ _ _ _ _ _ _ _ _ _ _ (searched_zero node _ _ _) H)
    as (m & [Hm Hbelow] & Hi & Hr).
  rewrite Hf in Hi, Hr. destruct Hr as (_ & Hsolves & En & Eh).
  destruct (solve_sh_loop_right _ _ _ _ fuel' 0 ltac:(lia) ltac:(intros j Hj; lia) Hs)
    as (n & Hn & -> & -> & Hhit & Hleast & -> & _).
  assert (E : m = n).
  { destruct (Z.lt_trichotomy m n) as [L|[E|G]]; [|exact E|].
    - rewrite (Hleast m) in Hsolves by lia. discriminate.
    - destruct (Hbelow n ltac:(lia)) as [_ Hmiss].
      unfold solves in Hmiss. rewrite Hmiss in Hhit. discriminate. }
  subst m. rewrite En, Eh, Hi. repeat split.
  apply incr_below. rewrite MAX_EXACT_value. lia.
Qed.

(** ** The tests of the repository (test/e2e.test.ts), replayed on Node's
    digests with a clock at 1700000000123 and the random bytes 0, 1, 2, ... *)

Module Tests.

Definition rnd (i : nat) : ascii := ascii_of_nat i.

Definition now : Z := 1700000000123.

Definition options (difficulty expiresIn : option JsNum) (metadata : JsVal)
    (secret : option string) : option ChallengeOptions.t :=
  Some {| ChallengeOptions.difficulty := difficulty;
          ChallengeOptions.expiresIn := expiresIn;
          ChallengeOptions.metadata := metadata;
          ChallengeOptions.secret := secret |}.

Definition target_of (c : Exn Challenge.t) : option string :=
  match c with Return c => Some (Challenge.target c) | Throw _ => None end.

Definition submit (prefix nonce target : string) (expiresAt : Z)
    (signature secret : option string) (metadata : JsVal) : VerifyOptions.t :=
  {| VerifyOptions.prefix := VStr prefix; VerifyOptions.nonce := VStr nonce;
     VerifyOptions.target := VStr target; VerifyOptions.expiresAt := VNum (ofZ expiresAt);
     VerifyOptions.signature := signature; VerifyOptions.secret := secret;
     VerifyOptions.requireSignature := None; VerifyOptions.metadata := metadata |}.

(** FIPS 180-4 and RFC 4231 vectors for the digests *)
Example sha256_abc :
  SHA256.sha256_hex "abc"
  = "ba7816bf8f01cfea414140de5dae2223b00361a396177a9cb410ff61f20015ad".
Proof. vm_compute. reflexivity. Qed.

Example hmac_sha256_rfc4231_2 :
  SHA256.hmac_sha256_hex "Jefe" "what do ya want for nothing?"
  = "5bdcc146bf60754e6a042426089575c75a003f089d2739839dec58b964ec3843".
Proof. vm_compute. reflexivity. Qed.

(** creates a challenge with default options *)
Example creates_with_default_options :
  createChallenge node None now rnd
  = Return {| Challenge.id := "nha_000102030405060708090a0b";
              Challenge.prefix := "0c0d0e0f10111213";
              Challenge.target := "0000";
              Challenge.expiresAt := ofZ 1700000060;
              Challenge.metadata := VUndefined;
              Challenge.signature := None |}.
Proof. vm_compute. reflexivity. Qed.

(** creates challenges with different difficulties; clamps difficulty to
    valid range *)
Example creates_with_difficulties :
  map (fun d => target_of (createChallenge node (options (Some (ofZ d)) None VUndefined None)
                             now rnd))
      [1; 3; 6; 0; 10]
  = [Some "0"; Some "000"; Some "000000"; Some "0"; Some "000000"].
Proof. vm_compute. reflexivity. Qed.

(** signs challenge when secret provided *)
Example signs_with_secret :
  match createChallenge node (options None None VUndefined (Some "my-secret-key")) now rnd with
  | Return c => option_map String.length (Challenge.signature c)
  | Throw _ => None
  end = Some 32%nat.
Proof. vm_compute. reflexivity. Qed.

(** respects custom expiration time *)
Example respects_expiration :
  match createChallenge node (options None (Some (ofZ 120)) VUndefined None) now rnd with
  | Return c => num_eqb (Challenge.expiresAt c) (ofZ (now / 1000 + 120))
  | Throw _ => false
  end = true.
Proof. vm_compute. reflexivity. Qed.

(** solves difficulty 1 challenge instantly *)
Example solves_difficulty_1 :
  solveChallenge node (fun k => now + Z.of_nat k) 1
    {| SolveOptions.prefix := "0c0d0e0f10111213"; SolveOptions.target := "0";
       SolveOptions.maxIterations := None; SolveOptions.onProgress := None;
       SolveOptions.progressInterval := None |}
  = Some (Return
            {| SolveResult.found := true; SolveResult.nonce := Some "0";
               SolveResult.iterations := 1; SolveResult.timeMs := 1;
               SolveResult.hashRate := 1000;
               SolveResult.hash :=
                 Some "015337eca9a983c19f7ce3d3a0105c81202f843d3f7da2457ceec1db0b2bb7d3" |}).
Proof. vm_compute. reflexivity. Qed.

(** fails gracefully when max iterations exceeded, here after 5 *)
Example fails_gracefully :
  solveChallenge node (fun k => now + Z.of_nat k) 6
    {| SolveOptions.prefix := "test"; SolveOptions.target := "00000000";
       SolveOptions.maxIterations := Some (ofZ 5); SolveOptions.onProgress := None;
       SolveOptions.progressInterval := None |}
  = Some (Return
            {| SolveResult.found := false; SolveResult.nonce := None;
               SolveResult.iterations := 5; SolveResult.timeMs := 1;
               SolveResult.hashRate := 5000; SolveResult.hash := None |}).
Proof. vm_compute. reflexivity. Qed.

(** verifies a valid solution (difficulty 2: nonce 31) *)
Example verifies_valid_solution :
  verifyChallenge node
    (submit "0c0d0e0f10111213" "31" "00" 1700000060 None None VUndefined) now
  = Return (VerifyResult.accepted
              "00ad258512093e338780eb13e9462e3672da35365afef2c3f66c9212383b5f5b").
Proof. vm_compute. reflexivity. Qed.

(** rejects expired challenges *)
Example rejects_expired :
  verifyChallenge node (submit "test" "123" "0" (now / 1000 - 10) None None VUndefined) now
  = Return (VerifyResult.rejected expired).
Proof. vm_compute. reflexivity. Qed.

(** rejects invalid nonces *)
Example rejects_invalid_nonce :
  verifyChallenge node
    (submit "0c0d0e0f10111213" "wrong-nonce" "0000" 1700000060 None None VUndefined) now
  = Return (VerifyResult.wrong_hash
              "6979ae53992a7dd7b00a6e13a070081986eb9a3e71911b22be938668629e720b").
Proof. vm_compute. reflexivity. Qed.

(** verifies signed challenges; rejects tampered signatures *)
Example verifies_signed :
  verifyChallenge node
    (submit "0c0d0e0f10111213" "31" "00" 1700000060
       (Some "77a1d1754377077d509bbecf3c184613") (Some "super-secret-key") VUndefined) now
  = Return (VerifyResult.accepted
              "00ad258512093e338780eb13e9462e3672da35365afef2c3f66c9212383b5f5b")
  /\ verifyChallenge node
       (submit "0c0d0e0f10111213" "31" "00" 1700000060
          (Some "tampered-signature") (Some "super-secret-key") VUndefined) now
     = Return (VerifyResult.rejected invalid_signature).
Proof. split; vm_compute; reflexivity. Qed.

(** completes full challenge-solve-verify flow: the metadata is part of
    the signature *)
Example signs_metadata_canonically :
  createChallenge node
    (options (Some (ofZ 3)) (Some (ofZ 60)) (VObj [("test", VBool true)])
       (Some "e2e-test-secret")) now rnd
  = Return {| Challenge.id := "nha_000102030405060708090a0b";
              Challenge.prefix := "0c0d0e0f10111213";
              Challenge.target := "000";
              Challenge.expiresAt := ofZ 1700000060;
              Challenge.metadata := VObj [("test", VBool true)];
              Challenge.signature := Some "34782381cb8f58c6afca03b1246408a8" |}
  /\ verifyChallenge node
       (submit "0c0d0e0f10111213" "3017" "000" 1700000060
          (Some "34782381cb8f58c6afca03b1246408a8") (Some "e2e-test-secret")
          (VObj [("test", VBool true)])) now
     = Return (VerifyResult.accepted
                 "000fd9503d1acd5c305a7e10a2989b34b9291d47a16d8759e17ba3d05b4dfcb6").
Proof. split; vm_compute; reflexivity. Qed.

(** generates a valid token; generates signed tokens *)
Example generates_tokens :
  generateToken node (VStr "nha_test123") None now
  = Return "bmhhX3Rlc3QxMjM6MTcwMDAwMDAwMDEyMw=="
  /\ generateToken node (VStr "nha_test123") (Some "secret") now
     = Return "bmhhX3Rlc3QxMjM6MTcwMDAwMDAwMDEyMw==.4e1725116ff115d001ed2c43c314b889".
Proof. split; vm_compute; reflexivity. Qed.

(** verifies valid tokens; verifies signed tokens; rejects expired tokens
    (a maximum age of -1); rejects tokens with wrong secret *)
Example verifies_tokens :
  verifyToken node (VStr "bmhhX3Rlc3QxMjM6MTcwMDAwMDAwMDEyMw==") None None None now
  = Return (TokenResult.ok "nha_test123")
  /\ verifyToken node
       (VStr "bmhhX3Rlc3QxMjM6MTcwMDAwMDAwMDEyMw==.4e1725116ff115d001ed2c43c314b889")
       (Some "secret") None None now
     = Return (TokenResult.ok "nha_test123")
  /\ verifyToken node (VStr "bmhhX3Rlc3QxMjM6MTcwMDAwMDAwMDEyMw==") None
       (Some (ofZ (-1))) None now
     = Return TokenResult.invalid
  /\ verifyToken node
       (VStr "bmhhX3Rlc3QxMjM6MTcwMDAwMDAwMDEyMw==.4e1725116ff115d001ed2c43c314b889")
       (Some "secret2") None None now
     = Return TokenResult.invalid.
Proof. split; [|split; [|split]]; vm_compute; reflexivity. Qed.

End Tests.

(** ** The claims on concrete inputs *)

(** C1 on a challenge of difficulty 1 whose prefix nonce 0 solves. *)
Lemma solved_challenge_verifies_witness :
  let options :=
    Some {| ChallengeOptions.difficulty := Some (ofZ 1);
            ChallengeOptions.expiresIn := None;
            ChallengeOptions.metadata := VUndefined;
            ChallengeOptions.secret := None |} in
  let rnd := fun i : nat => ascii_of_nat i in
  let c :=
    {| Challenge.id := "nha_000102030405060708090a0b";
       Challenge.prefix := "0c0d0e0f10111213";
       Challenge.target := "0";
       Challenge.expiresAt := ofZ 1700000060;
       Challenge.metadata := VUndefined;
       Challenge.signature := None |} in
  let clock := fun k : nat => 1700000001000 + 2 * Z.of_nat k in
  let o :=
    {| SolveOptions.prefix := "0c0d0e0f10111213"; SolveOptions.target := "0";
       SolveOptions.maxIterations := None; SolveOptions.onProgress := None;
       SolveOptions.progressInterval := None |} in
  let r :=
    {| SolveResult.found := true; SolveResult.nonce := Some "0";
       SolveResult.iterations := 1; SolveResult.timeMs := 2;
       SolveResult.hashRate := 500;
       SolveResult.hash :=
         Some "015337eca9a983c19f7ce3d3a0105c81202f843d3f7da2457ceec1db0b2bb7d3" |} in
  after_epoch 1700000000000
  /\ createChallenge node options 1700000000000 rnd = Return c
  /\ SolveOptions.prefix o = Challenge.prefix c
  /\ SolveOptions.target o = Challenge.target c
  /\ solveChallenge node clock 1 o = Some (Return r)
  /\ SolveResult.found r = true
  /\ num_gtb (ofZ (1700000060999 / 1000)) (Challenge.expiresAt c) = false
  /\ exists nonce hash,
       SolveResult.nonce r = Some nonce /\ SolveResult.hash r = Some hash
       /\ verifyChallenge node (submission c nonce) 1700000060999
          = Return (VerifyResult.accepted hash)
       /\ startsWith hash (Challenge.target c) = true.
Proof.
  intros options rnd c clock o r.
  assert (H1 : after_epoch 1700000000000) by (unfold after_epoch; lia).
  assert (H2 : createChallenge node options 1700000000000 rnd = Return c)
    by (vm_compute; reflexivity).
  assert (Hp : SolveOptions.prefix o = Challenge.prefix c) by reflexivity.
  assert (Ht : SolveOptions.target o = Challenge.target c) by reflexivity.
  assert (H3 : solveChallenge node clock 1 o = Some (Return r))
    by (vm_compute; reflexivity).
  assert (H4 : SolveResult.found r = true) by reflexivity.
  assert (H5 : num_gtb (ofZ (1700000060999 / 1000)) (Challenge.expiresAt c) = false)
    by (vm_compute; reflexivity).
  exact (conj H1 (conj H2 (conj Hp (conj Ht (conj H3 (conj H4 (conj H5
           (solved_challenge_verifies node options 1700000000000 rnd c clock 1 o r
              1700000060999 H1 H2 Hp Ht H3 H4 H5)))))))).
Defined.

(** C2 on a solved submission verified in the very second it expires. *)
Lemma verifyChallenge_check_order_witness :
  let o :=
    {| VerifyOptions.prefix := VStr "0c0d0e0f10111213";
       VerifyOptions.nonce := VStr "0";
       VerifyOptions.target := VStr "0";
       VerifyOptions.expiresAt := VNum (ofZ 1700000060);
       VerifyOptions.signature := None;
       VerifyOptions.secret := None;
       VerifyOptions.requireSignature := None;
       VerifyOptions.metadata := VUndefined |} in
  verifyChallenge node o 1700000060999 = verify_in_order node o 1700000060999
  /\ VerifyOptions.expiresAt o = VNum (Fin (inject_Z 1700000060))
  /\ (inject_Z 1700000060 == inject_Z (1700000060999 / 1000))%Q
  /\ verifyChallenge node o 1700000060999 <> Return (VerifyResult.rejected expired).
Proof.
  intros o.
  assert (H1 : VerifyOptions.expiresAt o = VNum (Fin (inject_Z 1700000060)))
    by reflexivity.
  assert (H2 : (inject_Z 1700000060 == inject_Z (1700000060999 / 1000))%Q)
    by reflexivity.
  exact (conj (proj1 (verifyChallenge_check_order node) o 1700000060999)
           (conj H1 (conj H2
              (proj2 (verifyChallenge_check_order node) o 1700000060999 _ H1 H2)))).
Defined.

(** C3 on a submission whose hash does start with the target. *)
Lemma signature_without_secret_witness :
  let o :=
    {| VerifyOptions.prefix := VStr "0c0d0e0f10111213";
       VerifyOptions.nonce := VStr "0";
       VerifyOptions.target := VStr "0";
       VerifyOptions.expiresAt := VNum (ofZ 1700000060);
       VerifyOptions.signature := Some "0eec469bc749a1e3b08d7fb7d399992b";
       VerifyOptions.secret := None;
       VerifyOptions.requireSignature := None;
       VerifyOptions.metadata := VUndefined |} in
  given (VerifyOptions.signature o) = true
  /\ given (VerifyOptions.secret o) = false
  /\ passes_input_checks o 1700000000000 = true
  /\ passes_requireSignature o = true
  /\ solves node "0c0d0e0f10111213" "0" 0 = true
  /\ verifyChallenge node o 1700000000000 = Return (VerifyResult.rejected missing_secret).
Proof.
  intros o.
  assert (H1 : given (VerifyOptions.signature o) = true) by reflexivity.
  assert (H2 : given (VerifyOptions.secret o) = false) by reflexivity.
  assert (H3 : passes_input_checks o 1700000000000 = true) by (vm_compute; reflexivity).
  assert (H4 : passes_requireSignature o = true) by reflexivity.
  assert (H5 : solves node "0c0d0e0f10111213" "0" 0 = true) by (vm_compute; reflexivity).
  exact (conj H1 (conj H2 (conj H3 (conj H4 (conj H5
           (signature_without_secret node o 1700000000000 H1 H2 H3 H4)))))).
Defined.

(** C4: with [maxIterations = -1] no nonce is below the limit, and
    [iterations] is 0, not -1. *)
Lemma solveChallenge_negative_limit :
  let clock := fun k : nat => 1700000001000 + 2 * Z.of_nat k in
  let o :=
    {| SolveOptions.prefix := "0c0d0e0f10111213"; SolveOptions.target := "0";
       SolveOptions.maxIterations := Some (ofZ (-1));
       SolveOptions.onProgress := None; SolveOptions.progressInterval := None |} in
  (forall fuel : nat,
      solveChallenge node clock (S fuel) o
      = Some (Return {| SolveResult.found := false; SolveResult.nonce := None;
                        SolveResult.iterations := 0; SolveResult.timeMs := 2;
                        SolveResult.hashRate := 0; SolveResult.hash := None |}))
  /\ (forall n : Z, 0 <= n -> num_ltb (ofZ n) (limit o) = false)
  /\ num_eqb (ofZ 0) (limit o) = false.
Proof.
  intros clock o. split; [intros fuel; reflexivity|].
  split; [|reflexivity].
  intros n Hn. cbn [limit o SolveOptions.maxIterations]. rewrite num_ltb_ofZ.
  apply Z.ltb_ge. lia.
Defined.

(** C4 on a prefix that nonce 0 solves, and on one that no nonce below 3
    solves, with a callback at every iteration. *)
Lemma solveChallenge_least_nonce_witness :
  let clock := fun k : nat => 1700000001000 + 2 * Z.of_nat k in
  let o1 :=
    {| SolveOptions.prefix := "0c0d0e0f10111213"; SolveOptions.target := "0";
       SolveOptions.maxIterations := None; SolveOptions.onProgress := None;
       SolveOptions.progressInterval := None |} in
  let o2 :=
    {| SolveOptions.prefix := "ab"; SolveOptions.target := "0";
       SolveOptions.maxIterations := Some (ofZ 3);
       SolveOptions.onProgress := Some (fun _ _ : Z => Return tt);
       SolveOptions.progressInterval := Some (ofZ 1) |} in
  (progress_returns o1 /\ 0 <= 0 < MAX_EXACT /\ num_ltb (ofZ 0) (limit o1) = true
   /\ solves node "0c0d0e0f10111213" "0" 0 = true
   /\ exists m : Z,
        0 <= m <= 0 /\ solves node "0c0d0e0f10111213" "0" m = true
        /\ (forall j, 0 <= j < m -> solves node "0c0d0e0f10111213" "0" j = false)
        /\ forall fuel : nat, (Z.to_nat m < fuel)%nat ->
             exists r, solveChallenge node clock fuel o1 = Some (Return r)
                       /\ reports_nonce node "0c0d0e0f10111213" m r)
  /\ (progress_returns o2 /\ limit o2 = Fin (inject_Z 3)
      /\ (inject_Z 3 == inject_Z 3)%Q /\ 0 <= 3 <= MAX_EXACT
      /\ (forall j, 0 <= j < 3 -> solves node "ab" "0" j = false)
      /\ exists r, solveChallenge node clock 4 o2 = Some (Return r)
                   /\ reports_failure 3 r).
Proof.
  intros clock o1 o2.
  assert (A0 : progress_returns o1) by exact I.
  assert (A1 : 0 <= 0 < MAX_EXACT) by (rewrite MAX_EXACT_value; lia).
  assert (A2 : num_ltb (ofZ 0) (limit o1) = true) by reflexivity.
  assert (A3 : solves node "0c0d0e0f10111213" "0" 0 = true) by (vm_compute; reflexivity).
  assert (B0 : progress_returns o2) by (intros i h; exists tt; reflexivity).
  assert (B1 : limit o2 = Fin (inject_Z 3)) by reflexivity.
  assert (B2 : (inject_Z 3 == inject_Z 3)%Q) by reflexivity.
  assert (B3 : 0 <= 3 <= MAX_EXACT) by (rewrite MAX_EXACT_value; lia).
  assert (B4 : forall j, 0 <= j < 3 -> solves node "ab" "0" j = false).
  { intros j Hj.
    assert (E : j = 0 \/ j = 1 \/ j = 2) by lia.
    destruct E as [-> | [-> | ->]]; vm_compute; reflexivity. }
  assert (B5 : (Z.to_nat 3 < 4)%nat) by (cbn; lia).
  exact (conj
           (conj A0 (conj A1 (conj A2 (conj A3
              (proj1 (solveChallenge_least_nonce node clock o1 A0) 0 A1 A2 A3)))))
           (conj B0 (conj B1 (conj B2 (conj B3 (conj B4
              (proj2 (solveChallenge_least_nonce node clock o2 B0) 3 _ B1 B2 B3 B4
                 4%nat B5))))))).
Defined.

(** C6: an identifier with a colon is accepted by [generateToken], and the
    token it gets is rejected a millisecond later. *)
Lemma token_round_trip_fails_on_colon :
  acceptable_id (VStr "nha_a:b") = true
  /\ generateToken node (VStr "nha_a:b") None 1700000000000
     = Return "bmhhX2E6YjoxNzAwMDAwMDAwMDAw"
  /\ verifyToken node (VStr "bmhhX2E6YjoxNzAwMDAwMDAwMDAw") None None None 1700000000001
     = Return TokenResult.invalid.
Proof. split; [|split]; vm_compute; reflexivity. Defined.

(** C6 on an identifier as [createChallenge] makes them, at an age one
    millisecond short of the default maximum. *)
Lemma token_round_trip_witness :
  startsWith "nha_0123456789abcdef01234567" "nha_" = true
  /\ contains ":" "nha_0123456789abcdef01234567" = false
  /\ after_epoch 1700000000000
  /\ num_ltb (ofZ (1700000299999 - 1700000000000)) (max_age None) = true
  /\ exists token : string,
       generateToken node (VStr "nha_0123456789abcdef01234567") None 1700000000000
       = Return token
       /\ verifyToken node (VStr token) None None None 1700000299999
          = Return (TokenResult.ok "nha_0123456789abcdef01234567").
Proof.
  assert (H1 : startsWith "nha_0123456789abcdef01234567" "nha_" = true) by reflexivity.
  assert (H2 : contains ":" "nha_0123456789abcdef01234567" = false) by reflexivity.
  assert (H3 : after_epoch 1700000000000) by (unfold after_epoch; lia).
  assert (H4 : num_ltb (ofZ (1700000299999 - 1700000000000)) (max_age None) = true)
    by reflexivity.
  exact (conj H1 (conj H2 (conj H3 (conj H4
           (token_round_trip node _ _ _ None H1 H2 H3 H4))))).
Defined.



(** C9 on the identifier [nha_a:b], signed. *)
Lemma colon_identifier_never_verifies_witness :
  startsWith "nha_a:b" "nha_" = true
  /\ contains ":" "nha_a:b" = true
  /\ exists token : string,
       generateToken node (VStr "nha_a:b") (Some "k") 1700000000000 = Return token
       /\ (2 < List.length (split ":" (token_payload node "nha_a:b" 1700000000000)))%nat
       /\ forall (secret : option string) (maxAgeMs : option JsNum)
                 (options : option TokenVerifyOptions.t) (nowMs : Z),
            verifyToken node (VStr token) secret maxAgeMs options nowMs
            = Return TokenResult.invalid.
Proof.
  assert (H1 : startsWith "nha_a:b" "nha_" = true) by reflexivity.
  assert (H2 : contains ":" "nha_a:b" = true) by reflexivity.
  exact (conj H1 (conj H2
           (colon_identifier_never_verifies node "nha_a:b" (Some "k") 1700000000000
              H1 H2))).
Defined.

(** C10 on a signed submission and on a token verified with
    [requireSecret]. *)
Lemma empty_secret_is_no_secret_witness :
  let o :=
    {| VerifyOptions.prefix := VStr "0c0d0e0f10111213";
       VerifyOptions.nonce := VStr "0";
       VerifyOptions.target := VStr "0";
       VerifyOptions.expiresAt := VNum (ofZ 1700000060);
       VerifyOptions.signature := Some "0eec469bc749a1e3b08d7fb7d399992b";
       VerifyOptions.secret := Some "k";
       VerifyOptions.requireSignature := None;
       VerifyOptions.metadata := VUndefined |} in
  let options := Some {| TokenVerifyOptions.requireSecret := Some true |} in
  (given (VerifyOptions.signature o) = true
   /\ passes_input_checks o 1700000000000 = true
   /\ verifyChallenge node (VerifyOptions_with_secret o (Some "")) 1700000000000
      = Return (VerifyResult.rejected missing_secret))
  /\ (startsWith "nha_ab" "nha_" = true
      /\ generateToken node (VStr "nha_ab") (Some "") 1700000000000
         = Return (Base64.encode (token_payload node "nha_ab" 1700000000000)))
  /\ (flag (TokenVerifyOptions.requireSecret (token_options options)) = true
      /\ verifyToken node (VStr "bmhhX2FiOjE3MDAwMDAwMDAwMDA=") (Some "") None options
           1700000000001
         = Return TokenResult.invalid).
Proof.
  intros o options.
  assert (H1 : given (VerifyOptions.signature o) = true) by reflexivity.
  assert (H2 : passes_input_checks o 1700000000000 = true) by (vm_compute; reflexivity).
  assert (H3 : startsWith "nha_ab" "nha_" = true) by reflexivity.
  assert (H4 : flag (TokenVerifyOptions.requireSecret (token_options options)) = true)
    by reflexivity.
  pose proof (empty_secret_is_no_secret node) as (_ & Hv & Hg & Ht).
  exact (conj
           (conj H1 (conj H2 (proj2 (Hv o 1700000000000) H1 H2)))
           (conj
              (conj H3 (proj2 (Hg (VStr "nha_ab") 1700000000000) "nha_ab" eq_refl H3))
              (conj H4
                 (proj2 (Ht (VStr "bmhhX2FiOjE3MDAwMDAwMDAwMDA=") None options
                           1700000000001) H4)))).
Defined.

(** ** The further properties on concrete inputs *)

(** X1 on the prefix [ab], which nonce 4 is the first to solve. *)
Lemma solveChallenge_found_is_least_witness :
  let clock := fun k : nat => 1700000001000 + 2 * Z.of_nat k in
  let o :=
    {| SolveOptions.prefix := "ab"; SolveOptions.target := "0";
       SolveOptions.maxIterations := None; SolveOptions.onProgress := None;
       SolveOptions.progressInterval := None |} in
  let r :=
    {| SolveResult.found := true; SolveResult.nonce := Some "4";
       SolveResult.iterations := 5; SolveResult.timeMs := 2;
       SolveResult.hashRate := 2500;
       SolveResult.hash :=
         Some "0fbfe4a64372de3a802726e99b203126dadea904684f9a18f1513d24e955a819" |} in
  solveChallenge node clock 5 o = Some (Return r)
  /\ SolveResult.found r = true
  /\ exists n : Z,
       0 <= n /\ num_ltb (ofZ n) (limit o) = true
       /\ SolveResult.nonce r = Some (Z_toString n)
       /\ SolveResult.hash r = Some (sha256 node (SolveOptions.prefix o ++ Z_toString n))
       /\ startsWith (sha256 node (SolveOptions.prefix o ++ Z_toString n))
            (SolveOptions.target o) = true
       /\ (forall j, 0 <= j < n ->
             startsWith (sha256 node (SolveOptions.prefix o ++ Z_toString j))
               (SolveOptions.target o) = false)
       /\ SolveResult.iterations r = incr n.
Proof.
  intros clock o r.
  assert (H1 : solveChallenge node clock 5 o = Some (Return r))
    by (vm_compute; reflexivity).
  assert (H2 : SolveResult.found r = true) by reflexivity.
  exact (conj H1 (conj H2 (solveChallenge_found_is_least node clock 5 o r H1 H2))).
Defined.

(** X2 on the prefix [ab] with three iterations allowed. *)
Lemma solveChallenge_failure_is_exhaustive_witness :
  let clock := fun k : nat => 1700000001000 + 2 * Z.of_nat k in
  let o :=
    {| SolveOptions.prefix := "ab"; SolveOptions.target := "0";
       SolveOptions.maxIterations := Some (ofZ 3); SolveOptions.onProgress := None;
       SolveOptions.progressInterval := None |} in
  let r :=
    {| SolveResult.found := false; SolveResult.nonce := None;
       SolveResult.iterations := 3; SolveResult.timeMs := 2;
       SolveResult.hashRate := 1500; SolveResult.hash := None |} in
  solveChallenge node clock 4 o = Some (Return r)
  /\ SolveResult.found r = false
  /\ SolveResult.nonce r = None /\ SolveResult.hash r = None
  /\ 0 <= SolveResult.iterations r
  /\ num_ltb (ofZ (SolveResult.iterations r)) (limit o) = false
  /\ forall j, 0 <= j -> num_ltb (ofZ j) (limit o) = true ->
       startsWith (sha256 node (SolveOptions.prefix o ++ Z_toString j))
         (SolveOptions.target o) = false.
Proof.
  intros clock o r.
  assert (H1 : solveChallenge node clock 4 o = Some (Return r))
    by (vm_compute; reflexivity).
  assert (H2 : SolveResult.found r = false) by reflexivity.
  exact (conj H1 (conj H2 (solveChallenge_failure_is_exhaustive node clock 4 o r H1 H2))).
Defined.

(** X3 on a callback that throws at its first call, after two iterations. *)
Lemma solveChallenge_throws_what_onProgress_throws_witness :
  let clock := fun k : nat => 1700000001000 + 2 * Z.of_nat k in
  let o :=
    {| SolveOptions.prefix := "ab"; SolveOptions.target := "0";
       SolveOptions.maxIterations := None;
       SolveOptions.onProgress := Some (fun _ _ : Z => Throw (Error "stop"));
       SolveOptions.progressInterval := Some (ofZ 2) |} in
  solveChallenge node clock 5 o = Some (Throw (Error "stop"))
  /\ exists callback iterations rate,
       SolveOptions.onProgress o = Some callback
       /\ callback iterations rate = Throw (Error "stop").
Proof.
  intros clock o.
  assert (H1 : solveChallenge node clock 5 o = Some (Throw (Error "stop")))
    by (vm_compute; reflexivity).
  exact (conj H1 (solveChallenge_throws_what_onProgress_throws node clock 5 o _ H1)).
Defined.

(** X4 on a run without a callback and a run that reports every
    iteration to a callback, on another clock. *)
Lemma solveChallenge_search_is_independent_witness :
  let clock := fun k : nat => 1700000001000 + 2 * Z.of_nat k in
  let clock' := fun k : nat => 1700000005000 + 7 * Z.of_nat k in
  let o :=
    {| SolveOptions.prefix := "ab"; SolveOptions.target := "0";
       SolveOptions.maxIterations := None; SolveOptions.onProgress := None;
       SolveOptions.progressInterval := None |} in
  let o' :=
    {| SolveOptions.prefix := "ab"; SolveOptions.target := "0";
       SolveOptions.maxIterations := None;
       SolveOptions.onProgress := Some (fun _ _ : Z => Return tt);
       SolveOptions.progressInterval := Some (ofZ 1) |} in
  let r :=
    {| SolveResult.found := true; SolveResult.nonce := Some "4";
       SolveResult.iterations := 5; SolveResult.timeMs := 2;
       SolveResult.hashRate := 2500;
       SolveResult.hash :=
         Some "0fbfe4a64372de3a802726e99b203126dadea904684f9a18f1513d24e955a819" |} in
  let r' :=
    {| SolveResult.found := true; SolveResult.nonce := Some "4";
       SolveResult.iterations := 5; SolveResult.timeMs := 35;
       SolveResult.hashRate := 143;
       SolveResult.hash :=
         Some "0fbfe4a64372de3a802726e99b203126dadea904684f9a18f1513d24e955a819" |} in
  SolveOptions.prefix o = SolveOptions.prefix o'
  /\ SolveOptions.target o = SolveOptions.target o'
  /\ limit o = limit o'
  /\ solveChallenge node clock 5 o = Some (Return r)
  /\ solveChallenge node clock' 9 o' = Some (Return r')
  /\ SolveResult.found r = SolveResult.found r'
  /\ SolveResult.nonce r = SolveResult.nonce r'
  /\ SolveResult.iterations r = SolveResult.iterations r'
  /\ SolveResult.hash r = SolveResult.hash r'.
Proof.
  intros clock clock' o o' r r'.
  assert (H1 : SolveOptions.prefix o = SolveOptions.prefix o') by reflexivity.
  assert (H2 : SolveOptions.target o = SolveOptions.target o') by reflexivity.
  assert (H3 : limit o = limit o') by reflexivity.
  assert (H4 : solveChallenge node clock 5 o = Some (Return r))
    by (vm_compute; reflexivity).
  assert (H5 : solveChallenge node clock' 9 o' = Some (Return r'))
    by (vm_compute; reflexivity).
  exact (conj H1 (conj H2 (conj H3 (conj H4 (conj H5
           (solveChallenge_search_is_independent node clock clock' 5 9 o o' r r'
              H1 H2 H3 H4 H5)))))).
Defined.


(** X6 on a signed submission verified with [requireSignature]. *)
Lemma verifyChallenge_checks_signature_witness :
  let o :=
    {| VerifyOptions.prefix := VStr "0c0d0e0f10111213";
       VerifyOptions.nonce := VStr "31";
       VerifyOptions.target := VStr "00";
       VerifyOptions.expiresAt := VNum (ofZ 1700000060);
       VerifyOptions.signature := Some "77a1d1754377077d509bbecf3c184613";
       VerifyOptions.secret := Some "super-secret-key";
       VerifyOptions.requireSignature := Some true;
       VerifyOptions.metadata := VUndefined |} in
  let r :=
    VerifyResult.accepted
      "00ad258512093e338780eb13e9462e3672da35365afef2c3f66c9212383b5f5b" in
  verifyChallenge node o 1700000000123 = Return r
  /\ VerifyResult.valid r = true
  /\ flag (VerifyOptions.requireSignature o) = true
  /\ given (VerifyOptions.secret o) = true
  /\ given (VerifyOptions.signature o) = true
  /\ exists prefix target expiresAt metaHash : string,
       VerifyOptions.prefix o = VStr prefix /\ VerifyOptions.target o = VStr target
       /\ (forall z : Z,
             VerifyOptions.expiresAt o = VNum (ofZ z) -> Z.abs z <= MAX_EXACT ->
             expiresAt = Z_toString z)
       /\ (truthy (VerifyOptions.metadata o) = false -> metaHash = "")
       /\ text (VerifyOptions.signature o)
          = hmacSign node (signingPayload prefix target expiresAt metaHash)
              (text (VerifyOptions.secret o)) 32.
Proof.
  intros o r.
  assert (H1 : verifyChallenge node o 1700000000123 = Return r)
    by (vm_compute; reflexivity).
  assert (H2 : VerifyResult.valid r = true) by reflexivity.
  assert (H3 : flag (VerifyOptions.requireSignature o) = true) by reflexivity.
  exact (conj H1 (conj H2 (conj H3
           (verifyChallenge_checks_signature node o 1700000000123 r H1 H2
              (or_introl H3))))).
Defined.

(** X7 on the nonce 31. *)
Lemma verifyChallenge_numeric_nonce_witness :
  let o :=
    {| VerifyOptions.prefix := VStr "0c0d0e0f10111213";
       VerifyOptions.nonce := VUndefined;
       VerifyOptions.target := VStr "00";
       VerifyOptions.expiresAt := VNum (ofZ 1700000060);
       VerifyOptions.signature := None;
       VerifyOptions.secret := None;
       VerifyOptions.requireSignature := None;
       VerifyOptions.metadata := VUndefined |} in
  Z.abs 31 <= MAX_EXACT
  /\ verifyChallenge node (VerifyOptions_with_nonce o (VNum (ofZ 31))) 1700000000123
     = verifyChallenge node (VerifyOptions_with_nonce o (VStr (Z_toString 31)))
         1700000000123.
Proof.
  intros o.
  assert (H1 : Z.abs 31 <= MAX_EXACT) by (rewrite MAX_EXACT_value; cbn; lia).
  exact (conj H1 (verifyChallenge_numeric_nonce node o 31 1700000000123 H1)).
Defined.

(** X8 on a solved submission, a second before and a second after it
    expires. *)
Lemma verifyChallenge_later_only_expires_witness :
  let o :=
    {| VerifyOptions.prefix := VStr "0c0d0e0f10111213";
       VerifyOptions.nonce := VStr "31";
       VerifyOptions.target := VStr "00";
       VerifyOptions.expiresAt := VNum (ofZ 1700000060);
       VerifyOptions.signature := None;
       VerifyOptions.secret := None;
       VerifyOptions.requireSignature := None;
       VerifyOptions.metadata := VUndefined |} in
  1700000059000 <= 1700000061000
  /\ (verifyChallenge node o 1700000061000 = verifyChallenge node o 1700000059000
      \/ verifyChallenge node o 1700000061000 = Return (VerifyResult.rejected expired)).
Proof.
  intros o.
  assert (H1 : 1700000059000 <= 1700000061000) by lia.
  exact (conj H1 (verifyChallenge_later_only_expires node o _ _ H1)).
Defined.


(** X10 on a token a millisecond old and five minutes old. *)
Lemma verifyToken_later_only_expires_witness :
  let token := VStr "bmhhX3Rlc3QxMjM6MTcwMDAwMDAwMDEyMw==" in
  1700000000124 <= 1700000300123
  /\ (verifyToken node token None None None 1700000300123
      = verifyToken node token None None None 1700000000124
      \/ verifyToken node token None None None 1700000300123
         = Return TokenResult.invalid).
Proof.
  intros token.
  assert (H1 : 1700000000124 <= 1700000300123) by lia.
  exact (conj H1 (verifyToken_later_only_expires node token None None None _ _ H1)).
Defined.

(** X11 on a token issued without a secret. *)
Lemma verifyToken_unsigned_with_secret_witness :
  contains "." "bmhhX3Rlc3QxMjM6MTcwMDAwMDAwMDEyMw==" = false
  /\ given (Some "secret") = true
  /\ verifyToken node (VStr "bmhhX3Rlc3QxMjM6MTcwMDAwMDAwMDEyMw==") (Some "secret")
       None None 1700000000124
     = Return TokenResult.invalid.
Proof.
  assert (H1 : contains "." "bmhhX3Rlc3QxMjM6MTcwMDAwMDAwMDEyMw==" = false)
    by reflexivity.
  assert (H2 : given (Some "secret") = true) by reflexivity.
  exact (conj H1 (conj H2
           (verifyToken_unsigned_with_secret node _ (Some "secret") None None
              1700000000124 H1 H2))).
Defined.

(** X12 on a token with a forged signature. *)
Lemma verifyToken_without_secret_ignores_signature_witness :
  contains "." "bmhhX3Rlc3QxMjM6MTcwMDAwMDAwMDEyMw==" = false
  /\ given None = false
  /\ verifyToken node (VStr ("bmhhX3Rlc3QxMjM6MTcwMDAwMDAwMDEyMw==" ++ "." ++ "forged"))
       None None None 1700000000124
     = verifyToken node (VStr "bmhhX3Rlc3QxMjM6MTcwMDAwMDAwMDEyMw==")
         None None None 1700000000124.
Proof.
  assert (H1 : contains "." "bmhhX3Rlc3QxMjM6MTcwMDAwMDAwMDEyMw==" = false)
    by reflexivity.
  assert (H2 : given None = false) by reflexivity.
  exact (conj H1 (conj H2
           (verifyToken_without_secret_ignores_signature node _ "forged" None None None
              1700000000124 H1 H2))).
Defined.

(** X13 on a challenge of difficulty 2 with the default duration. *)
Lemma createChallenge_shape_witness :
  let options :=
    Some {| ChallengeOptions.difficulty := Some (ofZ 2);
            ChallengeOptions.expiresIn := None;
            ChallengeOptions.metadata := VUndefined;
            ChallengeOptions.secret := None |} in
  let rnd := fun i : nat => ascii_of_nat i in
  let c :=
    {| Challenge.id := "nha_000102030405060708090a0b";
       Challenge.prefix := "0c0d0e0f10111213";
       Challenge.target := "00";
       Challenge.expiresAt := Fin (inject_Z 1700000000 + 60);
       Challenge.metadata := VUndefined;
       Challenge.signature := None |} in
  createChallenge node options 1700000000000 rnd = Return c
  /\ (exists h : string, Challenge.id c = "nha_" ++ h /\ hex_of_length 24 h = true)
  /\ acceptable_id (VStr (Challenge.id c)) = true
  /\ contains ":" (Challenge.id c) = false
  /\ hex_of_length 16 (Challenge.prefix c) = true
  /\ matches_zeros_1_6 (Challenge.target c) = true
  /\ exists q : Q,
       Challenge.expiresAt c = Fin q /\ (inject_Z (1700000000000 / 1000) <= q)%Q.
Proof.
  intros options rnd c.
  assert (H1 : createChallenge node options 1700000000000 rnd = Return c)
    by (vm_compute; reflexivity).
  exact (conj H1 (createChallenge_shape node options 1700000000000 rnd c H1)).
Defined.

(** X14 on a challenge of difficulty 2 made with a secret. *)
Lemma createChallenge_signature_on_node_witness :
  let options :=
    Some {| ChallengeOptions.difficulty := Some (ofZ 2);
            ChallengeOptions.expiresIn := None;
            ChallengeOptions.metadata := VUndefined;
            ChallengeOptions.secret := Some "super-secret-key" |} in
  let rnd := fun i : nat => ascii_of_nat i in
  let c :=
    {| Challenge.id := "nha_000102030405060708090a0b";
       Challenge.prefix := "0c0d0e0f10111213";
       Challenge.target := "00";
       Challenge.expiresAt := Fin (inject_Z 1700000000 + 60);
       Challenge.metadata := VUndefined;
       Challenge.signature := Some "77a1d1754377077d509bbecf3c184613" |} in
  createChallenge node options 1700000000000 rnd = Return c
  /\ exists s : string, Challenge.signature c = Some s /\ hex_of_length 32 s = true.
Proof.
  intros options rnd c.
  assert (H1 : createChallenge node options 1700000000000 rnd = Return c)
    by (vm_compute; reflexivity).
  exact (conj H1 (createChallenge_signature_on_node options 1700000000000 rnd c H1)).
Defined.

(** X15 on a signed challenge with a metadata, submitted with the nonce 31
    that solves it and with [requireSignature], in the second it expires. *)
Lemma created_challenge_is_judged_by_its_hash_witness :
  let options :=
    {| ChallengeOptions.difficulty := Some (ofZ 2);
       ChallengeOptions.expiresIn := None;
       ChallengeOptions.metadata := VObj [("user", VStr "agent")];
       ChallengeOptions.secret := Some "super-secret-key" |} in
  let rnd := fun i : nat => ascii_of_nat i in
  let c :=
    {| Challenge.id := "nha_000102030405060708090a0b";
       Challenge.prefix := "0c0d0e0f10111213";
       Challenge.target := "00";
       Challenge.expiresAt := Fin (inject_Z 1700000000 + 60);
       Challenge.metadata := VObj [("user", VStr "agent")];
       Challenge.signature := Some "9601c11e78523082c3ca5e58e0cfe93b" |} in
  let hash := sha256 node (Challenge.prefix c ++ "31") in
  createChallenge node (Some options) 1700000000000 rnd = Return c
  /\ after_epoch 1700000000000
  /\ num_gtb (ofZ (1700000060999 / 1000)) (Challenge.expiresAt c) = false
  /\ given (ChallengeOptions.secret options) = true
  /\ given (Challenge.signature c) = true
  /\ startsWith hash (Challenge.target c) = true
  /\ verifyChallenge node (signed_submission c "31" options (Some true)) 1700000060999
     = Return (if startsWith hash (Challenge.target c)
               then VerifyResult.accepted hash else VerifyResult.wrong_hash hash).
Proof.
  intros options rnd c hash.
  assert (H1 : createChallenge node (Some options) 1700000000000 rnd = Return c)
    by (vm_compute; reflexivity).
  assert (H2 : after_epoch 1700000000000) by (unfold after_epoch; lia).
  assert (H3 : num_gtb (ofZ (1700000060999 / 1000)) (Challenge.expiresAt c) = false)
    by (vm_compute; reflexivity).
  assert (H4 : given (ChallengeOptions.secret options) = true) by reflexivity.
  assert (H5 : given (Challenge.signature c) = true) by reflexivity.
  assert (H6 : startsWith hash (Challenge.target c) = true) by (vm_compute; reflexivity).
  exact (conj H1 (conj H2 (conj H3 (conj H4 (conj H5 (conj H6
           (created_challenge_is_judged_by_its_hash node options 1700000000000 rnd c
              "31" (Some true) 1700000060999 H1 H2 H3 (fun _ => conj H4 H5)))))))).
Defined.

(** X16 on an identifier as [createChallenge] makes them, at an age one
    millisecond short of the default maximum. *)
Lemma signed_token_round_trip_witness :
  startsWith "nha_0123456789abcdef01234567" "nha_" = true
  /\ contains ":" "nha_0123456789abcdef01234567" = false
  /\ given (Some "super-secret-key") = true
  /\ after_epoch 1700000000000
  /\ num_ltb (ofZ (1700000299999 - 1700000000000)) (max_age None) = true
  /\ exists token : string,
       generateToken node (VStr "nha_0123456789abcdef01234567")
         (Some "super-secret-key") 1700000000000
       = Return token
       /\ verifyToken node (VStr token) (Some "super-secret-key") None None 1700000299999
          = Return (TokenResult.ok "nha_0123456789abcdef01234567").
Proof.
  assert (H1 : startsWith "nha_0123456789abcdef01234567" "nha_" = true) by reflexivity.
  assert (H2 : contains ":" "nha_0123456789abcdef01234567" = false) by reflexivity.
  assert (H3 : given (Some "super-secret-key") = true) by reflexivity.
  assert (H4 : after_epoch 1700000000000) by (unfold after_epoch; lia).
  assert (H5 : num_ltb (ofZ (1700000299999 - 1700000000000)) (max_age None) = true)
    by reflexivity.
  exact (conj H1 (conj H2 (conj H3 (conj H4 (conj H5
           (signed_token_round_trip _ _ _ _ None None H1 H2 H3 H4 H5)))))).
Defined.

(** X17 on [--expires --difficulty=-5]: the flag before takes no value. *)
Lemma parseArgs_key_equals_value_witness :
  contains "=" "difficulty" = false
  /\ String.eqb "difficulty" "__proto__" = false
  /\ Parsed.get "difficulty" (parseArgs ["--expires"; "--difficulty=-5"])
     = Some (VStr "-5").
Proof.
  assert (H1 : contains "=" "difficulty" = false) by reflexivity.
  assert (H2 : String.eqb "difficulty" "__proto__" = false) by reflexivity.
  exact (conj H1 (conj H2
           (parseArgs_key_equals_value ["--expires"] "difficulty" "-5" H1 H2))).
Defined.

(** X18 on [--json --difficulty] and on [--json --difficulty -5]. *)
Lemma parseArgs_flag_and_value_witness :
  contains "=" "difficulty" = false
  /\ String.eqb "difficulty" "__proto__" = false
  /\ dash_digit "-5" = true
  /\ Parsed.get "difficulty" (parseArgs ["--json"; "--difficulty"]) = Some (VBool true)
  /\ Parsed.get "difficulty" (parseArgs ["--json"; "--difficulty"; "-5"])
     = Some (VStr "-5").
Proof.
  assert (H1 : contains "=" "difficulty" = false) by reflexivity.
  assert (H2 : String.eqb "difficulty" "__proto__" = false) by reflexivity.
  assert (H3 : dash_digit "-5" = true) by reflexivity.
  pose proof (parseArgs_flag_and_value ["--json"] "difficulty" H1 H2) as [A B].
  exact (conj H1 (conj H2 (conj H3 (conj A (B "-5" (or_intror H3)))))).
Defined.

(** X19 on [-d] and on [-d 3] after a prefix. *)
Lemma parseArgs_short_flag_witness :
  js_length "d" = 1%nat
  /\ startsWith "d" "-" = false
  /\ starts_with_digit "d" = false
  /\ startsWith "3" "-" = false
  /\ Parsed.get "d" (parseArgs ["--prefix=ab"; "-d"]) = Some (VBool true)
  /\ Parsed.get "d" (parseArgs ["--prefix=ab"; "-d"; "3"]) = Some (VStr "3").
Proof.
  assert (H1 : js_length "d" = 1%nat) by reflexivity.
  assert (H2 : startsWith "d" "-" = false) by reflexivity.
  assert (H3 : starts_with_digit "d" = false) by reflexivity.
  assert (H4 : startsWith "3" "-" = false) by reflexivity.
  pose proof (parseArgs_short_flag ["--prefix=ab"] "d" H1 H2 H3) as [A B].
  exact (conj H1 (conj H2 (conj H3 (conj H4 (conj A (B "3" (or_introl H4))))))).
Defined.

(** X20 on the arguments of a [verify] command. *)
Lemma parseArgs_values_witness :
  let args := ["--prefix=ab"; "-t"; "00"; "--json"; "--expires"; "-7"] in
  Parsed.get "expires" (parseArgs args) = Some (VStr "-7")
  /\ (VStr "-7" = VBool true
      \/ exists s : string,
           VStr "-7" = VStr s
           /\ ((In s args /\ (startsWith s "-" = false \/ dash_digit s = true))
               \/ In ("--" ++ "expires" ++ "=" ++ s) args)).
Proof.
  intros args.
  assert (H1 : Parsed.get "expires" (parseArgs args) = Some (VStr "-7"))
    by reflexivity.
  exact (conj H1 (parseArgs_values args "expires" (VStr "-7") H1)).
Defined.

(** X22 on the prefix [ab], which nonce 4 is the first to solve. *)
Lemma solve_sh_agrees_with_solveChallenge_witness :
  let clock := fun k : nat => 1700000001000 + 2 * Z.of_nat k in
  let clock' := fun k : nat => 1700000005000 + 7 * Z.of_nat k in
  let o :=
    {| SolveOptions.prefix := "ab"; SolveOptions.target := "0";
       SolveOptions.maxIterations := None; SolveOptions.onProgress := None;
       SolveOptions.progressInterval := None |} in
  let r :=
    {| SolveResult.found := true; SolveResult.nonce := Some "4";
       SolveResult.iterations := 5; SolveResult.timeMs := 2;
       SolveResult.hashRate := 2500;
       SolveResult.hash :=
         Some "0fbfe4a64372de3a802726e99b203126dadea904684f9a18f1513d24e955a819" |} in
  let out :=
    ScriptOutput.solution "4"
      "0fbfe4a64372de3a802726e99b203126dadea904684f9a18f1513d24e955a819" 7 5 in
  solveChallenge node clock 5 o = Some (Return r)
  /\ SolveResult.found r = true
  /\ solve_sh 5 (SolveOptions.prefix o) (SolveOptions.target o) clock' = Some out
  /\ SolveResult.nonce r = Some "4"
  /\ SolveResult.hash r
     = Some "0fbfe4a64372de3a802726e99b203126dadea904684f9a18f1513d24e955a819"
  /\ SolveResult.iterations r = 5.
Proof.
  intros clock clock' o r out.
  assert (H1 : solveChallenge node clock 5 o = Some (Return r))
    by (vm_compute; reflexivity).
  assert (H2 : SolveResult.found r = true) by reflexivity.
  assert (H3 : solve_sh 5 (SolveOptions.prefix o) (SolveOptions.target o) clock'
               = Some out) by (vm_compute; reflexivity).
  exact (conj H1 (conj H2 (conj H3
           (solve_sh_agrees_with_solveChallenge clock clock' 5 5 o r _ _ _ _ H1 H2 H3)))).
Defined.
